(** * lwc-dev-mobile: preview server bootstrap and module resolution

    A shallow embedding of the preview-server utilities
    ([LwrServerUtils.ts]) and of the module providers
    ([CustomLwcModuleProvider.mjs], [SfdxLabelModuleProvider.mjs] and the
    static-resource provider), followed by the properties that the
    design document states about them.

    Conventions of the embedding:
    - JavaScript strings are [string], the bytes of the text in UTF-8, so
      that a character outside ASCII takes two or three bytes; a number
      is a double, [float], and [Z] where the code only has integers
      (ports, instants in milliseconds, exit statuses);
    - a call that may throw returns a [Completion]; [try]/[catch] is
      [try_catch]; a promise is identified with its settlement (resolved
      is [Normal], rejected is [Throw]);
    - everything the code asks of its surroundings (file system, child
      processes, clock, libraries it calls) is a field of [Host], so that
      every definition can be run on a concrete host;
    - paths follow the POSIX flavour of node's [path] module
      ([path.sep] is a slash). *)

From Stdlib Require Import ZArith Lia Bool List Ascii String.
From Stdlib Require Import Numbers.DecimalString.
From Stdlib Require Import Floats.PrimFloat Floats.FloatOps Floats.SpecFloat.
From stdpp Require Import base option list strings gmap.

Local Open Scope Z_scope.

(* ================================================================== *)
(** * Part I: definitions *)
(* ================================================================== *)

(** ** Abrupt completion *)

Inductive Completion (A : Type) : Type :=
| Normal (a : A)
| Throw (e : string).
Arguments Normal {A} a.
Arguments Throw {A} e.

Definition bindC {A B} (c : Completion A) (k : A -> Completion B) : Completion B :=
  match c with
  | Normal a => k a
  | Throw e => Throw e
  end.

Notation "'let!' x ':=' c 'in' k" := (bindC c (fun x => k))
  (at level 10, x name, c at level 100, k at level 200).

(** [try { body } catch { handler }] *)
Definition try_catch {A} (body : Completion A) (handler : string -> A) : A :=
  match body with
  | Normal a => a
  | Throw e => handler e
  end.

(** ** The fragment of [String.prototype] used by the sources *)

Module JsString.

Definition quote : string := String (ascii_of_nat 34) EmptyString.

(** [`${n}`] for an integer number *)
Definition ofZ (n : Z) : string := NilEmpty.string_of_int (Z.to_int n).

(** truthiness of a string: only the empty string is falsy *)
Definition truthy (s : string) : bool := negb (String.eqb s "").

Fixpoint drop (n : nat) (s : string) : string :=
  match n, s with
  | O, _ => s
  | S _, EmptyString => EmptyString
  | S n', String _ s' => drop n' s'
  end.

Fixpoint startsWith (s p : string) {struct p} : bool :=
  match p with
  | EmptyString => true
  | String a p' =>
      match s with
      | EmptyString => false
      | String b s' => Ascii.eqb a b && startsWith s' p'
      end
  end.

Fixpoint endsWith (s suffix : string) : bool :=
  String.eqb s suffix
  || match s with
     | EmptyString => false
     | String _ s' => endsWith s' suffix
     end.

(** [s.split(sep)] for a one-character separator: never empty *)
Fixpoint split (sep : ascii) (s : string) : list string :=
  match s with
  | EmptyString => [EmptyString]
  | String c s' =>
      if Ascii.eqb c sep then EmptyString :: split sep s'
      else match split sep s' with
           | seg :: rest => String c seg :: rest
           | [] => [String c EmptyString]
           end
  end.

(** [s.replace(pat, rep)] with a string pattern: first occurrence only *)
Fixpoint replace (pat rep s : string) : string :=
  if startsWith s pat then rep +:+ drop (String.length pat) s
  else match s with
       | EmptyString => EmptyString
       | String c s' => String c (replace pat rep s')
       end.

(** [s.replace(/c/gi, rep)] for a pattern that is one caseless character *)
Fixpoint replaceAll (c : ascii) (rep : string) (s : string) : string :=
  match s with
  | EmptyString => EmptyString
  | String d s' =>
      (if Ascii.eqb d c then rep else String d EmptyString) +:+ replaceAll c rep s'
  end.

Fixpoint indexFrom (i : Z) (c : ascii) (s : string) (found : Z) : Z :=
  match s with
  | EmptyString => found
  | String d s' => indexFrom (i + 1) c s' (if Ascii.eqb d c then i else found)
  end.

(** [s.lastIndexOf(c)] for a one-character needle *)
Definition lastIndexOf (c : ascii) (s : string) : Z := indexFrom 0 c s (-1).

(** White space and line terminators that [trim] removes.  Those of one
    byte: TAB, LF, VT, FF, CR and SPACE. *)
Definition isSpace (c : ascii) : bool :=
  let n := nat_of_ascii c in
  ((9 <=? n)%nat && (n <=? 13)%nat) || (n =? 32)%nat.

(** Of two bytes: NO-BREAK SPACE, U+00A0. *)
Definition isSpace2 (c1 c2 : ascii) : bool :=
  (nat_of_ascii c1 =? 194)%nat && (nat_of_ascii c2 =? 160)%nat.

(** Of three bytes: U+1680, U+2000 to U+200A, the separators U+2028 and
    U+2029, U+202F, U+205F, U+3000 and the byte order mark U+FEFF. *)
Definition isSpace3 (c1 c2 c3 : ascii) : bool :=
  let n1 := nat_of_ascii c1 in
  let n2 := nat_of_ascii c2 in
  let n3 := nat_of_ascii c3 in
  ((n1 =? 225) && (n2 =? 154) && (n3 =? 128))%nat
  || ((n1 =? 226) && (n2 =? 128)
      && (((128 <=? n3) && (n3 <=? 138)) || (n3 =? 168) || (n3 =? 169) || (n3 =? 175)))%nat
  || ((n1 =? 226) && (n2 =? 129) && (n3 =? 159))%nat
  || ((n1 =? 227) && (n2 =? 128) && (n3 =? 128))%nat
  || ((n1 =? 239) && (n2 =? 187) && (n3 =? 191))%nat.

Fixpoint trimStart (s : string) : string :=
  match s with
  | EmptyString => EmptyString
  | String c1 s1 =>
      if isSpace c1 then trimStart s1
      else
        match s1 with
        | EmptyString => s
        | String c2 s2 =>
            if isSpace2 c1 c2 then trimStart s2
            else
              match s2 with
              | EmptyString => s
              | String c3 s3 => if isSpace3 c1 c2 c3 then trimStart s3 else s
              end
        end
  end.

(** What is left once the white space at the end is cut off: nothing
    when all of the string is white space. *)
Fixpoint trimEnd (s : string) : string :=
  match s with
  | EmptyString => EmptyString
  | String c s' =>
      if String.eqb (trimStart s) EmptyString then EmptyString
      else String c (trimEnd s')
  end.

Definition trim (s : string) : string := trimEnd (trimStart s).

(** does the character occur in the string *)
Fixpoint occurs (c : ascii) (s : string) : bool :=
  match s with
  | EmptyString => false
  | String d s' => Ascii.eqb d c || occurs c s'
  end.

End JsString.

(** ** Numbers

    A number of JavaScript is a double.  The sources multiply numbers,
    print them and hand them to timers. *)

Module JsNumber.

(** The double nearest to an integer. *)
Definition ofZ (n : Z) : float := SF2Prim (binary_normalize prec emax n 0 false).

(** [Math.trunc(x)] for a finite [x]. *)
Definition trunc (x : float) : Z :=
  match Prim2SF x with
  | S754_finite negative m e =>
      let magnitude := Z.shiftl (Z.pos m) e in
      if negative then - magnitude else magnitude
  | _ => 0
  end.

(** truthiness of a number: zero and [NaN] are falsy *)
Definition truthy (x : float) : bool := negb (PrimFloat.eqb x 0) && PrimFloat.eqb x x.

(** Printing follows [Number::toString]: the shortest digits that read
    back as the number.  A decimal [s * 10^q] reads back as the double
    [m * 2^e] when it lies between the midpoints to the doubles on
    either side, the midpoints included when [m] is even.  [below] and
    [above] are these midpoints in units of [2^(e-2)]; the double under
    a power of two is half as far away. *)
Definition below (m e : Z) : Z :=
  if (m =? 2 ^ 52) && (-1074 <? e) then 4 * m - 1 else 4 * m - 2.

Definition above (m : Z) : Z := 4 * m + 2.

(** [s * 10^q] compared with [b * 2^(e-2)] *)
Definition compareScaled (s q b e : Z) : comparison :=
  (s * 10 ^ Z.max q 0 * 2 ^ Z.max (2 - e) 0
   ?= b * 2 ^ Z.max (e - 2) 0 * 10 ^ Z.max (- q) 0).

Definition readsBack (m e s q : Z) : bool :=
  match compareScaled s q (below m e) e, compareScaled s q (above m) e with
  | Gt, Lt => true
  | Eq, _ | _, Eq => Z.even m
  | _, _ => false
  end.

(** How far [s * 10^q] is from [m * 2^e], in units that are the same
    for every [s]. *)
Definition distance (m e s q : Z) : Z :=
  Z.abs (s * 10 ^ Z.max q 0 * 2 ^ Z.max (2 - e) 0
         - 4 * m * 2 ^ Z.max (e - 2) 0 * 10 ^ Z.max (- q) 0).

Fixpoint scaleUp (fuel : nat) (m twos : Z) (n : Z) : Z :=
  match fuel with
  | O => n
  | S fuel => if twos <=? m then n else scaleUp fuel (m * 10) twos (n - 1)
  end.

(** The [n] with [10^(n-1) <= m * 2^e < 10^n]. *)
Definition decimalExponent (m e : Z) : Z :=
  let whole := Z.shiftl m e in
  if 1 <=? whole then Z.of_nat (String.length (JsString.ofZ whole))
  else scaleUp 400 (m * 10) (2 ^ (- e)) 0.

(** The digits [s] and the exponent [n]: [s] has [k] digits, as few as
    can be, and [s * 10^(n-k)] reads back as [m * 2^e]; of two such
    [s] the nearer one, and the even one if they are as near. *)
Fixpoint shortest (fuel : nat) (m e n k : Z) : Z * Z :=
  let q := n - k in
  let low := if 0 <=? q then Z.shiftl m e / 10 ^ q
             else (m * 10 ^ (- q) * 2 ^ Z.max e 0) / 2 ^ Z.max (- e) 0 in
  let high := low + 1 in
  let pick s := if s =? 10 ^ k then (10 ^ (k - 1), n + 1) else (s, n) in
  match readsBack m e low q, readsBack m e high q with
  | true, true =>
      match distance m e low q ?= distance m e high q with
      | Lt => pick low
      | Gt => pick high
      | Eq => if Z.even low then pick low else pick high
      end
  | true, false => pick low
  | false, true => pick high
  | false, false =>
      match fuel with
      | O => pick low
      | S fuel => shortest fuel m e n (k + 1)
      end
  end.

Fixpoint zeros (n : nat) : string :=
  match n with
  | O => EmptyString
  | S n => String "0" (zeros n)
  end.

(** a positive finite number [m * 2^e] *)
Definition printPositive (m e : Z) : string :=
  let '(s, n) := shortest 17 m e (decimalExponent m e) 1 in
  let digits := JsString.ofZ s in
  let k := Z.of_nat (String.length digits) in
  if (-5 <=? n) && (n <=? 21) then
    if k <=? n then digits +:+ zeros (Z.to_nat (n - k))
    else if 0 <? n then
      String.substring 0 (Z.to_nat n) digits +:+ "." +:+ JsString.drop (Z.to_nat n) digits
    else "0." +:+ zeros (Z.to_nat (- n)) +:+ digits
  else
    let exponent := (if n - 1 <? 0 then "-" else "+") +:+ JsString.ofZ (Z.abs (n - 1)) in
    if k =? 1 then digits +:+ "e" +:+ exponent
    else String.substring 0 1 digits +:+ "." +:+ JsString.drop 1 digits +:+ "e" +:+ exponent.

(** [`${x}`] *)
Definition toString (x : float) : string :=
  match Prim2SF x with
  | S754_zero _ => "0"
  | S754_infinity negative => if negative then "-Infinity" else "Infinity"
  | S754_nan => "NaN"
  | S754_finite negative m e =>
      (if negative then "-" else "") +:+ printPositive (Z.pos m) e
  end.

End JsNumber.

(** ** node's [path] module, POSIX flavour *)

Module Path.

Definition sep : string := "/".

(** [normalizeString]: the segments that survive, innermost last;
    [kept] holds them in reverse while walking. *)
Fixpoint normalizeSegments (allowAboveRoot : bool) (segs kept : list string)
  : list string :=
  match segs with
  | [] => rev kept
  | seg :: more =>
      if String.eqb seg "" || String.eqb seg "." then
        normalizeSegments allowAboveRoot more kept
      else if String.eqb seg ".." then
        match kept with
        | last :: kept' =>
            if String.eqb last ".." then
              normalizeSegments allowAboveRoot more
                (if allowAboveRoot then ".." :: kept else kept)
            else normalizeSegments allowAboveRoot more kept'
        | [] =>
            normalizeSegments allowAboveRoot more
              (if allowAboveRoot then [".."] else [])
        end
      else normalizeSegments allowAboveRoot more (seg :: kept)
  end.

Definition normalizeString (path : string) (allowAboveRoot : bool) : string :=
  String.concat "/" (normalizeSegments allowAboveRoot (JsString.split "/" path) []).

Definition isAbsolute (path : string) : bool := JsString.startsWith path "/".

Definition normalize (path : string) : string :=
  if String.eqb path "" then "."
  else
    let trailingSeparator := JsString.endsWith path "/" in
    let p := normalizeString path (negb (isAbsolute path)) in
    if String.eqb p "" then
      if isAbsolute path then "/" else if trailingSeparator then "./" else "."
    else
      (if isAbsolute path then "/" else "") +:+ p
      +:+ (if trailingSeparator then "/" else "").

(** [path.join(...args)] *)
Definition join (args : list string) : string :=
  match filter (fun a => a <> "") args with
  | [] => "."
  | parts => normalize (String.concat "/" parts)
  end.

(** The right-to-left walk of [path.resolve]: stop at the first absolute
    candidate. *)
Fixpoint gather (candidates : list string) (resolvedPath : string) : string * bool :=
  match candidates with
  | [] => (resolvedPath, false)
  | path :: more =>
      if String.eqb path "" then gather more resolvedPath
      else
        let r := path +:+ "/" +:+ resolvedPath in
        if isAbsolute path then (r, true) else gather more r
  end.

(** [path.resolve(...args)] in a process whose working directory is [cwd] *)
Definition resolve (cwd : string) (args : list string) : string :=
  let '(resolvedPath, resolvedAbsolute) := gather (rev args ++ [cwd]) "" in
  let p := normalizeString resolvedPath (negb resolvedAbsolute) in
  if resolvedAbsolute then "/" +:+ p
  else if String.eqb p "" then "." else p.

Fixpoint stripTrailingSlashes (s : string) : string :=
  match s with
  | EmptyString => EmptyString
  | String c s' =>
      match stripTrailingSlashes s' with
      | EmptyString => if Ascii.eqb c "/" then EmptyString else String c EmptyString
      | t => String c t
      end
  end.

(** Cut at the last occurrence of [c]: what is before it and what is after. *)
Fixpoint splitLast (c : ascii) (s : string) : option (string * string) :=
  match s with
  | EmptyString => None
  | String d s' =>
      match splitLast c s' with
      | Some (before, after) => Some (String d before, after)
      | None => if Ascii.eqb d c then Some (EmptyString, s') else None
      end
  end.

(** Name and extension of a base name; [rootLevel] is the case of
    [path.parse] on an absolute path with a single segment, where node
    does not treat [..] specially. *)
Definition splitExt (base : string) (rootLevel : bool) : string * string :=
  match splitLast "." base with
  | None => (base, "")
  | Some (before, after) =>
      if String.eqb before "" then (base, "")
      else if String.eqb base ".." && negb rootLevel then (base, "")
      else (before, "." +:+ after)
  end.

Definition basename (path : string) : string :=
  let p := stripTrailingSlashes path in
  match splitLast "/" p with
  | Some (_, after) => after
  | None => p
  end.

(** [path.extname(path)] *)
Definition extname (path : string) : string := snd (splitExt (basename path) false).

Record ParsedPath : Type := {
  parsed_dir : string;
  parsed_base : string;
  parsed_ext : string;
  parsed_name : string
}.

(** [path.parse(path)] *)
Definition parse (path : string) : ParsedPath :=
  let root := if isAbsolute path then "/" else "" in
  let rest := stripTrailingSlashes (if isAbsolute path then JsString.drop 1 path else path) in
  match splitLast "/" rest with
  | Some (before, base) =>
      let '(name, ext) := splitExt base false in
      {| parsed_dir := root +:+ before; parsed_base := base;
         parsed_ext := ext; parsed_name := name |}
  | None =>
      let '(name, ext) := splitExt rest (isAbsolute path) in
      {| parsed_dir := root; parsed_base := rest;
         parsed_ext := ext; parsed_name := name |}
  end.

End Path.

(** ** JavaScript values as produced by [JSON.parse] and the XML parser

    A number is [JNum] where it is an integer that the code counts with
    (a port), and [JDec], a double, in general. *)

#[warnings="-register-all"]
Inductive JsValue : Type :=
| JUndefined
| JNull
| JBool (b : bool)
| JNum (n : Z)
| JDec (x : float)
| JStr (s : string)
| JArr (items : list JsValue)
| JObj (fields : list (string * JsValue)).

Module Js.

Definition truthy (v : JsValue) : bool :=
  match v with
  | JUndefined | JNull => false
  | JBool b => b
  | JNum n => negb (n =? 0)
  | JDec x => JsNumber.truthy x
  | JStr s => JsString.truthy s
  | JArr _ | JObj _ => true
  end.

Fixpoint lookupField (k : string) (fields : list (string * JsValue)) : JsValue :=
  match fields with
  | [] => JUndefined
  | (k', v) :: more => if String.eqb k' k then v else lookupField k more
  end.

(** [v.k] for a data property [k]: reading from [undefined] or [null]
    throws, a value without that property gives [undefined]. *)
Definition getProp (v : JsValue) (k : string) : Completion JsValue :=
  match v with
  | JUndefined => Throw ("TypeError: Cannot read properties of undefined (reading '" +:+ k +:+ "')")
  | JNull => Throw ("TypeError: Cannot read properties of null (reading '" +:+ k +:+ "')")
  | JObj fields => Normal (lookupField k fields)
  | _ => Normal JUndefined
  end.

(** [v?.k] *)
Definition getPropOpt (v : JsValue) (k : string) : Completion JsValue :=
  match v with
  | JUndefined | JNull => Normal JUndefined
  | _ => getProp v k
  end.

Definition isArray (v : JsValue) : bool :=
  match v with JArr _ => true | _ => false end.

(** [v === s] for a string [s] *)
Definition strictEqStr (v : JsValue) (s : string) : bool :=
  match v with JStr t => String.eqb t s | _ => false end.

(** [`${v}`]; [inArray] is the variant used on the elements of a joined
    array, where [undefined] and [null] print as nothing. *)
Fixpoint toStr (inArray : bool) (v : JsValue) : string :=
  match v with
  | JUndefined => if inArray then "" else "undefined"
  | JNull => if inArray then "" else "null"
  | JBool b => if b then "true" else "false"
  | JNum n => JsString.ofZ n
  | JDec x => JsNumber.toString x
  | JStr s => s
  | JArr items => String.concat "," (map (toStr true) items)
  | JObj _ => "[object Object]"
  end.

Definition toString (v : JsValue) : string := toStr false v.

(** [items.join()] *)
Definition joinArray (items : list JsValue) : string :=
  String.concat "," (map (toStr true) items).

(** [items.map(f)] for a callback that may throw *)
Fixpoint mapC {A B} (f : A -> Completion B) (items : list A) : Completion (list B) :=
  match items with
  | [] => Normal []
  | x :: more =>
      let! y := f x in
      let! ys := mapC f more in
      Normal (y :: ys)
  end.

(** [items.find(p)] for a callback that may throw *)
Fixpoint findC (p : JsValue -> Completion bool) (items : list JsValue)
  : Completion JsValue :=
  match items with
  | [] => Normal JUndefined
  | x :: more =>
      let! hit := p x in
      if hit then Normal x else findC p more
  end.

End Js.

(** A [Map] with string keys, in insertion order. *)
Definition JsMap (V : Type) : Type := list (string * V).


(** ** Configuration records of the LWR runtime *)

Inductive ModuleRecord : Type :=
| DirModuleRecord (dir : string)
| NpmModuleRecord (npm : string)
| AliasModuleRecord (name path : string).

(** A service is given by its name alone or by a pair of name and options. *)
Inductive ServiceConfig : Type :=
| ServiceName (name : string)
| ServicePair (name : string) (options : JsValue).

Record LwrRoute : Type := {
  route_id : string;
  route_path : string;
  route_rootComponent : string
}.

Record LwcConfig : Type := {
  lwc_modules : option (list ModuleRecord)
}.

(** [LwrGlobalConfig]: every field is optional. *)
Record LwrGlobalConfig : Type := {
  cfg_serverMode : option string;
  cfg_port : option Z;
  cfg_rootDir : option string;
  cfg_cacheDir : option string;
  cfg_lwc : option LwcConfig;
  cfg_moduleProviders : option (list ServiceConfig);
  cfg_routes : option (list LwrRoute)
}.

Definition emptyConfig : LwrGlobalConfig :=
  {| cfg_serverMode := None; cfg_port := None; cfg_rootDir := None;
     cfg_cacheDir := None; cfg_lwc := None; cfg_moduleProviders := None;
     cfg_routes := None |}.

(** [AbstractModuleId] *)
Record ModuleId : Type := {
  specifier : string;
  namespace : option string;
  name : option string;
  importer : option string
}.

(** [ModuleEntry] *)
Record ModuleEntry : Type := {
  entry_id : string;
  entry_virtual : bool;
  entry_path : string;
  entry_specifier : string;
  entry_version : string
}.

(** ** The surroundings of the program *)

Record Host : Type := {
  (** [process.platform], [process.cwd()], [__dirname], [Date.now()],
      [process.env.ROOT_DIR] *)
  platform : string;
  cwd : string;
  dirname : string;
  now : Z;
  env_ROOT_DIR : option string;
  (** [CommonUtils.executeCommandSync], [CommonUtils.loadJsonFromFile] *)
  executeCommandSync : string -> Completion string;
  loadJsonFromFile : string -> Completion LwrGlobalConfig;
  (** [normalizeConfig(...).moduleProviders] of the LWR runtime *)
  defaultModuleProviders : list ServiceConfig;
  (** [fs.readFileSync(_, 'utf8')], [fs.existsSync] *)
  readFileSync : string -> Completion string;
  existsSync : string -> bool;
  (** [JSON.parse], [XMLParser.parse], [fastGlob.sync], [hashContent] *)
  JSON_parse : string -> Completion JsValue;
  XMLParser_parse : string -> Completion JsValue;
  fastGlob_sync : list string -> Completion (list string);
  hashContent : string -> string;
  (** [LwcModuleProvider.getModuleEntry], the inherited resolver *)
  super_getModuleEntry : ModuleId -> Completion (option ModuleEntry);
  (** how [lwrapp.close()] settles *)
  lwrapp_close : Completion unit
}.

(** [ModuleCompiled], over the kind of entry the provider attaches *)
Record ModuleCompiled (E : Type) : Type := {
  mc_id : string;
  mc_specifier : string;
  mc_namespace : option string;
  mc_name : string;
  mc_version : string;
  mc_originalSource : string;
  mc_moduleEntry : E;
  mc_ownHash : string;
  mc_compiledSource : string
}.
Arguments mc_id {E} _.
Arguments mc_specifier {E} _.
Arguments mc_namespace {E} _.
Arguments mc_name {E} _.
Arguments mc_version {E} _.
Arguments mc_originalSource {E} _.
Arguments mc_moduleEntry {E} _.
Arguments mc_ownHash {E} _.
Arguments mc_compiledSource {E} _.

(** ** [LwrServerUtils.ts] *)

Module LwrServerUtils.

Definition DEFAULT_SERVER_PORT : Z := 3000.

Definition probeCommand (h : Host) (port : Z) : string :=
  if String.eqb (platform h) "win32"
  then "netstat -an | find " +:+ JsString.quote +:+ "LISTENING" +:+ JsString.quote
       +:+ " | find " +:+ JsString.quote +:+ ":" +:+ JsString.ofZ port +:+ JsString.quote
  else "lsof -i :" +:+ JsString.ofZ port.

(** One turn of [while (!done)]: the values of [port] and [done] after it. *)
Definition probeOnce (h : Host) (port : Z) : Z * bool :=
  let cmd := probeCommand h port in
  try_catch
    (let! result := executeCommandSync h cmd in
     Normal (if JsString.truthy (JsString.trim result)
             then (port + 2, false)   (* that port is in use so try another *)
             else (port, true)))
    (fun _ => (port, true)).

(** The loop; [fuel] bounds the number of turns and [None] is a loop
    that is still running when the fuel is spent. *)
Fixpoint whileNotDone (h : Host) (fuel : nat) (port : Z) : option Z :=
  match fuel with
  | O => None
  | S fuel' =>
      let '(port', done) := probeOnce h port in
      if done then Some port' else whileNotDone h fuel' port'
  end.

Definition getNextAvailablePort (h : Host) (fuel : nat) : option Z :=
  whileNotDone h fuel DEFAULT_SERVER_PORT.

Definition getModifiedModuleProviders (h : Host) : list ServiceConfig :=
  let providers := defaultModuleProviders h in
  ServicePair (Path.resolve (cwd h) [dirname h +:+ "/CustomLwcModuleProvider.js"]) JUndefined
  :: providers.

(** [!x] on optional fields *)
Definition notStr (x : option string) : bool :=
  match x with Some s => negb (JsString.truthy s) | None => true end.

Definition notNum (x : option Z) : bool :=
  match x with Some n => n =? 0 | None => true end.

Definition setServerMode (v : string) (c : LwrGlobalConfig) : LwrGlobalConfig :=
  {| cfg_serverMode := Some v; cfg_port := cfg_port c; cfg_rootDir := cfg_rootDir c;
     cfg_cacheDir := cfg_cacheDir c; cfg_lwc := cfg_lwc c;
     cfg_moduleProviders := cfg_moduleProviders c; cfg_routes := cfg_routes c |}.

Definition setPort (v : Z) (c : LwrGlobalConfig) : LwrGlobalConfig :=
  {| cfg_serverMode := cfg_serverMode c; cfg_port := Some v; cfg_rootDir := cfg_rootDir c;
     cfg_cacheDir := cfg_cacheDir c; cfg_lwc := cfg_lwc c;
     cfg_moduleProviders := cfg_moduleProviders c; cfg_routes := cfg_routes c |}.

Definition setRootDir (v : string) (c : LwrGlobalConfig) : LwrGlobalConfig :=
  {| cfg_serverMode := cfg_serverMode c; cfg_port := cfg_port c; cfg_rootDir := Some v;
     cfg_cacheDir := cfg_cacheDir c; cfg_lwc := cfg_lwc c;
     cfg_moduleProviders := cfg_moduleProviders c; cfg_routes := cfg_routes c |}.

Definition setLwcModules (v : list ModuleRecord) (c : LwrGlobalConfig) : LwrGlobalConfig :=
  {| cfg_serverMode := cfg_serverMode c; cfg_port := cfg_port c; cfg_rootDir := cfg_rootDir c;
     cfg_cacheDir := cfg_cacheDir c; cfg_lwc := Some {| lwc_modules := Some v |};
     cfg_moduleProviders := cfg_moduleProviders c; cfg_routes := cfg_routes c |}.

Definition setModuleProviders (v : list ServiceConfig) (c : LwrGlobalConfig) : LwrGlobalConfig :=
  {| cfg_serverMode := cfg_serverMode c; cfg_port := cfg_port c; cfg_rootDir := cfg_rootDir c;
     cfg_cacheDir := cfg_cacheDir c; cfg_lwc := cfg_lwc c;
     cfg_moduleProviders := Some v; cfg_routes := cfg_routes c |}.

Definition setRoutes (v : list LwrRoute) (c : LwrGlobalConfig) : LwrGlobalConfig :=
  {| cfg_serverMode := cfg_serverMode c; cfg_port := cfg_port c; cfg_rootDir := cfg_rootDir c;
     cfg_cacheDir := cfg_cacheDir c; cfg_lwc := cfg_lwc c;
     cfg_moduleProviders := cfg_moduleProviders c; cfg_routes := Some v |}.

(** The constants that [getMergedLwrConfig] computes from its two
    arguments, in the order of the source. *)

Definition rootDirectory (h : Host) (projectDir : string) : string :=
  Path.resolve (cwd h) [projectDir].

(** e.g: /LWC-Mobile-Samples/HelloWorld/force-app/main/default/lwc/helloWorld *)
Definition componentFullPath (h : Host) (componentName projectDir : string) : string :=
  Path.resolve (cwd h) [Path.join [projectDir; componentName]].

(** e.g: /LWC-Mobile-Samples/HelloWorld/force-app/main/default *)
Definition twoLevelUp (h : Host) (componentName projectDir : string) : string :=
  Path.resolve (cwd h) [Path.join [componentFullPath h componentName projectDir; "../../"]].

(** e.g: lwc/helloWorld *)
Definition rootComp (h : Host) (componentName projectDir : string) : string :=
  JsString.replaceAll "\" "/"
    (JsString.replace (twoLevelUp h componentName projectDir +:+ Path.sep) ""
       (componentFullPath h componentName projectDir)).

Definition lwcModuleRecord (h : Host) (componentName projectDir : string) : ModuleRecord :=
  DirModuleRecord (twoLevelUp h componentName projectDir).

Definition defaultLwrRoute (h : Host) (componentName projectDir : string) : LwrRoute :=
  {| route_id := JsString.replaceAll "/" "-" (rootComp h componentName projectDir)
                 +:+ "-" +:+ JsString.ofZ (now h);
     route_path := "/";
     route_rootComponent := rootComp h componentName projectDir |}.

Definition userConfigPath (h : Host) (projectDir : string) : string :=
  Path.resolve (cwd h) [Path.join [projectDir; "lwr.config.json"]].

(** The default port is only looked for when the configuration has none,
    so the result is [None] only if that search is cut short by [fuel]. *)
Definition getMergedLwrConfig (h : Host) (fuel : nat) (componentName projectDir : string)
  : option LwrGlobalConfig :=
  let modifiedModuleProviders := getModifiedModuleProviders h in
  let config :=
    (* If the user has provided an LWR config file then take it *)
    try_catch (loadJsonFromFile h (userConfigPath h projectDir)) (fun _ => emptyConfig) in
  let config :=
    if notStr (cfg_serverMode config) then setServerMode "dev" config else config in
  config ← (if notNum (cfg_port config)
            then (fun port => setPort port config) <$> getNextAvailablePort h fuel
            else Some config);
  let config :=
    if notStr (cfg_rootDir config)
    then setRootDir (rootDirectory h projectDir) config else config in
  let config :=
    match cfg_lwc config with
    | None => setLwcModules [lwcModuleRecord h componentName projectDir] config
    | Some lwc =>
        match lwc_modules lwc with
        | None => setLwcModules [lwcModuleRecord h componentName projectDir] config
        | Some modules =>
            setLwcModules (lwcModuleRecord h componentName projectDir :: modules) config
        end
    end in
  let config :=
    match cfg_moduleProviders config with
    | None => setModuleProviders modifiedModuleProviders config
    | Some providers => setModuleProviders (modifiedModuleProviders ++ providers) config
    end in
  let config :=
    match cfg_routes config with
    | None => setRoutes [defaultLwrRoute h componentName projectDir] config
    | Some routes => setRoutes (defaultLwrRoute h componentName projectDir :: routes) config
    end in
  Some config.

(** *** The idle timer

    The node process as far as [startLwrServer] drives it: a clock in
    milliseconds, the one-shot timers that are armed, the variable
    [timer] of the listen callback, the console and the status handed to
    [process.exit].  Every timer of this program carries the same
    callback, so a timer is its handle and its deadline.  A callback runs
    to its end before the next event is looked at. *)

Record Process : Type := {
  clock : Z;
  pending : list (nat * Z);
  nextHandle : nat;
  timer : option nat;
  console : list string;
  exited : option Z
}.

Definition boot : Process :=
  {| clock := 0; pending := []; nextHandle := 0; timer := None;
     console := []; exited := None |}.

(** The longest delay that a timer of node takes. *)
Definition TIMEOUT_MAX : float := 2147483647.

(** The delays that node takes as they are; [NaN] is not one. *)
Definition inTimerRange (delay : float) : bool :=
  PrimFloat.leb 1 delay && PrimFloat.leb delay TIMEOUT_MAX.

(** The milliseconds that node arms a timer for: a delay out of range
    is set to 1, and the fraction of a millisecond is dropped. *)
Definition timerDuration (delay : float) : Z :=
  JsNumber.trunc (if inTimerRange delay then delay else 1%float).

(** [setTimeout(callback, delay)] *)
Definition setTimeout (delay : float) (p : Process) : nat * Process :=
  (nextHandle p,
   {| clock := clock p;
      pending := pending p ++ [(nextHandle p, clock p + timerDuration delay)];
      nextHandle := S (nextHandle p); timer := timer p;
      console := console p; exited := exited p |}).

Definition clearTimeout (handle : nat) (p : Process) : Process :=
  {| clock := clock p;
     pending := filter (fun t => fst t <> handle) (pending p);
     nextHandle := nextHandle p; timer := timer p;
     console := console p; exited := exited p |}.

Definition consoleLog (line : string) (p : Process) : Process :=
  {| clock := clock p; pending := pending p; nextHandle := nextHandle p;
     timer := timer p; console := console p ++ [line]; exited := exited p |}.

Definition processExit (code : Z) (p : Process) : Process :=
  {| clock := clock p; pending := pending p; nextHandle := nextHandle p;
     timer := timer p; console := console p; exited := Some code |}.

Definition assignTimer (handle : nat) (p : Process) : Process :=
  {| clock := clock p; pending := pending p; nextHandle := nextHandle p;
     timer := Some handle; console := console p; exited := exited p |}.

Definition setShutDownTimer (timeoutMinutes : float) (p : Process) : nat * Process :=
  setTimeout (timeoutMinutes * 60 * 1000)%float p.

(** The callback that [setShutDownTimer] hands to [setTimeout]. *)
Definition onShutDownTimer (h : Host) (timeoutMinutes : float) (p : Process) : Process :=
  let p := consoleLog ("Server idle for " +:+ JsNumber.toString timeoutMinutes
                       +:+ " minutes... shutting down") p in
  let '(exitCode, p) :=
    try_catch
      (let! _ := lwrapp_close h in Normal (0, p))
      (fun error =>
         (1, consoleLog ("Unable to gracefully shutdown the server - " +:+ error) p)) in
  processExit exitCode p.   (* kill the process on server timeout *)

(** The callback given to [lwrApp.listen]. *)
Definition onListening (port : Z) (serverMode : string) (serverTimeoutMinutes : float)
    (p : Process) : Process :=
  let p := consoleLog ("Listening on port " +:+ JsString.ofZ port
                       +:+ " in mode " +:+ serverMode) p in
  let '(handle, p) := setShutDownTimer serverTimeoutMinutes p in
  assignTimer handle p.

(** The handler of the server's ['request'] event:
    reset the timer every time a request is sent to the server. *)
Definition onRequest (serverTimeoutMinutes : float) (p : Process) : Process :=
  let p := match timer p with
           | Some handle => clearTimeout handle p
           | None => p
           end in
  let '(handle, p) := setShutDownTimer serverTimeoutMinutes p in
  assignTimer handle p.

(** The armed timer that is due first. *)
Fixpoint earliest (ts : list (nat * Z)) : option (nat * Z) :=
  match ts with
  | [] => None
  | t :: more =>
      match earliest more with
      | Some t' => if snd t' <? snd t then Some t' else Some t
      | None => Some t
      end
  end.

Definition advance (d : Z) (p : Process) : Process :=
  {| clock := clock p + d; pending := pending p; nextHandle := nextHandle p;
     timer := timer p; console := console p; exited := exited p |}.

Definition fire (handle : nat) (deadline : Z) (p : Process) : Process :=
  {| clock := Z.max (clock p) deadline;
     pending := filter (fun t => fst t <> handle) (pending p);
     nextHandle := nextHandle p; timer := timer p;
     console := console p; exited := exited p |}.

(** [d] milliseconds go by without a request: a timer whose deadline is
    reached fires, and nothing happens in a process that has exited. *)
Definition elapse (h : Host) (timeoutMinutes : float) (d : Z) (p : Process) : Process :=
  match exited p with
  | Some _ => p
  | None =>
      match earliest (pending p) with
      | Some (handle, deadline) =>
          if deadline <=? clock p + d
          then onShutDownTimer h timeoutMinutes (fire handle deadline p)
          else advance d p
      | None => advance d p
      end
  end.

Inductive Event : Type :=
| Request
| Elapse (d : Z).

Definition step (h : Host) (timeoutMinutes : float) (p : Process) (e : Event) : Process :=
  match e with
  | Request => match exited p with Some _ => p | None => onRequest timeoutMinutes p end
  | Elapse d => elapse h timeoutMinutes d p
  end.

Definition run (h : Host) (timeoutMinutes : float) (events : list Event) (p : Process) : Process :=
  fold_left (step h timeoutMinutes) events p.

(** What [createServer] hands over, as far as [startLwrServer] uses it:
    the port and the mode of [lwrApp.getConfig()], and how the promise
    of [lwrApp.listen] settles. *)
Record LwrApp : Type := {
  app_port : Z;
  app_serverMode : string;
  app_listen : Completion unit
}.

(** [startLwrServer]: how its promise settles and the process it leaves.
    The merged configuration goes to [createServer], which may throw;
    the callback of [listen] runs once the listener is bound, and a
    listen that fails rejects the promise without running it.  The
    promise resolves to the port as a string. *)
Definition startLwrServer (h : Host) (fuel : nat)
    (createServer : LwrGlobalConfig -> Completion LwrApp)
    (componentName projectDir : string) (serverTimeoutMinutes : float)
  : option (Completion string * Process) :=
  lwrConfig ← getMergedLwrConfig h fuel componentName projectDir;
  Some
    match createServer lwrConfig with
    | Throw error => (Throw error, boot)
    | Normal lwrApp =>
        match app_listen lwrApp with
        | Throw error => (Throw error, boot)
        | Normal _ =>
            (Normal (JsString.ofZ (app_port lwrApp)),
             onListening (app_port lwrApp) (app_serverMode lwrApp) serverTimeoutMinutes boot)
        end
    end.

(** A request after each of the given silences. *)
Definition requestsAfter (gaps : list Z) : list Event :=
  flat_map (fun gap => [Elapse gap; Request]) gaps.

(** The milliseconds that the idle timer is armed for. *)
Definition idleDelay (timeoutMinutes : float) : Z :=
  timerDuration (timeoutMinutes * 60 * 1000)%float.

End LwrServerUtils.

(** ** Reading the project manifest

    [generateSfdxComponentsMap] and [generateSfdxLabelComponentsMap] open
    with the same statements, up to the pattern that is globbed. *)

Definition packagePattern (h : Host) (rootDir : string) : Completion JsValue :=
  let! content := readFileSync h (Path.join [rootDir; "sfdx-project.json"]) in
  let! projectJson := JSON_parse h content in
  let! pkgDirs := Js.getProp projectJson "packageDirectories" in
  let! paths :=
    match pkgDirs with
    | JArr items => Js.mapC (fun item => Js.getProp item "path") items
    | JUndefined | JNull =>
        Throw "TypeError: Cannot read properties of undefined (reading 'map')"
    | _ => Throw "TypeError: pkgDirs.map is not a function"
    end in
  Normal (match paths with
          | [only] => only
          | _ => JStr ("{" +:+ Js.joinArray paths +:+ "}")
          end).

Definition sfdxSource (h : Host) (rootDir suffix : string) : Completion string :=
  let! pkgPattern := packagePattern h rootDir in
  Normal (Path.normalize (rootDir +:+ "/" +:+ Js.toString pkgPattern +:+ suffix)).

(** ** [CustomLwcModuleProvider.mjs] *)

Module CustomLwcModuleProvider.

Definition version : string := "1".

Definition nestedModulesNamespace : string := "c/".

Definition lwcDevMobilePath (h : Host) : string :=
  Path.resolve (cwd h) [dirname h +:+ "/../../"].

Definition withImporter (h : Host) (moduleId : ModuleId) : ModuleId :=
  {| specifier := specifier moduleId; namespace := namespace moduleId;
     name := name moduleId; importer := Some (lwcDevMobilePath h) |}.

(** The entry that the resolver builds; it has no [virtual] field. *)
Definition makeEntry (spec entry : string) : ModuleEntry :=
  {| entry_id := spec +:+ "|" +:+ version; entry_virtual := false;
     entry_path := entry; entry_specifier := spec; entry_version := version |}.

(** [a || b] on an optional string and a string *)
Definition orElse (a : option string) (b : string) : string :=
  match a with
  | Some s => if JsString.truthy s then s else b
  | None => b
  end.

(** The resolver that probes for a script and then for a style sheet. *)
Definition getModuleEntry (h : Host) (moduleMap : gmap string string) (moduleId : ModuleId)
  : Completion (option ModuleEntry) :=
  let newModuleId := withImporter h moduleId in
  if JsString.startsWith (specifier newModuleId) nestedModulesNamespace then
    let parts := JsString.split "#" (specifier moduleId) in
    let baseSpecifier := JsString.replace nestedModulesNamespace "" (List.nth 0 parts "") in
    let fileRelativePath := if (1 <? length parts)%nat then parts !! 1%nat else None in
    match moduleMap !! baseSpecifier with
    | Some directoryname =>
        if JsString.truthy directoryname then
          let name := JsString.replace nestedModulesNamespace "" (specifier newModuleId) in
          let name :=
            if negb (JsString.truthy (orElse fileRelativePath ""))
               && (JsString.lastIndexOf "." name =? -1)
            then
              let fullPath := Path.join [directoryname; name] in
              if existsSync h (fullPath +:+ ".js") then name +:+ ".js"
              else if existsSync h (fullPath +:+ ".css") then name +:+ ".css"
              else name
            else name in
          let entry := Path.join [directoryname; orElse fileRelativePath name] in
          if JsString.truthy entry
          then Normal (Some (makeEntry (specifier newModuleId) entry))
          else super_getModuleEntry h newModuleId
        else super_getModuleEntry h newModuleId
    | None => super_getModuleEntry h newModuleId
    end
  else super_getModuleEntry h newModuleId.

(** The earlier revision of the resolver, which names the script without
    looking at the directory. *)
Definition getModuleEntry_rev1 (h : Host) (moduleMap : gmap string string) (moduleId : ModuleId)
  : Completion (option ModuleEntry) :=
  let newModuleId := withImporter h moduleId in
  if JsString.startsWith (specifier newModuleId) nestedModulesNamespace then
    let parts := JsString.split "#" (specifier moduleId) in
    let baseSpecifier := List.nth 0 parts "" in
    let fileRelativePath := parts !! 1%nat in
    match moduleMap !! JsString.replace nestedModulesNamespace "" baseSpecifier with
    | Some directoryname =>
        if JsString.truthy directoryname then
          let name := JsString.replace nestedModulesNamespace "" (specifier newModuleId) in
          let entry := Path.join [directoryname; orElse fileRelativePath (name +:+ ".js")] in
          if JsString.truthy entry
          then Normal (Some (makeEntry (specifier newModuleId) entry))
          else super_getModuleEntry h newModuleId
        else super_getModuleEntry h newModuleId
    | None => super_getModuleEntry h newModuleId
    end
  else super_getModuleEntry h newModuleId.

(** The callback of [files.forEach] *)
Definition addComponent (map : gmap string string) (item : string) : gmap string string :=
  let data := Path.parse item in
  if JsString.endsWith (Path.parsed_dir data) (Path.parsed_name data)
  then <[Path.parsed_name data := Path.parsed_dir data]> map
  else map.

(** No statement ahead of [forEach] touches [map] and the callback does
    not throw, so the handler returns the map as it was created. *)
Definition generateSfdxComponentsMap (h : Host) (rootDir : string) : gmap string string :=
  try_catch
    (let! pattern := sfdxSource h rootDir "/**/*/lwc/**/*.js" in
     let! files := fastGlob_sync h [pattern] in
     Normal (fold_left addComponent files ∅))
    (fun _ => ∅).

(** The later revision globs for the metadata file of each component. *)
Definition addComponentMeta (map : gmap string string) (item : string) : gmap string string :=
  let data := Path.parse item in
  let name := JsString.replace ".js-meta" "" (Path.parsed_name data) in
  if JsString.endsWith (Path.parsed_dir data) name
  then <[name := Path.parsed_dir data]> map
  else map.

Definition generateSfdxComponentsMap_rev2 (h : Host) (rootDir : string) : gmap string string :=
  try_catch
    (let! pattern := sfdxSource h rootDir "/**/*/lwc/**/*.js-meta.xml" in
     let! files := fastGlob_sync h [pattern] in
     Normal (fold_left addComponentMeta files ∅))
    (fun _ => ∅).

End CustomLwcModuleProvider.

(** ** [SfdxLabelModuleProvider.mjs] *)

Module SalesforceLabelProvider.

Definition LABEL_PREFIX : string := "@salesforce/label/".

Definition version : string := "1".

Definition isLabelScopedModule (id : string) : bool := JsString.startsWith id LABEL_PREFIX.

(** The entry of a label carries the value that was found. *)
Record LabelModuleEntry : Type := {
  entry : ModuleEntry;
  labelValue : JsValue
}.



(** The [for ... of] loop over the files of the map *)
Fixpoint searchLabels (labelName : string) (items : JsMap JsValue) : Completion JsValue :=
  match items with
  | [] => Normal JUndefined
  | item :: more =>
      let! customLabels := Js.getProp (snd item) "CustomLabels" in
      let! labels := Js.getPropOpt customLabels "labels" in
      let labels := match labels with JArr elements => elements | other => [other] end in
      let! found :=
        Js.findC
          (fun item =>
             let! fullName := Js.getProp item "fullName" in
             Normal (Js.strictEqStr fullName labelName))
          labels in
      if Js.truthy found then Js.getProp found "value"
      else searchLabels labelName more
  end.

Definition getLabelValueFromMap (customLabelsMap : JsMap JsValue) (specifier : string)
  : Completion JsValue :=
  let labelName :=
    seg ← JsString.split "/" specifier !! 2%nat;
    JsString.split "." seg !! 1%nat in
  match labelName with
  | Some labelName =>
      if JsString.truthy labelName then searchLabels labelName customLabelsMap
      else Normal JUndefined
  | None => Normal JUndefined
  end.

Definition getModuleEntry (customLabelsMap : JsMap JsValue) (moduleId : ModuleId)
  : Completion (option LabelModuleEntry) :=
  if isLabelScopedModule (specifier moduleId) then
    let! matchedLabel := getLabelValueFromMap customLabelsMap (specifier moduleId) in
    if Js.truthy matchedLabel then
      Normal (Some
        {| entry :=
             {| entry_id := specifier moduleId +:+ "|" +:+ version;
                entry_virtual := true;
                entry_path := "<virtual>/" +:+ specifier moduleId
                              +:+ (if JsString.truthy (Path.extname (specifier moduleId))
                                   then "" else ".js");
                entry_specifier := specifier moduleId;
                entry_version := version |};
           labelValue := matchedLabel |})
    else Normal None
  else Normal None.

Definition getModule (h : Host) (customLabelsMap : JsMap JsValue) (moduleId : ModuleId)
  : Completion (option (ModuleCompiled LabelModuleEntry)) :=
  let! moduleEntry := getModuleEntry customLabelsMap moduleId in
  match moduleEntry with
  | None => Normal None
  | Some moduleEntry =>
      if negb (Js.truthy (labelValue moduleEntry)) then Normal None
      else
        let originalSource :=
          "export default " +:+ JsString.quote +:+ Js.toString (labelValue moduleEntry)
          +:+ JsString.quote +:+ ";" in
        Normal (Some
          {| mc_id := entry_id (entry moduleEntry);
             mc_specifier := specifier moduleId;
             mc_namespace := namespace moduleId;
             mc_name := default (specifier moduleId) (name moduleId);
             mc_version := version;
             mc_originalSource := originalSource;
             mc_moduleEntry := moduleEntry;
             mc_ownHash := hashContent h originalSource;
             mc_compiledSource := originalSource |})
  end.

End SalesforceLabelProvider.

(** ** The provider of static resources and content assets *)

Module SalesforceResourceProvider.

Definition RESOURCE_URL_PREFIX : string := "@salesforce/resourceUrl/".
Definition CONTENT_ASSET_URL_PREFIX : string := "@salesforce/contentAssetUrl/".

Definition version : string := "1".

Definition isResourceUrlScopedModule (id : string) : bool :=
  JsString.startsWith id RESOURCE_URL_PREFIX
  || JsString.startsWith id CONTENT_ASSET_URL_PREFIX.

Definition getModuleEntry (moduleId : ModuleId) : Completion (option ModuleEntry) :=
  if isResourceUrlScopedModule (specifier moduleId) then
    Normal (Some
      {| entry_id := specifier moduleId +:+ "|" +:+ version;
         entry_virtual := true;
         entry_path := "<virtual>/" +:+ specifier moduleId
                       +:+ (if JsString.truthy (Path.extname (specifier moduleId))
                            then "" else ".js");
         entry_specifier := specifier moduleId;
         entry_version := version |})
  else Normal None.

Definition getFileExtension (h : Host) (filePath : string) : string :=
  try_catch
    (let! files :=
       fastGlob_sync h [filePath +:+ ".*";
                        "!" +:+ filePath +:+ ".resource-meta.*";
                        "!" +:+ filePath +:+ ".asset-meta.*"] in
     Normal (match files with
             | first :: _ => Path.extname first
             | [] => ""
             end))
    (fun _ => "").

Definition getPath (h : Host) (name folder : string) : string :=
  let rootDir := Path.resolve (cwd h) [default "" (env_ROOT_DIR h)] in
  let pathInFolder := Path.join [folder; name] in
  let fullPath := Path.normalize (Path.resolve (cwd h) [rootDir; pathInFolder]) in
  let fileExtension := getFileExtension h fullPath in
  pathInFolder +:+ fileExtension.

Definition getContentAssetFilePath (h : Host) (name : string) : string :=
  getPath h name "force-app/main/default/contentassets".

Definition getResourceFilePath (h : Host) (name : string) : string :=
  getPath h name "force-app/main/default/staticresources".

Definition getModule (h : Host) (moduleId : ModuleId)
  : Completion (option (ModuleCompiled ModuleEntry)) :=
  let! moduleEntry := getModuleEntry moduleId in
  match moduleEntry with
  | None => Normal None
  | Some moduleEntry =>
      let isContentAsset :=
        JsString.startsWith (specifier moduleId) CONTENT_ASSET_URL_PREFIX in
      let! resourceName :=
        match JsString.split "/" (specifier moduleId) !! 2%nat with
        | Some seg => Normal (List.nth 0 (JsString.split "." seg) "")
        | None => Throw "TypeError: Cannot read properties of undefined (reading 'split')"
        end in
      let filePath :=
        if isContentAsset then getContentAssetFilePath h resourceName
        else getResourceFilePath h resourceName in
      let originalSource :=
        "export default " +:+ JsString.quote +:+ filePath +:+ JsString.quote +:+ ";" in
      Normal (Some
        {| mc_id := entry_id moduleEntry;
           mc_specifier := specifier moduleId;
           mc_namespace := namespace moduleId;
           mc_name := default (specifier moduleId) (name moduleId);
           mc_version := version;
           mc_originalSource := originalSource;
           mc_moduleEntry := moduleEntry;
           mc_ownHash := hashContent h originalSource;
           mc_compiledSource := originalSource |})
  end.

End SalesforceResourceProvider.

(* ================================================================== *)
(** * Vocabulary of the statements *)
(* ================================================================== *)

(** What the probe of a port tells: in use when the command prints
    something other than white space, free when it prints nothing or
    throws. *)
Definition probeSaysInUse (h : Host) (port : Z) : bool :=
  match executeCommandSync h (LwrServerUtils.probeCommand h port) with
  | Normal result => JsString.truthy (JsString.trim result)
  | Throw _ => false
  end.

(** NO-BREAK SPACE, U+00A0, in UTF-8. *)
Definition noBreakSpace : string :=
  String (ascii_of_nat 194) (String (ascii_of_nat 160) EmptyString).

(** Does the string hold a character other than [c]?  A path segment
    with a character other than a dot is neither empty nor [.] nor [..]. *)
Fixpoint someOtherThan (c : ascii) (s : string) : bool :=
  match s with
  | EmptyString => false
  | String d s' => negb (Ascii.eqb d c) || someOtherThan c s'
  end.

(** The idle timeout that the repository's test of the timer passes. *)
#[warnings="-inexact-float"]
Definition testTimeoutMinutes : float := 0.002.

(** Does [test] hold of the [count] integers from [first] on? *)
Fixpoint holdsFrom (count : nat) (first : Z) (test : Z -> bool) : bool :=
  match count with
  | O => true
  | S count => test first && holdsFrom count (first + 1) test
  end.

(** The state between two events of a server that is up: one timer is
    armed, it is the one [timer] names, and it is due a full timeout
    after the present instant. *)
Definition armedAfresh (timeoutMinutes : float) (p : LwrServerUtils.Process) : Prop :=
  LwrServerUtils.exited p = None /\
  exists handle,
    LwrServerUtils.pending p
    = [(handle, LwrServerUtils.clock p + LwrServerUtils.idleDelay timeoutMinutes)]
    /\ LwrServerUtils.timer p = Some handle.

(** The modules that a configuration lists, if it lists any. *)
Definition declaredModules (c : LwrGlobalConfig) : option (list ModuleRecord) :=
  lwc ← cfg_lwc c; lwc_modules lwc.

(** ** Concrete hosts to run the definitions on *)

(** A machine where nothing is there: every command, read and parse
    fails, no file exists. *)
Definition bareHost : Host :=
  {| platform := "linux";
     cwd := "/home/dev";
     dirname := "/opt/plugin/lib/common";
     now := 1700000000000;
     env_ROOT_DIR := Some "/proj";
     executeCommandSync := fun _ => Throw "Error: Command failed";
     loadJsonFromFile := fun _ => Throw "ENOENT: no such file or directory";
     defaultModuleProviders := [ServiceName "@lwrjs/lwc-module-provider"];
     readFileSync := fun _ => Throw "ENOENT: no such file or directory";
     existsSync := fun _ => false;
     JSON_parse := fun _ => Throw "SyntaxError: Unexpected token";
     XMLParser_parse := fun _ => Throw "Error: invalid XML";
     fastGlob_sync := fun _ => Normal [];
     hashContent := fun source => source;
     super_getModuleEntry := fun _ => Normal None;
     lwrapp_close := Normal tt |}.

Definition withCommands (run : string -> Completion string) (h : Host) : Host :=
  {| platform := platform h; cwd := cwd h; dirname := dirname h; now := now h;
     env_ROOT_DIR := env_ROOT_DIR h;
     executeCommandSync := run;
     loadJsonFromFile := loadJsonFromFile h;
     defaultModuleProviders := defaultModuleProviders h;
     readFileSync := readFileSync h; existsSync := existsSync h;
     JSON_parse := JSON_parse h; XMLParser_parse := XMLParser_parse h;
     fastGlob_sync := fastGlob_sync h; hashContent := hashContent h;
     super_getModuleEntry := super_getModuleEntry h;
     lwrapp_close := lwrapp_close h |}.

Definition withUserConfig (load : string -> Completion LwrGlobalConfig) (h : Host) : Host :=
  {| platform := platform h; cwd := cwd h; dirname := dirname h; now := now h;
     env_ROOT_DIR := env_ROOT_DIR h;
     executeCommandSync := executeCommandSync h;
     loadJsonFromFile := load;
     defaultModuleProviders := defaultModuleProviders h;
     readFileSync := readFileSync h; existsSync := existsSync h;
     JSON_parse := JSON_parse h; XMLParser_parse := XMLParser_parse h;
     fastGlob_sync := fastGlob_sync h; hashContent := hashContent h;
     super_getModuleEntry := super_getModuleEntry h;
     lwrapp_close := lwrapp_close h |}.

Definition withFiles (read : string -> Completion string) (present : string -> bool)
    (glob : list string -> Completion (list string)) (h : Host) : Host :=
  {| platform := platform h; cwd := cwd h; dirname := dirname h; now := now h;
     env_ROOT_DIR := env_ROOT_DIR h;
     executeCommandSync := executeCommandSync h;
     loadJsonFromFile := loadJsonFromFile h;
     defaultModuleProviders := defaultModuleProviders h;
     readFileSync := read; existsSync := present;
     JSON_parse := JSON_parse h; XMLParser_parse := XMLParser_parse h;
     fastGlob_sync := glob; hashContent := hashContent h;
     super_getModuleEntry := super_getModuleEntry h;
     lwrapp_close := lwrapp_close h |}.

Definition withParsers (json xml : string -> Completion JsValue) (h : Host) : Host :=
  {| platform := platform h; cwd := cwd h; dirname := dirname h; now := now h;
     env_ROOT_DIR := env_ROOT_DIR h;
     executeCommandSync := executeCommandSync h;
     loadJsonFromFile := loadJsonFromFile h;
     defaultModuleProviders := defaultModuleProviders h;
     readFileSync := readFileSync h; existsSync := existsSync h;
     JSON_parse := json; XMLParser_parse := xml;
     fastGlob_sync := fastGlob_sync h; hashContent := hashContent h;
     super_getModuleEntry := super_getModuleEntry h;
     lwrapp_close := lwrapp_close h |}.

Definition withClose (outcome : Completion unit) (h : Host) : Host :=
  {| platform := platform h; cwd := cwd h; dirname := dirname h; now := now h;
     env_ROOT_DIR := env_ROOT_DIR h;
     executeCommandSync := executeCommandSync h;
     loadJsonFromFile := loadJsonFromFile h;
     defaultModuleProviders := defaultModuleProviders h;
     readFileSync := readFileSync h; existsSync := existsSync h;
     JSON_parse := JSON_parse h; XMLParser_parse := XMLParser_parse h;
     fastGlob_sync := fastGlob_sync h; hashContent := hashContent h;
     super_getModuleEntry := super_getModuleEntry h;
     lwrapp_close := outcome |}.

(** Port 3000 is taken, every other probe finds nothing. *)
Definition host3000Busy : Host :=
  withCommands
    (fun cmd =>
       if String.eqb cmd "lsof -i :3000"
       then Normal "node 4242 dev 23u IPv6 TCP *:3000 (LISTEN)"
       else Throw "Error: Command failed: lsof")
    bareHost.

(** The configuration file of the test suite. *)
Definition sampleUserConfig : LwrGlobalConfig :=
  {| cfg_serverMode := None;
     cfg_port := Some 3456;
     cfg_rootDir := Some "/path/to/my/rootdir";
     cfg_cacheDir := Some "/path/to/my/cachedir";
     cfg_lwc := Some {| lwc_modules := Some [DirModuleRecord "$rootDir/src/modules"] |};
     cfg_moduleProviders := Some [ServiceName "@company/my-module-provider"];
     cfg_routes := Some [{| route_id := "example"; route_path := "/my/path";
                            route_rootComponent := "example/app" |}] |}.

Definition hostWithSampleConfig : Host :=
  withUserConfig
    (fun file => if String.eqb file "/LWC-Mobile-Samples/HelloWorld/lwr.config.json"
                 then Normal sampleUserConfig
                 else Throw "ENOENT: no such file or directory")
    bareHost.

(** A configuration file that asks for port 0 and nothing else. *)
Definition portZeroConfig : LwrGlobalConfig :=
  {| cfg_serverMode := None; cfg_port := Some 0; cfg_rootDir := None;
     cfg_cacheDir := None; cfg_lwc := None; cfg_moduleProviders := None;
     cfg_routes := None |}.

Definition hostWithPortZero : Host :=
  withUserConfig (fun _ => Normal portZeroConfig) bareHost.

(** A project with one component, [foo], and the files of its directory. *)
Definition fooMap : gmap string string :=
  {[ "foo" := "/proj/force-app/main/default/lwc/foo" ]}.

Definition fooId : ModuleId :=
  {| specifier := "c/foo"; namespace := None; name := None; importer := None |}.

Definition hostWithFooScript : Host :=
  withFiles (readFileSync bareHost)
    (fun file => String.eqb file "/proj/force-app/main/default/lwc/foo/foo.js")
    (fastGlob_sync bareHost) bareHost.

(** ** Labels files as the label provider sees them *)

(** A label is its [fullName] and its [value], each as the XML parser
    hands it over: text as a string, and a number or a boolean where the
    parser reads the text as one. *)
Definition Label : Type := (JsValue * JsValue)%type.

Definition labelEntry (l : Label) : JsValue :=
  JObj [("fullName", fst l); ("value", snd l)].

Definition labelsDocument (labels : JsValue) : JsValue :=
  JObj [("CustomLabels", JObj [("labels", labels)])].

(** What the XML parser hands over for a file with the given labels: an
    array when there are several, the entry itself when there is one,
    and an element without content when there is none. *)
Definition parsedLabels (labels : list Label) : JsValue :=
  match labels with
  | [] => JObj [("CustomLabels", JStr "")]
  | [l] => labelsDocument (labelEntry l)
  | _ => labelsDocument (JArr (map labelEntry labels))
  end.

Definition parsedFiles (files : list (string * list Label)) : JsMap JsValue :=
  map (fun file => (fst file, parsedLabels (snd file))) files.

(** The design document's reading of a lookup: the value of the first
    label of that name, going through the files in order.  A label has
    that name when its [fullName] is that string. *)
Fixpoint firstLabelAcrossFiles (labelName : string) (files : list (string * list Label))
  : option JsValue :=
  match files with
  | [] => None
  | file :: more =>
      match List.find (fun l => Js.strictEqStr (fst l) labelName) (snd file) with
      | Some l => Some (snd l)
      | None => firstLabelAcrossFiles labelName more
      end
  end.

Definition labelId (labelName : string) : ModuleId :=
  {| specifier := "@salesforce/label/c." +:+ labelName;
     namespace := None; name := None; importer := None |}.

Definition exportDefault (text : string) : string :=
  "export default " +:+ JsString.quote +:+ text +:+ JsString.quote +:+ ";".

(** Text that stands for itself between the quotes of a string literal:
    it has no double quote, no backslash and no line break. *)
Definition plainText (text : string) : bool :=
  negb (JsString.occurs (ascii_of_nat 34) text)
  && negb (JsString.occurs "\" text)
  && negb (JsString.occurs (ascii_of_nat 10) text)
  && negb (JsString.occurs (ascii_of_nat 13) text).

(** The string that a module exports by default, for a source that is
    [export default], a string literal without escapes and a semicolon;
    other sources are not decided here. *)
Definition exportedString (source : string) : option string :=
  let opening := "export default " +:+ JsString.quote in
  if JsString.startsWith source opening then
    match Path.splitLast (ascii_of_nat 34) (JsString.drop (String.length opening) source) with
    | Some (body, rest) =>
        if String.eqb rest ";" && plainText body then Some body else None
    | None => None
    end
  else None.

(** Three labels files; the label [greeting] is in the second and in the
    third. *)
Definition sampleLabelFiles : list (string * list Label) :=
  [("force-app/main/default/labels/Farewell.labels-meta.xml",
    [(JStr "farewell", JStr "Bye")]);
   ("force-app/main/default/labels/Custom.labels-meta.xml",
    [(JStr "greeting", JStr "Hello"); (JStr "prompt", JStr "Name?")]);
   ("pkg/labels/Other.labels-meta.xml", [(JStr "greeting", JStr "Hola")])].


(** A labels file where the parser reads the values as numbers: the text
    [0] of [retries] as 0, the text [007] of [agent] as 7 and the text
    [1.5] of [rate] as 1.5. *)
Definition numericValueFiles : list (string * list Label) :=
  [("force-app/main/default/labels/Custom.labels-meta.xml",
    [(JStr "retries", JNum 0); (JStr "agent", JNum 7); (JStr "rate", JDec 1.5%float)])].


(** A labels file without labels, ahead of one that has the label. *)
Definition emptyFileFirst : list (string * list Label) :=
  [("force-app/main/default/labels/Empty.labels-meta.xml", []);
   ("force-app/main/default/labels/Custom.labels-meta.xml",
    [(JStr "greeting", JStr "Hello")])].

(** ** Static resources as the resource provider sees them *)

Definition resourceId (resource : string) : ModuleId :=
  {| specifier := "@salesforce/resourceUrl/" +:+ resource;
     namespace := None; name := None; importer := None |}.

(** The absolute path of a resource, extension left out, and the
    patterns that are globbed for it. *)
Definition resourceFullPath (h : Host) (resource : string) : string :=
  Path.normalize
    (Path.resolve (cwd h)
       [Path.resolve (cwd h) [default "" (env_ROOT_DIR h)];
        "force-app/main/default/staticresources/" +:+ resource]).

Definition resourcePatterns (fullPath : string) : list string :=
  [fullPath +:+ ".*";
   "!" +:+ fullPath +:+ ".resource-meta.*";
   "!" +:+ fullPath +:+ ".asset-meta.*"].

(** The project [/proj] with the image [myImage.png] among its static
    resources. *)
Definition hostWithImage : Host :=
  withFiles (readFileSync bareHost) (existsSync bareHost)
    (fun patterns =>
       match patterns with
       | first :: _ =>
           if String.eqb first "/proj/force-app/main/default/staticresources/myImage.*"
           then Normal ["/proj/force-app/main/default/staticresources/myImage.png"]
           else Normal []
       | [] => Normal []
       end)
    bareHost.

(** The project [/proj] with the minified script [lib.min.js] among its
    static resources, and nothing else named [lib]. *)
Definition hostWithMinifiedScript : Host :=
  withFiles (readFileSync bareHost)
    (fun file => String.eqb file "/proj/force-app/main/default/staticresources/lib.min.js")
    (fun patterns =>
       match patterns with
       | first :: _ =>
           if String.eqb first "/proj/force-app/main/default/staticresources/lib.*"
           then Normal ["/proj/force-app/main/default/staticresources/lib.min.js"]
           else Normal []
       | [] => Normal []
       end)
    bareHost.

(** ** The scan of the labels files *)



(** The project [/proj] with one package directory and three labels
    files; the parser throws on the second. *)
Definition projectManifest : JsValue :=
  JObj [("packageDirectories", JArr [JObj [("path", JStr "force-app"); ("default", JBool true)]])].



(** A server whose close fails. *)
Definition hostCloseFails : Host :=
  withClose (Throw "Error: server is busy") bareHost.

(* ================================================================== *)
(** * Further hosts and vocabulary *)
(* ================================================================== *)

(** Every probe prints a listener: no port is ever found free. *)
Definition hostAllBusy : Host :=
  withCommands (fun _ => Normal "node 4242 dev 23u IPv6 TCP (LISTEN)") bareHost.

(** The port that a configuration ends up with is usable as a port. *)
Definition filledIn (cfg : LwrGlobalConfig) : Prop :=
  (exists mode, cfg_serverMode cfg = Some mode /\ mode <> "")
  /\ (exists port, cfg_port cfg = Some port /\ port <> 0)
  /\ (exists rootDir, cfg_rootDir cfg = Some rootDir /\ rootDir <> "")
  /\ (exists record modules, declaredModules cfg = Some (record :: modules))
  /\ (exists provider providers, cfg_moduleProviders cfg = Some (provider :: providers))
  /\ (exists route routes, cfg_routes cfg = Some (route :: routes) /\ route_path route = "/").

(** ** Paths given by their segments *)

(** A segment that is a name: it has a character other than a dot, and
    neither a slash nor a backslash. *)
Definition plainSegment (s : string) : bool :=
  someOtherThan "." s && negb (JsString.occurs "/" s) && negb (JsString.occurs "\" s).

(** The absolute path with the given segments. *)
Definition absPath (segs : list string) : string := "/" +:+ String.concat "/" segs.

(** ** The revision of [startLwrServer] that hands its results to the
    server through the environment *)

Module LwrServerUtilsEnv.

Definition DEFAULT_SERVER_IDLE_TIMEOUT_MINUTES : float := 15.

(** The variables of [process.env] that [startLwrServer] assigns. *)
Record PreviewEnv : Type := {
  ROOT_DIR : string;
  MODULES_DIR : string;
  ROOT_COMPONENT : string;
  SERVICE_WORKER : string;
  BEHIND_PROXY : string;
  MODE : string;
  SERVER_IDLE_TIMEOUT_MINUTES : string;
  SERVER_PORT : string
}.

Definition newline : string := String (ascii_of_nat 10) EmptyString.

(** [doStartLwrApp], which reads the environment, is the caller's; the
    result is the environment as assigned, the message handed to the
    logger and what [doStartLwrApp] settles to.  [None] is a port search
    cut short by [fuel]. *)
Definition startLwrServer (h : Host) (fuel : nat) (doStartLwrApp : PreviewEnv -> Completion string)
    (componentName projectDir : string) (serverIdleTimeoutMinutes : float)
  : option (PreviewEnv * string * Completion string) :=
  let rootDirectory := Path.resolve (cwd h) [projectDir] in
  let componentFullPath := Path.resolve (cwd h) [Path.join [projectDir; componentName]] in
  let twoLevelUp := Path.resolve (cwd h) [Path.join [componentFullPath; "../../"]] in
  let rootComp :=
    JsString.replaceAll "\" "/"
      (JsString.replace (twoLevelUp +:+ Path.sep) "" componentFullPath) in
  let rootCompDashed := JsString.replaceAll "/" "-" rootComp in
  port ← LwrServerUtils.getNextAvailablePort h fuel;
  let env :=
    {| ROOT_DIR := rootDirectory;
       MODULES_DIR := twoLevelUp;
       ROOT_COMPONENT := rootCompDashed;
       SERVICE_WORKER := "true";
       BEHIND_PROXY := "true";
       MODE := "dev";
       SERVER_IDLE_TIMEOUT_MINUTES := JsNumber.toString serverIdleTimeoutMinutes;
       SERVER_PORT := JsString.ofZ port |} in
  let debugged :=
    newline +:+ "*** Attempting to preview LWC ***" +:+ newline
    +:+ "componentName = " +:+ componentName +:+ newline
    +:+ "projectDir = " +:+ projectDir +:+ newline
    +:+ "componentFullPath = " +:+ componentFullPath +:+ newline
    +:+ "ROOT_DIR = " +:+ ROOT_DIR env +:+ newline
    +:+ "MODULES_DIR = " +:+ MODULES_DIR env +:+ newline
    +:+ "ROOT_COMPONENT = " +:+ ROOT_COMPONENT env in
  Some (env, debugged, doStartLwrApp env).

End LwrServerUtilsEnv.

(** The project [/proj] with one package directory and three
    components: [foo] and [bar] have a script, [shared] has a style
    sheet only.  The scripts and the metadata files as the globs list
    them. *)
Definition componentScripts : list string :=
  ["/proj/force-app/main/default/lwc/foo/foo.js";
   "/proj/force-app/main/default/lwc/foo/helper.js";
   "/proj/force-app/main/default/lwc/bar/bar.js";
   "/proj/force-app/main/default/lwc/bar/__tests__/bar.test.js"].

Definition componentMetadata : list string :=
  ["/proj/force-app/main/default/lwc/foo/foo.js-meta.xml";
   "/proj/force-app/main/default/lwc/bar/bar.js-meta.xml";
   "/proj/force-app/main/default/lwc/shared/shared.js-meta.xml"].

Definition hostWithComponents : Host :=
  withParsers
    (fun text => if String.eqb text "manifest" then Normal projectManifest
                 else Throw "SyntaxError: Unexpected token")
    (XMLParser_parse bareHost)
    (withFiles
       (fun file =>
          if String.eqb file "/proj/sfdx-project.json" then Normal "manifest"
          else Throw "ENOENT: no such file or directory")
       (fun file =>
          existsb (String.eqb file)
            ("/proj/force-app/main/default/lwc/shared/shared.css" :: componentScripts))
       (fun patterns =>
          match patterns with
          | ["/proj/force-app/**/*/lwc/**/*.js"] => Normal componentScripts
          | ["/proj/force-app/**/*/lwc/**/*.js-meta.xml"] => Normal componentMetadata
          | _ => Normal []
          end)
       bareHost).

(** A globbed file that does not bind [name] in the map of components. *)
Definition leavesAlone (name item : string) : Prop :=
  Path.parsed_name (Path.parse item) <> name
  \/ JsString.endsWith (Path.parsed_dir (Path.parse item)) (Path.parsed_name (Path.parse item))
     = false.

(** A globbed metadata file that does not bind [name] in the map of
    components. *)
Definition leavesAloneMeta (name item : string) : Prop :=
  JsString.replace ".js-meta" "" (Path.parsed_name (Path.parse item)) <> name
  \/ JsString.endsWith (Path.parsed_dir (Path.parse item))
       (JsString.replace ".js-meta" "" (Path.parsed_name (Path.parse item)))
     = false.

(** ** Content assets as the resource provider sees them *)

Definition assetId (asset : string) : ModuleId :=
  {| specifier := "@salesforce/contentAssetUrl/" +:+ asset;
     namespace := None; name := None; importer := None |}.

Definition assetFullPath (h : Host) (asset : string) : string :=
  Path.normalize
    (Path.resolve (cwd h)
       [Path.resolve (cwd h) [default "" (env_ROOT_DIR h)];
        "force-app/main/default/contentassets/" +:+ asset]).

(** The project [/proj] with the content asset [logo]. *)
Definition hostWithAsset : Host :=
  withFiles (readFileSync bareHost) (existsSync bareHost)
    (fun patterns =>
       match patterns with
       | first :: _ =>
           if String.eqb first "/proj/force-app/main/default/contentassets/logo.*"
           then Normal ["/proj/force-app/main/default/contentassets/logo.asset"]
           else Normal []
       | [] => Normal []
       end)
    bareHost.

(** ** [preview.ts]: the command that validates its flags, checks the
    requirements of the platform and launches the preview *)

(** [path.dirname(path)] *)
Definition path_dirname (path : string) : string :=
  match path with
  | EmptyString => "."
  | String c tail =>
      let hasRoot := Ascii.eqb c "/" in
      match Path.splitLast "/" (Path.stripTrailingSlashes tail) with
      | Some (before, _) =>
          if hasRoot && String.eqb before "" then "//" else String c before
      | None => if hasRoot then "/" else "."
      end
  end.

Module Preview.

(** [this.flagValues] *)
Record FlagValues : Type := {
  flag_platform : string;
  flag_apilevel : option string;
  flag_componentname : string;
  flag_configfile : string;
  flag_confighelp : bool;
  flag_projectdir : string;
  flag_target : string;
  flag_targetapp : string
}.

(** The private fields of the command *)
Record Fields : Type := {
  deviceName : string;
  componentName : string;
  targetApp : string;
  projectDir : string;
  configFilePath : string;
  appConfig : JsValue
}.

Definition initialFields : Fields :=
  {| deviceName := ""; componentName := ""; targetApp := ""; projectDir := "";
     configFilePath := ""; appConfig := JUndefined |}.

(** What the command writes to the logger, the console and the spinner *)
Inductive Effect : Type :=
| LoggerInfo (message : string)
| LoggerWarn (message : string)
| LoggerDebug (message : string)
| ConsoleLog (message : string)
| StartCliAction (action status : string)
| StopCliAction (status : string).

Inductive SetupRequirements : Type :=
| AndroidEnvironmentRequirements (apiLevel : option string)
| IOSEnvironmentRequirements.

(** The arguments of [launcher.launchPreview], after the device name
    that the launcher is built with *)
Record LaunchArguments : Type := {
  launch_deviceName : string;
  launch_componentName : string;
  launch_projectDir : string;
  launch_appBundlePath : option string;
  launch_targetApp : string;
  launch_appConfig : JsValue;
  launch_serverPort : string
}.

(** The library [@salesforce/lwc-dev-mobile-core], the message bundle
    and [util.format] *)
Record Core : Type := {
  resolveUserHomePath : string -> string;
  isTargetingBrowser : string -> bool;
  platformFlagIsDesktop : string -> bool;
  platformFlagIsIOS : string -> bool;
  platformFlagIsAndroid : string -> bool;
  (** [passed] and [errorMessage] of the validation result *)
  validateConfigFileWithSchema : string -> Completion (bool * string);
  (** [loadConfigFile(path).getAppConfig(platform, targetApp)] *)
  getAppConfig : string -> string -> string -> Completion JsValue;
  getAppBundlePath : string -> JsValue -> Completion string;
  getMessage : string -> list string -> string;
  util_format : string -> list string -> string;
  RequirementProcessor_execute : option SetupRequirements -> Completion unit;
  launchUrlInDesktopBrowser : string -> Completion unit;
  IOSLauncher_launchPreview : LaunchArguments -> Completion unit;
  AndroidLauncher_launchPreview : LaunchArguments -> Completion unit
}.

(** The message of the [SfError] that [createError] builds *)
Definition createError (c : Core) (stringId : string) (param : list string) : string :=
  let msg := getMessage c stringId [] in
  if (0 <? length param)%nat then util_format c msg param else msg.

Definition populateCommandRequirements (c : Core) (flags : FlagValues)
  : option SetupRequirements :=
  if platformFlagIsDesktop c (flag_platform flags) then None
  else
    Some (if platformFlagIsAndroid c (flag_platform flags)
          then AndroidEnvironmentRequirements (flag_apilevel flags)
          else IOSEnvironmentRequirements).

Definition setAppConfig (v : JsValue) (f : Fields) : Fields :=
  {| deviceName := deviceName f; componentName := componentName f;
     targetApp := targetApp f; projectDir := projectDir f;
     configFilePath := configFilePath f; appConfig := v |}.

(** The fields as assigned, what was logged and how the promise settles *)
Definition validateInputParameters (c : Core) (h : Host) (flags : FlagValues) (f : Fields)
  : Fields * list Effect * Completion unit :=
  let deviceName := JsString.trim (flag_target flags) in
  let componentName := JsString.trim (flag_componentname flags) in
  let targetApp := JsString.trim (flag_targetapp flags) in
  let projectDir := resolveUserHomePath c (JsString.trim (flag_projectdir flags)) in
  let configFileName := resolveUserHomePath c (JsString.trim (flag_configfile flags)) in
  let configFilePath := Path.normalize (Path.resolve (cwd h) [projectDir; configFileName]) in
  let f := {| deviceName := deviceName; componentName := componentName;
              targetApp := targetApp; projectDir := projectDir;
              configFilePath := configFilePath; appConfig := appConfig f |} in
  let hasConfigFile :=
    (0 <? String.length configFileName)%nat && existsSync h configFilePath in
  let isBrowserTargetApp := isTargetingBrowser c targetApp in
  let log := [LoggerDebug "Validating Preview command inputs."] in
  if platformFlagIsDesktop c (flag_target flags) && negb isBrowserTargetApp then
    (f, log, Throw (createError c "error:invalidTargetAppForDesktop" []))
  else
    (* check if user provided a config file when targetapp=browser
       and warn them that the config file will be ignored. *)
    let log :=
      if isBrowserTargetApp && hasConfigFile
      then log ++ [LoggerWarn (getMessage c "ignoringConfigFileFlagDescription" [])]
      else log in
    if (String.length componentName =? 0)%nat then
      (f, log, Throw (createError c "error:invalidComponentNameFlagsDescription" []))
    else if negb isBrowserTargetApp && negb hasConfigFile then
      (f, log,
       Throw (createError c "error:invalidConfigFile:missingDescription" [configFilePath]))
    else if negb isBrowserTargetApp && hasConfigFile then
      (* 1. validate config file against schema *)
      match validateConfigFileWithSchema c configFilePath with
      | Throw e => (f, log, Throw e)
      | Normal (passed, errorMessage) =>
          if negb passed then
            (f, log,
             Throw (createError c "error:invalidConfigFile:genericDescription"
                      [configFilePath; errorMessage]))
          else
            (* 2. validate that a matching app configuration is included *)
            match getAppConfig c configFilePath (flag_platform flags) targetApp with
            | Throw e => (f, log, Throw e)
            | Normal found =>
                let f := setAppConfig found f in
                match found with
                | JUndefined =>
                    let errMsg :=
                      getMessage c "error:invalidConfigFile:missingAppConfigDescription"
                        [targetApp; flag_platform flags] in
                    (f, log,
                     Throw (createError c "error:invalidConfigFile:genericDescription"
                              [configFilePath; errMsg]))
                | _ => (f, log, Normal tt)
                end
            end
      end
    else (f, log, Normal tt).

(** How a launch ends: what was written, how the promise settles, and
    the server process if its listener was bound *)
Record Outcome : Type := {
  effects : list Effect;
  settled : Completion unit;
  server : option LwrServerUtils.Process
}.

Definition DEFAULT_SERVER_TIMEOUT_MINUTES : float := 30.

Definition launchDesktop (c : Core) (h : Host) (fuel : nat)
    (createServer : LwrGlobalConfig -> Completion LwrServerUtils.LwrApp) (componentName projectDir : string)
  : option Outcome :=
  started ← LwrServerUtils.startLwrServer h fuel createServer componentName projectDir
              DEFAULT_SERVER_TIMEOUT_MINUTES;
  Some
    match started with
    | (Normal serverPort, process) =>
        {| effects := [];
           settled := launchUrlInDesktopBrowser c ("http://localhost:" +:+ serverPort);
           server := Some process |}
    | (Throw error, _) => {| effects := []; settled := Throw error; server := None |}
    end.

Definition launchIOS (c : Core) (h : Host) (fuel : nat)
    (createServer : LwrGlobalConfig -> Completion LwrServerUtils.LwrApp) (deviceName componentName projectDir : string)
    (appBundlePath : option string) (targetApp : string) (appConfig : JsValue)
  : option Outcome :=
  started ← LwrServerUtils.startLwrServer h fuel createServer componentName projectDir
              DEFAULT_SERVER_TIMEOUT_MINUTES;
  Some
    match started with
    | (Normal serverPort, process) =>
        {| effects := [];
           settled :=
             IOSLauncher_launchPreview c
               {| launch_deviceName := deviceName; launch_componentName := componentName;
                  launch_projectDir := projectDir; launch_appBundlePath := appBundlePath;
                  launch_targetApp := targetApp; launch_appConfig := appConfig;
                  launch_serverPort := serverPort |};
           server := Some process |}
    | (Throw error, _) => {| effects := []; settled := Throw error; server := None |}
    end.

Definition launchAndroid (c : Core) (h : Host) (fuel : nat)
    (createServer : LwrGlobalConfig -> Completion LwrServerUtils.LwrApp) (deviceName componentName projectDir : string)
    (appBundlePath : option string) (targetApp : string) (appConfig : JsValue)
  : option Outcome :=
  started ← LwrServerUtils.startLwrServer h fuel createServer componentName projectDir
              DEFAULT_SERVER_TIMEOUT_MINUTES;
  Some
    match started with
    | (Normal serverPort, process) =>
        {| effects := [];
           settled :=
             AndroidLauncher_launchPreview c
               {| launch_deviceName := deviceName; launch_componentName := componentName;
                  launch_projectDir := projectDir; launch_appBundlePath := appBundlePath;
                  launch_targetApp := targetApp; launch_appConfig := appConfig;
                  launch_serverPort := serverPort |};
           server := Some process |}
    | (Throw error, _) => {| effects := []; settled := Throw error; server := None |}
    end.

(** [a && b] on values *)
Definition andAlso (a b : JsValue) : JsValue := if Js.truthy a then b else a.

Definition withEffects (before : list Effect) (o : Outcome) : Outcome :=
  {| effects := before ++ effects o; settled := settled o; server := server o |}.

Definition launchPreview (c : Core) (h : Host) (fuel : nat)
    (createServer : LwrGlobalConfig -> Completion LwrServerUtils.LwrApp) (flags : FlagValues) (f : Fields)
  : option Outcome :=
  let fetched : list Effect * Completion (option string) :=
    if negb (isTargetingBrowser c (targetApp f)) && Js.truthy (appConfig f) then
      let started :=
        [StartCliAction (getMessage c "previewAction" [])
           (getMessage c "previewFetchAppBundleStatus" [])] in
      match getAppBundlePath c (path_dirname (configFilePath f)) (appConfig f) with
      | Normal appBundlePath => (started, Normal (Some appBundlePath))
      | Throw error =>
          (started ++ [StopCliAction (getMessage c "previewFetchAppBundleFailureStatus" [])],
           Throw error)
      end
    else ([], Normal None) in
  match fetched with
  | (log, Throw error) => Some {| effects := log; settled := Throw error; server := None |}
  | (log, Normal appBundlePath) =>
      withEffects log <$>
        (if platformFlagIsDesktop c (flag_platform flags) then
           launchDesktop c h fuel createServer (componentName f) (projectDir f)
         else if platformFlagIsIOS c (flag_platform flags) then
           launchIOS c h fuel createServer (deviceName f) (componentName f) (projectDir f)
             appBundlePath (targetApp f) (andAlso (appConfig f) (appConfig f))
         else
           launchAndroid c h fuel createServer (deviceName f) (componentName f) (projectDir f)
             appBundlePath (targetApp f) (andAlso (appConfig f) (appConfig f)))
  end.

(** The handler of [.catch] in [run] *)
Definition warnOnFailure (flags : FlagValues) (o : Outcome) : Outcome :=
  match settled o with
  | Throw error =>
      {| effects := effects o
                    ++ [LoggerWarn ("Preview failed for " +:+ flag_platform flags +:+ ".")];
         settled := Throw error; server := server o |}
  | Normal _ => o
  end.

(** A run that rejects with [error]: the warning is the last thing
    written and no server is left. *)
Definition failedWith (flags : FlagValues) (error : string) (o : Outcome) : Prop :=
  settled o = Throw error
  /\ server o = None
  /\ exists log,
       effects o = log ++ [LoggerWarn ("Preview failed for " +:+ flag_platform flags +:+ ".")].

(** [run], on a command whose requirements were populated from its
    flags.  [None] is a port search that [fuel] cuts short. *)
Definition run (c : Core) (h : Host) (fuel : nat) (createServer : LwrGlobalConfig -> Completion LwrServerUtils.LwrApp)
    (flags : FlagValues) : option Outcome :=
  let invoked := [LoggerInfo ("Preview command invoked for " +:+ flag_platform flags)] in
  let '(f, log, validated) := validateInputParameters c h flags initialFields in
  let continued : option Outcome :=
    match validated with
    | Throw error => Some {| effects := []; settled := Throw error; server := None |}
    | Normal _ =>
        if flag_confighelp flags then
          Some {| effects := [ConsoleLog (getMessage c "configFileHelpDescription" [])];
                  settled := Normal tt; server := None |}
        else
          match RequirementProcessor_execute c (populateCommandRequirements c flags) with
          | Throw error => Some {| effects := []; settled := Throw error; server := None |}
          | Normal _ =>
              (* then launch the preview if all validations have passed *)
              withEffects [LoggerInfo "Setup requirements met, continuing with preview"]
                <$> launchPreview c h fuel createServer flags f
          end
    end in
  (fun o => warnOnFailure flags (withEffects (invoked ++ log) o)) <$> continued.

End Preview.

(** A stand-in for the core library: the browser is the target app
    [browser], a platform is recognised by its name in small letters,
    messages are their keys, no configuration file holds an app
    configuration, and every requirement and launch succeeds. *)
Definition sampleCore : Preview.Core :=
  {| Preview.resolveUserHomePath := fun path => path;
     Preview.isTargetingBrowser := fun targetApp => String.eqb targetApp "browser";
     Preview.platformFlagIsDesktop := fun flag => String.eqb flag "desktop";
     Preview.platformFlagIsIOS := fun flag => String.eqb flag "ios";
     Preview.platformFlagIsAndroid := fun flag => String.eqb flag "android";
     Preview.validateConfigFileWithSchema := fun _ => Normal (true, "");
     Preview.getAppConfig := fun _ _ _ => Normal JUndefined;
     Preview.getAppBundlePath := fun _ _ => Throw "Error: no app bundle";
     Preview.getMessage := fun key _ => key;
     Preview.util_format := fun msg param => msg +:+ " " +:+ String.concat "," param;
     Preview.RequirementProcessor_execute := fun _ => Normal tt;
     Preview.launchUrlInDesktopBrowser := fun _ => Normal tt;
     Preview.IOSLauncher_launchPreview := fun _ => Normal tt;
     Preview.AndroidLauncher_launchPreview := fun _ => Normal tt |}.

(** The first example of the command:
    [-p Desktop -n force-app/main/default/lwc/myComponent -d /path/to/project_root] *)
Definition desktopFlags : Preview.FlagValues :=
  {| Preview.flag_platform := "desktop";
     Preview.flag_apilevel := None;
     Preview.flag_componentname := " force-app/main/default/lwc/myComponent ";
     Preview.flag_configfile := "";
     Preview.flag_confighelp := false;
     Preview.flag_projectdir := "/path/to/project_root";
     Preview.flag_target := "sfdxdebug";
     Preview.flag_targetapp := "browser" |}.

(** The same with a component name of blanks. *)
Definition blankNameFlags : Preview.FlagValues :=
  {| Preview.flag_platform := "desktop";
     Preview.flag_apilevel := None;
     Preview.flag_componentname := "   ";
     Preview.flag_configfile := "";
     Preview.flag_confighelp := false;
     Preview.flag_projectdir := "/path/to/project_root";
     Preview.flag_target := "sfdxdebug";
     Preview.flag_targetapp := "browser" |}.

(** A preview on iOS in a native app, with a configuration file. *)
Definition nativeFlags : Preview.FlagValues :=
  {| Preview.flag_platform := "ios";
     Preview.flag_apilevel := None;
     Preview.flag_componentname := "force-app/main/default/lwc/myComponent";
     Preview.flag_configfile := "mobile-apps.json";
     Preview.flag_confighelp := false;
     Preview.flag_projectdir := "/path/to/project_root";
     Preview.flag_target := "MySimulator";
     Preview.flag_targetapp := "com.example.app" |}.

Definition exampleAppConfig : JsValue :=
  JObj [("id", JStr "com.example.app"); ("name", JStr "Example")].

(** A core library and a machine that have the configuration file of
    [nativeFlags], with an entry for the app. *)
Definition coreWithAppConfig : Preview.Core :=
  {| Preview.resolveUserHomePath := Preview.resolveUserHomePath sampleCore;
     Preview.isTargetingBrowser := Preview.isTargetingBrowser sampleCore;
     Preview.platformFlagIsDesktop := Preview.platformFlagIsDesktop sampleCore;
     Preview.platformFlagIsIOS := Preview.platformFlagIsIOS sampleCore;
     Preview.platformFlagIsAndroid := Preview.platformFlagIsAndroid sampleCore;
     Preview.validateConfigFileWithSchema := Preview.validateConfigFileWithSchema sampleCore;
     Preview.getAppConfig := fun _ _ _ => Normal exampleAppConfig;
     Preview.getAppBundlePath := fun dir _ => Normal (dir +:+ "/Example.app");
     Preview.getMessage := Preview.getMessage sampleCore;
     Preview.util_format := Preview.util_format sampleCore;
     Preview.RequirementProcessor_execute := Preview.RequirementProcessor_execute sampleCore;
     Preview.launchUrlInDesktopBrowser := Preview.launchUrlInDesktopBrowser sampleCore;
     Preview.IOSLauncher_launchPreview := Preview.IOSLauncher_launchPreview sampleCore;
     Preview.AndroidLauncher_launchPreview :=
       Preview.AndroidLauncher_launchPreview sampleCore |}.

Definition hostWithMobileApps : Host :=
  withFiles (readFileSync bareHost)
    (fun file => String.eqb file "/path/to/project_root/mobile-apps.json")
    (fastGlob_sync bareHost) bareHost.

(** A runtime whose server reports the port and the mode of its
    configuration and whose listener is bound without fail. *)
Definition configuredServer (cfg : LwrGlobalConfig) : Completion LwrServerUtils.LwrApp :=
  Normal {| LwrServerUtils.app_port := default 0 (cfg_port cfg);
            LwrServerUtils.app_serverMode := default "" (cfg_serverMode cfg);
            LwrServerUtils.app_listen := Normal tt |}.

(** The same runtime when the port has been taken between the search and
    the bind. *)
Definition portTakenServer (cfg : LwrGlobalConfig) : Completion LwrServerUtils.LwrApp :=
  Normal {| LwrServerUtils.app_port := default 0 (cfg_port cfg);
            LwrServerUtils.app_serverMode := default "" (cfg_serverMode cfg);
            LwrServerUtils.app_listen := Throw "Error: listen EADDRINUSE: address already in use" |}.
(* ================================================================== *)
(** * Part II: properties *)
(* ================================================================== *)

(** ** Sanity checks of the path model against node's documented results *)

Example path_join_component :
  Path.join ["/proj"; "force-app/main/default/lwc/helloWorld"]
  = "/proj/force-app/main/default/lwc/helloWorld".
Proof. reflexivity. Qed.

Example path_join_two_up :
  Path.join ["/proj/force-app/main/default/lwc/helloWorld"; "../../"]
  = "/proj/force-app/main/default/".
Proof. reflexivity. Qed.

Example path_resolve_trailing cwd :
  Path.resolve cwd ["/proj/force-app/main/default/"] = "/proj/force-app/main/default".
Proof. reflexivity. Qed.

Example path_resolve_relative :
  Path.resolve "/home/dev" ["../x"; "y/./z"] = "/home/x/y/z".
Proof. reflexivity. Qed.

Example path_extname_samples :
  map Path.extname ["a/b.png"; ".bashrc"; "a/.."; "x.tar.gz"; "x."; "dir.d/file"; "a.b/"]
  = [".png"; ""; ""; ".gz"; "."; ""; ".b"].
Proof. reflexivity. Qed.

Example path_parse_sample :
  Path.parse "/p/force-app/main/default/lwc/foo/foo.js"
  = {| Path.parsed_dir := "/p/force-app/main/default/lwc/foo"; Path.parsed_base := "foo.js";
       Path.parsed_ext := ".js"; Path.parsed_name := "foo" |}.
Proof. reflexivity. Qed.

(** [trim] cuts off the white space of Unicode, not only that of ASCII. *)
Example trim_samples :
  map JsString.trim
    ["  a b  "; noBreakSpace +:+ " x" +:+ noBreakSpace; noBreakSpace +:+ noBreakSpace; ""]
  = ["a b"; "x"; ""; ""].
Proof. reflexivity. Qed.

(** ** Port search *)

Section PortSearch.
Import LwrServerUtils.
Variable h : Host.

Lemma probeOnce_spec port :
  probeOnce h port =
    if probeSaysInUse h port then (port + 2, false) else (port, true).
Proof.
  unfold probeOnce, probeSaysInUse.
  destruct (executeCommandSync h (probeCommand h port)) as [result|e]; simpl; [|reflexivity].
  destruct (JsString.truthy (JsString.trim result)); reflexivity.
Qed.

Lemma whileNotDone_step fuel port :
  whileNotDone h (S fuel) port =
    if probeSaysInUse h port then whileNotDone h fuel (port + 2) else Some port.
Proof.
  simpl. rewrite probeOnce_spec.
  destruct (probeSaysInUse h port); reflexivity.
Qed.

Lemma whileNotDone_skips (k : nat) : forall fuel port,
  (forall j : nat, (j < k)%nat -> probeSaysInUse h (port + 2 * Z.of_nat j) = true) ->
  whileNotDone h (k + fuel) port = whileNotDone h fuel (port + 2 * Z.of_nat k).
Proof.
  induction k as [|k IH]; intros fuel port Hbusy.
  - simpl. f_equal. lia.
  - change (S k + fuel)%nat with (S (k + fuel)).
    rewrite whileNotDone_step.
    assert (Hhere : probeSaysInUse h port = true).
    { specialize (Hbusy 0%nat). rewrite Z.mul_0_r, Z.add_0_r in Hbusy. apply Hbusy. lia. }
    rewrite Hhere, IH.
    + f_equal. lia.
    + intros j Hj.
      replace (port + 2 + 2 * Z.of_nat j) with (port + 2 * Z.of_nat (S j)) by lia.
      apply Hbusy. lia.
Qed.

End PortSearch.

(** C5: the search starts at port 3000 and moves up by 2 past every port
    whose probe prints something; it returns the first port whose probe
    prints nothing but white space or throws.  With 3000 in use and 3002
    free (the case [k = 1]) the answer is 3002. *)
Theorem C5_first_free_port_is_selected (h : Host) (k fuel : nat) :
  (forall j : nat, (j < k)%nat -> probeSaysInUse h (3000 + 2 * Z.of_nat j) = true) ->
  probeSaysInUse h (3000 + 2 * Z.of_nat k) = false ->
  (k < fuel)%nat ->
  LwrServerUtils.getNextAvailablePort h fuel = Some (3000 + 2 * Z.of_nat k).
Proof.
  intros Hbusy Hfree Hfuel.
  unfold LwrServerUtils.getNextAvailablePort, LwrServerUtils.DEFAULT_SERVER_PORT.
  replace fuel with (k + S (fuel - S k))%nat by lia.
  rewrite whileNotDone_skips by exact Hbusy.
  rewrite whileNotDone_step, Hfree. reflexivity.
Qed.

Lemma C5_witness_3000_busy_3002_free :
  probeSaysInUse host3000Busy 3000 = true /\
  probeSaysInUse host3000Busy 3002 = false /\
  LwrServerUtils.getNextAvailablePort host3000Busy 2 = Some 3002.
Proof.
  split; [reflexivity|]. split; [reflexivity|].
  apply (C5_first_free_port_is_selected host3000Busy 1 2).
  - intros j Hj. assert (j = 0%nat) by lia. subst j. reflexivity.
  - reflexivity.
  - lia.
Defined.

(** ** Strings *)

(* In proofs, an append whose first argument starts with a character is
   unfolded by [simpl]. *)
Local Arguments String.append !s1 s2 : simpl nomatch.

Section StringFacts.
Import JsString.

Lemma app_empty_r (s : string) : s +:+ "" = s.
Proof. induction s as [|c s IH]; simpl; [reflexivity | rewrite IH; reflexivity]. Qed.

Lemma app_assoc (s t u : string) : (s +:+ t) +:+ u = s +:+ t +:+ u.
Proof. induction s as [|c s IH]; simpl; [reflexivity | rewrite IH; reflexivity]. Qed.

Lemma app_nonempty_r (s t : string) : t <> "" -> s +:+ t <> "".
Proof. intros Ht. destruct s; simpl; [exact Ht | discriminate]. Qed.

Lemma truthy_nonempty (s : string) : s <> "" -> truthy s = true.
Proof.
  intros Hs. unfold truthy.
  destruct (String.eqb_spec s ""); [contradiction | reflexivity].
Qed.

Lemma occurs_app (c : ascii) (s t : string) :
  occurs c (s +:+ t) = occurs c s || occurs c t.
Proof.
  induction s as [|d s IH]; simpl; [reflexivity|].
  rewrite IH, orb_assoc. reflexivity.
Qed.

Lemma someOtherThan_app_r (c : ascii) (s t : string) :
  someOtherThan c t = true -> someOtherThan c (s +:+ t) = true.
Proof.
  intros Ht. induction s as [|d s IH]; simpl; [exact Ht|].
  rewrite IH. apply orb_true_r.
Qed.

Lemma someOtherThan_app_l (c : ascii) (s t : string) :
  someOtherThan c s = true -> someOtherThan c (s +:+ t) = true.
Proof.
  induction s as [|d s IH]; intros Hs; [discriminate|].
  simpl in *. apply orb_true_iff in Hs as [Hd|Hs]; [rewrite Hd; reflexivity|].
  rewrite (IH Hs). apply orb_true_r.
Qed.

Lemma absent_someOtherThan (c : ascii) (s : string) :
  occurs c s = false -> s <> "" -> someOtherThan c s = true.
Proof.
  destruct s as [|d s]; intros Habs Hne; [contradiction|].
  simpl in *. apply orb_false_elim in Habs as [Hd _]. rewrite Hd. reflexivity.
Qed.

Lemma someOtherThan_nonempty (c : ascii) (s : string) :
  someOtherThan c s = true -> s <> "".
Proof. intros Hs ->. discriminate. Qed.

Lemma endsWith_app (s suffix : string) : endsWith (s +:+ suffix) suffix = true.
Proof.
  induction s as [|c s IH]; simpl.
  - destruct suffix; cbn [endsWith]; rewrite String.eqb_refl; reflexivity.
  - cbn [endsWith]. rewrite IH. apply orb_true_r.
Qed.

Lemma endsWith_absent (c : ascii) (t : string) :
  occurs c t = false -> endsWith t (String c "") = false.
Proof.
  induction t as [|d t IH]; intros Habs; [reflexivity|].
  simpl in *. apply orb_false_elim in Habs as [Hd Ht].
  rewrite Hd, (IH Ht). reflexivity.
Qed.

Lemma endsWith_app_absent (c : ascii) (s t : string) :
  t <> "" -> occurs c t = false -> endsWith (s +:+ t) (String c "") = false.
Proof.
  intros Hne Habs. induction s as [|d s IH].
  - apply endsWith_absent, Habs.
  - change (String d s +:+ t) with (String d (s +:+ t)).
    cbn [endsWith]. rewrite IH, orb_false_r.
    apply String.eqb_neq. intros Heq. injection Heq as _ Hrest.
    exact (app_nonempty_r s t Hne Hrest).
Qed.

Lemma split_nonempty (c : ascii) (s : string) : split c s <> [].
Proof.
  destruct s as [|d s]; simpl; [discriminate|].
  destruct (Ascii.eqb d c); [discriminate|].
  destruct (split c s); discriminate.
Qed.

Lemma split_absent (c : ascii) (s : string) : occurs c s = false -> split c s = [s].
Proof.
  induction s as [|d s IH]; intros Habs; [reflexivity|].
  simpl in *. apply orb_false_elim in Habs as [Hd Hs].
  rewrite Hd, (IH Hs). reflexivity.
Qed.

(** Cutting at a separator cuts the list of segments. *)
Lemma split_app_sep (c : ascii) (s t : string) :
  split c (s +:+ String c t) = split c s ++ split c t.
Proof.
  induction s as [|d s IH]; simpl.
  - rewrite Ascii.eqb_refl. reflexivity.
  - rewrite IH. destruct (Ascii.eqb d c); [reflexivity|].
    destruct (split c s) as [|seg rest] eqn:Hs; [|reflexivity].
    exfalso. exact (split_nonempty c s Hs).
Qed.

(** A tail without separator stays in the last segment. *)
Lemma split_app_tail (c : ascii) (s t : string) :
  occurs c t = false ->
  exists front l0, split c (s +:+ t) = front ++ [l0 +:+ t].
Proof.
  intros Habs. induction s as [|d s (front & l0 & IH)].
  - exists [], "". simpl. apply split_absent, Habs.
  - simpl. rewrite IH. destruct (Ascii.eqb d c).
    + exists ("" :: front), l0. reflexivity.
    + destruct front as [|x front]; simpl.
      * exists [], (String d l0). reflexivity.
      * exists (String d x :: front), l0. reflexivity.
Qed.

Lemma indexFrom_absent (c : ascii) (s : string) : forall i found,
  occurs c s = false -> indexFrom i c s found = found.
Proof.
  induction s as [|d s IH]; intros i found Habs; [reflexivity|].
  simpl in *. apply orb_false_elim in Habs as [Hd Hs].
  rewrite Hd. apply IH, Hs.
Qed.

Lemma lastIndexOf_absent (c : ascii) (s : string) :
  occurs c s = false -> lastIndexOf c s = -1.
Proof. apply indexFrom_absent. Qed.

Lemma concat_snoc (sep : string) (front : list string) (l : string) :
  exists q, String.concat sep (front ++ [l]) = q +:+ l.
Proof.
  induction front as [|x front (q & IH)].
  - exists "". reflexivity.
  - exists (x +:+ sep +:+ q).
    change ((x :: front) ++ [l]) with (x :: (front ++ [l])).
    destruct (front ++ [l]) as [|y more] eqn:Hfront.
    + destruct front; discriminate.
    + cbn [String.concat]. cbn [String.concat] in IH. rewrite IH.
      rewrite !app_assoc. reflexivity.
Qed.

Lemma startsWith_app (p rest : string) : startsWith (p +:+ rest) p = true.
Proof.
  induction p as [|c p IH]; [reflexivity|].
  cbn [String.append startsWith]. rewrite Ascii.eqb_refl, IH. reflexivity.
Qed.

Lemma drop_app (p rest : string) : drop (String.length p) (p +:+ rest) = rest.
Proof. induction p as [|c p IH]; [reflexivity | exact IH]. Qed.

End StringFacts.

(** ** Paths *)

Section PathFacts.
Import JsString Path.

Lemma real_segment (l : string) :
  someOtherThan "." l = true ->
  String.eqb l "" || String.eqb l "." = false /\ String.eqb l ".." = false.
Proof.
  intros Hl. split.
  - apply orb_false_intro; apply String.eqb_neq; intros ->; discriminate.
  - apply String.eqb_neq; intros ->; discriminate.
Qed.

(** What is kept after a run of segments does not depend on what follows. *)
Lemma normalizeSegments_app (a : bool) (front : list string) : forall kept,
  exists kept', forall back,
    normalizeSegments a (front ++ back) kept = normalizeSegments a back kept'.
Proof.
  induction front as [|seg front IH]; intros kept.
  - exists kept. reflexivity.
  - simpl.
    destruct (String.eqb seg "" || String.eqb seg "."); [apply IH|].
    destruct (String.eqb seg ".."); [|apply IH].
    destruct kept as [|last kept']; [apply IH|].
    destruct (String.eqb last ".."); apply IH.
Qed.

(** A last segment that is a name is the last segment of the result,
    also when a separator follows it. *)
Lemma normalizeSegments_last (a : bool) (front : list string) (l : string) (kept : list string) :
  someOtherThan "." l = true ->
  exists kept',
    normalizeSegments a (front ++ [l]) kept = rev kept' ++ [l]
    /\ normalizeSegments a (front ++ [l; ""]) kept = rev kept' ++ [l].
Proof.
  intros Hl. destruct (real_segment l Hl) as [Hdot Hdots].
  destruct (normalizeSegments_app a front kept) as [kept' Hfront].
  exists kept'. rewrite !Hfront. simpl. rewrite Hdot, Hdots. simpl.
  split; reflexivity.
Qed.

Lemma normalizeString_keeps (a : bool) (s suffix : string) :
  occurs "/" suffix = false -> someOtherThan "." suffix = true ->
  exists q,
    normalizeString (s +:+ suffix) a = q +:+ suffix
    /\ normalizeString (s +:+ suffix +:+ "/") a = q +:+ suffix.
Proof.
  intros Hslash Hname. unfold normalizeString.
  destruct (split_app_tail "/" s suffix Hslash) as (front & l0 & Hsplit).
  assert (Hsplit' : split "/" (s +:+ suffix +:+ "/") = front ++ [l0 +:+ suffix; ""]).
  { rewrite <- app_assoc, split_app_sep, Hsplit. simpl. rewrite <- List.app_assoc. reflexivity. }
  rewrite Hsplit, Hsplit'.
  destruct (normalizeSegments_last a front (l0 +:+ suffix) [])
    as (kept' & Hlast & Hlast'); [apply someOtherThan_app_r, Hname|].
  rewrite Hlast, Hlast'.
  destruct (concat_snoc "/" (rev kept') (l0 +:+ suffix)) as [q Hq].
  exists (q +:+ l0). rewrite Hq, app_assoc. split; reflexivity.
Qed.

Lemma normalize_keeps (s suffix : string) :
  occurs "/" suffix = false -> someOtherThan "." suffix = true ->
  exists pre, normalize (s +:+ suffix) = pre +:+ suffix.
Proof.
  intros Hslash Hname.
  pose proof (someOtherThan_nonempty _ _ Hname) as Hne.
  unfold normalize.
  destruct (String.eqb_spec (s +:+ suffix) "") as [Hempty|_];
    [exfalso; exact (app_nonempty_r s suffix Hne Hempty)|].
  rewrite (endsWith_app_absent "/" s suffix Hne Hslash).
  destruct (normalizeString_keeps (negb (isAbsolute (s +:+ suffix))) s suffix Hslash Hname)
    as (q & Hq & _).
  rewrite Hq.
  destruct (String.eqb_spec (q +:+ suffix) "") as [Hempty|_];
    [exfalso; exact (app_nonempty_r q suffix Hne Hempty)|].
  rewrite app_empty_r.
  exists ((if isAbsolute (s +:+ suffix) then "/" else "") +:+ q).
  rewrite app_assoc. reflexivity.
Qed.

Lemma normalize_nonempty (path : string) : normalize path <> "".
Proof.
  unfold normalize.
  destruct (String.eqb path ""); [discriminate|].
  destruct (normalizeString path (negb (isAbsolute path))) as [|c p]; simpl.
  - destruct (isAbsolute path); [discriminate|].
    destruct (endsWith path "/"); discriminate.
  - destruct (isAbsolute path); simpl; discriminate.
Qed.

Lemma join_nonempty (args : list string) : join args <> "".
Proof.
  unfold join. destruct (filter _ args); [discriminate | apply normalize_nonempty].
Qed.

Lemma join_two (dir file : string) :
  dir <> "" -> file <> "" -> join [dir; file] = normalize (dir +:+ "/" +:+ file).
Proof.
  intros Hdir Hfile. unfold join.
  rewrite filter_cons_True, filter_cons_True by assumption.
  reflexivity.
Qed.

Lemma join_keeps (dir s suffix : string) :
  dir <> "" ->
  occurs "/" suffix = false -> someOtherThan "." suffix = true ->
  exists pre, join [dir; s +:+ suffix] = pre +:+ suffix.
Proof.
  intros Hdir Hslash Hname.
  rewrite join_two;
    [| exact Hdir | apply app_nonempty_r, (someOtherThan_nonempty _ _ Hname)].
  replace (dir +:+ "/" +:+ s +:+ suffix) with ((dir +:+ "/" +:+ s) +:+ suffix)
    by (rewrite !app_assoc; reflexivity).
  apply normalize_keeps; assumption.
Qed.

Lemma gather_suffix (candidates : list string) : forall acc,
  exists pre absolute, gather candidates acc = (pre +:+ acc, absolute).
Proof.
  induction candidates as [|path more IH]; intros acc.
  - exists "", false. reflexivity.
  - cbn [gather]. destruct (String.eqb path ""); [apply IH|].
    destruct (isAbsolute path).
    + exists (path +:+ "/"), true. rewrite app_assoc. reflexivity.
    + destruct (IH (path +:+ "/" +:+ acc)) as (pre & absolute & Hg).
      exists (pre +:+ path +:+ "/"), absolute. rewrite Hg, !app_assoc. reflexivity.
Qed.

Lemma resolve_keeps (cwd : string) (front : list string) (s suffix : string) :
  occurs "/" suffix = false -> someOtherThan "." suffix = true ->
  exists pre, resolve cwd (front ++ [s +:+ suffix]) = pre +:+ suffix.
Proof.
  intros Hslash Hname.
  pose proof (someOtherThan_nonempty _ _ Hname) as Hne.
  unfold resolve. rewrite rev_app_distr. cbn [rev List.app gather].
  destruct (String.eqb_spec (s +:+ suffix) "") as [Hempty|_];
    [exfalso; exact (app_nonempty_r s suffix Hne Hempty)|].
  assert (Hg : exists pre absolute,
             (if isAbsolute (s +:+ suffix)
              then ((s +:+ suffix) +:+ "/" +:+ "", true)
              else gather (rev front ++ [cwd]) ((s +:+ suffix) +:+ "/" +:+ ""))
             = ((pre +:+ s) +:+ suffix +:+ "/", absolute)).
  { destruct (isAbsolute (s +:+ suffix)).
    - exists "", true. rewrite app_assoc. reflexivity.
    - destruct (gather_suffix (rev front ++ [cwd]) ((s +:+ suffix) +:+ "/" +:+ ""))
        as (pre & absolute & Hg).
      exists pre, absolute. rewrite Hg, !app_assoc. reflexivity. }
  destruct Hg as (pre & absolute & ->).
  destruct (normalizeString_keeps (negb absolute) (pre +:+ s) suffix Hslash Hname)
    as (q & _ & Hq).
  rewrite Hq. destruct absolute.
  - exists ("/" +:+ q). reflexivity.
  - destruct (String.eqb_spec (q +:+ suffix) "") as [Hempty|_];
      [exfalso; exact (app_nonempty_r q suffix Hne Hempty)|].
    exists q. reflexivity.
Qed.

Lemma splitLast_absent (c : ascii) (t : string) :
  JsString.occurs c t = false -> splitLast c t = None.
Proof.
  induction t as [|d t IH]; intros Habs; [reflexivity|].
  cbn [JsString.occurs] in Habs. apply orb_false_elim in Habs as [Hd Ht].
  cbn [splitLast]. rewrite (IH Ht), Hd. reflexivity.
Qed.

Lemma splitLast_at_last (c : ascii) (s t : string) :
  JsString.occurs c t = false -> splitLast c (s +:+ String c t) = Some (s, t).
Proof.
  intros Habs. induction s as [|d s IH].
  - change ("" +:+ String c t) with (String c t).
    cbn [splitLast]. rewrite (splitLast_absent c t Habs), Ascii.eqb_refl. reflexivity.
  - change (String d s +:+ String c t) with (String d (s +:+ String c t)).
    cbn [splitLast]. rewrite IH. reflexivity.
Qed.

End PathFacts.

(** ** The idle timer *)

Section IdleTimer.
Import LwrServerUtils.
Variable h : Host.
Variable timeoutMinutes : float.

Lemma shutdown_exit_code (p : Process) :
  exited (onShutDownTimer h timeoutMinutes p)
  = Some (match lwrapp_close h with Normal _ => 0 | Throw _ => 1 end).
Proof.
  unfold onShutDownTimer.
  destruct (lwrapp_close h) as [[]|e]; reflexivity.
Qed.

Lemma shutdown_logs_failure (p : Process) (e : string) :
  lwrapp_close h = Throw e ->
  In ("Unable to gracefully shutdown the server - " +:+ e)
     (console (onShutDownTimer h timeoutMinutes p)).
Proof.
  intros He. unfold onShutDownTimer. rewrite He. simpl.
  apply in_or_app. right. left. reflexivity.
Qed.

Lemma elapse_due (p : Process) (d : Z) handle deadline :
  exited p = None ->
  earliest (pending p) = Some (handle, deadline) ->
  deadline <= clock p + d ->
  elapse h timeoutMinutes d p = onShutDownTimer h timeoutMinutes (fire handle deadline p).
Proof.
  intros Hlive Hfirst Hdue. unfold elapse. rewrite Hlive, Hfirst.
  destruct (Z.leb_spec deadline (clock p + d)); [reflexivity | lia].
Qed.

Lemma elapse_early (p : Process) (d : Z) handle deadline :
  exited p = None ->
  earliest (pending p) = Some (handle, deadline) ->
  clock p + d < deadline ->
  elapse h timeoutMinutes d p = advance d p.
Proof.
  intros Hlive Hfirst Hearly. unfold elapse. rewrite Hlive, Hfirst.
  destruct (Z.leb_spec deadline (clock p + d)); [lia | reflexivity].
Qed.

Lemma listening_armed port serverMode :
  armedAfresh timeoutMinutes (onListening port serverMode timeoutMinutes boot).
Proof.
  split; [reflexivity|]. exists 0%nat. split; reflexivity.
Qed.

Lemma request_rearms (p : Process) (gap : Z) :
  armedAfresh timeoutMinutes p -> 0 <= gap < idleDelay timeoutMinutes ->
  armedAfresh timeoutMinutes (step h timeoutMinutes (step h timeoutMinutes p (Elapse gap)) Request).
Proof.
  intros [Hlive [handle [Hpending Htimer]]] Hgap. cbn [step].
  rewrite (elapse_early p gap handle (clock p + idleDelay timeoutMinutes)); try assumption; try lia.
  2:{ rewrite Hpending. reflexivity. }
  cbn [exited advance]. rewrite Hlive. unfold onRequest. cbn [timer advance]. rewrite Htimer.
  unfold setShutDownTimer, setTimeout, clearTimeout, assignTimer. cbn.
  split; [exact Hlive|].
  exists (nextHandle p). rewrite Hpending.
  rewrite filter_cons, decide_False by (simpl; intros Hne; apply Hne; reflexivity).
  split; reflexivity.
Qed.

Lemma requests_keep_armed (gaps : list Z) : forall p,
  armedAfresh timeoutMinutes p ->
  Forall (fun gap => 0 <= gap < idleDelay timeoutMinutes) gaps ->
  armedAfresh timeoutMinutes (run h timeoutMinutes (requestsAfter gaps) p).
Proof.
  induction gaps as [|gap gaps IH]; intros p Hp Hgaps.
  - exact Hp.
  - inversion Hgaps as [|? ? Hgap Hrest]; subst.
    apply (IH _ (request_rearms p gap Hp Hgap) Hrest).
Qed.

(** Within the range of node's timers the delay is taken as it is, less
    the fraction of a millisecond. *)
Lemma idleDelay_in_range :
  inTimerRange (timeoutMinutes * 60 * 1000) = true ->
  idleDelay timeoutMinutes = JsNumber.trunc (timeoutMinutes * 60 * 1000).
Proof. intros Hrange. unfold idleDelay, timerDuration. rewrite Hrange. reflexivity. Qed.

End IdleTimer.

Lemma holdsFrom_spec (test : Z -> bool) (count : nat) : forall first i,
  holdsFrom count first test = true ->
  first <= i < first + Z.of_nat count -> test i = true.
Proof.
  induction count as [|count IH]; intros first i Hall Hi; [lia|].
  cbn [holdsFrom] in Hall. apply andb_prop in Hall as [Hfirst Hrest].
  destruct (Z.eq_dec i first) as [->|Hne]; [exact Hfirst|].
  apply (IH (first + 1)); [exact Hrest | lia].
Qed.

(** The minutes from 1 to 35791, each as a double, times 60 and times
    1000 in doubles: the product is exact and within the range of the
    timers.  All of them are computed. *)
Lemma whole_minutes_computed :
  holdsFrom (Z.to_nat 35791) 1
    (fun minutes =>
       LwrServerUtils.inTimerRange (JsNumber.ofZ minutes * 60 * 1000)
       && (LwrServerUtils.idleDelay (JsNumber.ofZ minutes) =? minutes * 60 * 1000))
  = true.
Proof. vm_compute. reflexivity. Qed.

(** C4, amended: the idle timer slides, for an idle timeout whose
    length in milliseconds is within the range of node's timers, 1 to
    2147483647.  Every whole number of minutes from 1 to 35791 is such
    a timeout, and its timer is armed for just that many minutes;
    in general the timer is armed for the milliseconds of the timeout
    less any fraction.  After the server starts listening and any
    number of requests, each arriving less than the timeout after the
    event before it, the process is still running with exactly one
    timer armed, due a full timeout after the last request; a silence
    shorter than the timeout leaves it running, a silence of at least
    the timeout ends it.  For a timeout out of the range the timer is
    armed for one millisecond. *)
Theorem C4_idle_timer_slides (h : Host) (port : Z) (serverMode : string) :
  (forall minutes : Z,
     1 <= minutes <= 35791 ->
     LwrServerUtils.inTimerRange (JsNumber.ofZ minutes * 60 * 1000) = true
     /\ JsNumber.trunc (JsNumber.ofZ minutes * 60 * 1000) = minutes * 60 * 1000)
  /\ (forall (timeoutMinutes : float) (gaps : list Z),
        LwrServerUtils.inTimerRange (timeoutMinutes * 60 * 1000) = true ->
        let delay := JsNumber.trunc (timeoutMinutes * 60 * 1000) in
        Forall (fun gap => 0 <= gap < delay) gaps ->
        let p := LwrServerUtils.run h timeoutMinutes (LwrServerUtils.requestsAfter gaps)
                   (LwrServerUtils.onListening port serverMode timeoutMinutes
                      LwrServerUtils.boot) in
        LwrServerUtils.exited p = None
        /\ (exists handle,
              LwrServerUtils.pending p = [(handle, LwrServerUtils.clock p + delay)]
              /\ LwrServerUtils.timer p = Some handle)
        /\ (forall silence, 0 <= silence < delay ->
              LwrServerUtils.exited (LwrServerUtils.elapse h timeoutMinutes silence p) = None)
        /\ (forall silence, delay <= silence ->
              exists code,
                LwrServerUtils.exited (LwrServerUtils.elapse h timeoutMinutes silence p)
                = Some code))
  /\ (forall timeoutMinutes : float,
        LwrServerUtils.inTimerRange (timeoutMinutes * 60 * 1000) = false ->
        LwrServerUtils.pending
          (LwrServerUtils.onListening port serverMode timeoutMinutes LwrServerUtils.boot)
        = [(0%nat, 1)]).
Proof.
  split; [|split].
  - intros minutes Hminutes.
    pose proof (holdsFrom_spec _ _ 1 minutes whole_minutes_computed ltac:(lia)) as Hcomputed.
    cbv beta in Hcomputed. apply andb_prop in Hcomputed as [Hrange Hdelay].
    split; [exact Hrange|].
    rewrite <- (idleDelay_in_range _ Hrange). apply Z.eqb_eq, Hdelay.
  - intros timeoutMinutes gaps Hrange delay Hgaps p.
    assert (Hdelay : LwrServerUtils.idleDelay timeoutMinutes = delay)
      by apply (idleDelay_in_range _ Hrange).
    assert (Hp : armedAfresh timeoutMinutes p).
    { apply requests_keep_armed; [apply listening_armed | rewrite Hdelay; exact Hgaps]. }
    destruct Hp as [Hlive [handle [Hpending Htimer]]]. rewrite Hdelay in Hpending.
    split; [exact Hlive|]. split; [exists handle; split; assumption|]. split.
    + intros silence Hs.
      rewrite (elapse_early h timeoutMinutes p silence handle (LwrServerUtils.clock p + delay));
        [exact Hlive | exact Hlive | rewrite Hpending; reflexivity | lia].
    + intros silence Hs.
      rewrite (elapse_due h timeoutMinutes p silence handle (LwrServerUtils.clock p + delay));
        [| exact Hlive | rewrite Hpending; reflexivity | lia].
      rewrite shutdown_exit_code. eexists. reflexivity.
  - intros timeoutMinutes Hout.
    unfold LwrServerUtils.onListening, LwrServerUtils.setShutDownTimer,
      LwrServerUtils.setTimeout, LwrServerUtils.timerDuration.
    rewrite Hout. reflexivity.
Qed.

(** The timeout of the repository's own test, 0.002 minutes, is 120
    milliseconds: requests 100 and 119 milliseconds apart keep the
    process, and 120 milliseconds of silence end it.  So it is with the
    30 minutes that are the default. *)
Lemma C4_witness_test_timeout_and_default :
  (JsNumber.trunc (testTimeoutMinutes * 60 * 1000) = 120
   /\ Forall (fun gap => 0 <= gap < 120) [100; 119]
   /\ LwrServerUtils.exited
        (LwrServerUtils.run bareHost testTimeoutMinutes
           (LwrServerUtils.requestsAfter [100; 119])
           (LwrServerUtils.onListening 3000 "dev" testTimeoutMinutes LwrServerUtils.boot))
      = None
   /\ LwrServerUtils.exited
        (LwrServerUtils.elapse bareHost testTimeoutMinutes 120
           (LwrServerUtils.run bareHost testTimeoutMinutes
              (LwrServerUtils.requestsAfter [100; 119])
              (LwrServerUtils.onListening 3000 "dev" testTimeoutMinutes
                 LwrServerUtils.boot)))
      = Some 0)
  /\ (JsNumber.trunc (JsNumber.ofZ 30 * 60 * 1000) = 1800000
      /\ LwrServerUtils.exited
           (LwrServerUtils.run bareHost 30
              (LwrServerUtils.requestsAfter [1000; 1799999; 0])
              (LwrServerUtils.onListening 3000 "dev" 30 LwrServerUtils.boot)) = None).
Proof.
  assert (Hshort : Forall (fun gap => 0 <= gap < 120) [100; 119])
    by (repeat constructor; lia).
  assert (Hlong : Forall (fun gap => 0 <= gap < 1800000) [1000; 1799999; 0])
    by (repeat constructor; lia).
  destruct (C4_idle_timer_slides bareHost 3000 "dev") as (Hwhole & Hslides & _).
  split.
  - split; [reflexivity|]. split; [exact Hshort|].
    split; [exact (proj1 (Hslides testTimeoutMinutes [100; 119] eq_refl Hshort))
           | reflexivity].
  - split; [exact (proj2 (Hwhole 30 ltac:(lia)))|].
    exact (proj1 (Hslides 30%float [1000; 1799999; 0] eq_refl Hlong)).
Defined.

(** The property as the design document words it fails for an idle
    timeout of 35792 minutes: the delay is beyond the longest one that a
    timer takes, the timer is armed for one millisecond, and a request
    that comes five milliseconds after the start, far less than the idle
    timeout, finds the process gone. *)
Lemma C4_counterexample_timeout_beyond_the_longest_timer :
  LwrServerUtils.inTimerRange (35792 * 60 * 1000) = false
  /\ JsNumber.trunc (35792 * 60 * 1000) = 2147520000
  /\ LwrServerUtils.pending
       (LwrServerUtils.onListening 3000 "dev" 35792 LwrServerUtils.boot) = [(0%nat, 1)]
  /\ Forall (fun gap => 0 <= gap < 2147520000) [5]
  /\ LwrServerUtils.exited
       (LwrServerUtils.run bareHost 35792 (LwrServerUtils.requestsAfter [5])
          (LwrServerUtils.onListening 3000 "dev" 35792 LwrServerUtils.boot)) = Some 0.
Proof.
  split; [reflexivity|]. split; [reflexivity|]. split; [reflexivity|].
  split; [repeat constructor; lia | reflexivity].
Qed.

(** C9: when the idle timer fires the process exits, whatever the close
    of the server does: with status 0 when the close succeeds, and with
    status 1, after the error has been written to the console, when the
    close throws.  A running process with a timer that is due does not
    outlive the silence. *)
Theorem C9_idle_timer_expiry_exits (h : Host) (timeoutMinutes : float)
    (p : LwrServerUtils.Process) :
  LwrServerUtils.exited (LwrServerUtils.onShutDownTimer h timeoutMinutes p)
  = Some (match lwrapp_close h with Normal _ => 0 | Throw _ => 1 end)
  /\ (forall e, lwrapp_close h = Throw e ->
        In ("Unable to gracefully shutdown the server - " +:+ e)
           (LwrServerUtils.console (LwrServerUtils.onShutDownTimer h timeoutMinutes p)))
  /\ (forall silence handle deadline,
        LwrServerUtils.exited p = None ->
        LwrServerUtils.earliest (LwrServerUtils.pending p) = Some (handle, deadline) ->
        deadline <= LwrServerUtils.clock p + silence ->
        LwrServerUtils.exited (LwrServerUtils.elapse h timeoutMinutes silence p)
        = Some (match lwrapp_close h with Normal _ => 0 | Throw _ => 1 end)).
Proof.
  split; [apply shutdown_exit_code|].
  split; [intros e He; apply shutdown_logs_failure; exact He|].
  intros silence handle deadline Hlive Hfirst Hdue.
  rewrite (elapse_due h timeoutMinutes p silence handle deadline Hlive Hfirst Hdue).
  apply shutdown_exit_code.
Qed.

Lemma C9_witness_close_fails :
  let p := LwrServerUtils.onListening 3000 "dev" 30 LwrServerUtils.boot in
  LwrServerUtils.exited (LwrServerUtils.elapse hostCloseFails 30 1800000 p) = Some 1
  /\ In "Unable to gracefully shutdown the server - Error: server is busy"
        (LwrServerUtils.console (LwrServerUtils.onShutDownTimer hostCloseFails 30 p))
  /\ LwrServerUtils.exited (LwrServerUtils.elapse bareHost 30 1800000 p) = Some 0.
Proof.
  intros p.
  destruct (C9_idle_timer_expiry_exits hostCloseFails 30 p) as (_ & Hlogged & Hexits).
  destruct (C9_idle_timer_expiry_exits bareHost 30 p) as (_ & _ & Hexits').
  split; [|split].
  - apply (Hexits 1800000 0%nat 1800000); [reflexivity | reflexivity | reflexivity].
  - apply (Hlogged "Error: server is busy"). reflexivity.
  - apply (Hexits' 1800000 0%nat 1800000); [reflexivity | reflexivity | reflexivity].
Defined.

(** ** The merged configuration *)

Section MergedConfig.
Import LwrServerUtils.
Variable h : Host.
Variable fuel : nat.
Variables componentName projectDir : string.

(** The merge, once the file has been loaded (or not) and a port found. *)
Lemma getMergedLwrConfig_unfold (loaded : LwrGlobalConfig) (freePort : Z) :
  try_catch (loadJsonFromFile h (userConfigPath h projectDir)) (fun _ => emptyConfig) = loaded ->
  getNextAvailablePort h fuel = Some freePort ->
  exists cfg,
    getMergedLwrConfig h fuel componentName projectDir = Some cfg
    /\ cfg_serverMode cfg
       = Some (match cfg_serverMode loaded with
               | Some s => if JsString.truthy s then s else "dev"
               | None => "dev"
               end)
    /\ cfg_port cfg
       = Some (match cfg_port loaded with
               | Some n => if n =? 0 then freePort else n
               | None => freePort
               end)
    /\ cfg_rootDir cfg
       = Some (match cfg_rootDir loaded with
               | Some d => if JsString.truthy d then d else rootDirectory h projectDir
               | None => rootDirectory h projectDir
               end)
    /\ cfg_cacheDir cfg = cfg_cacheDir loaded
    /\ declaredModules cfg
       = Some (lwcModuleRecord h componentName projectDir
               :: default [] (declaredModules loaded))
    /\ cfg_moduleProviders cfg
       = Some (getModifiedModuleProviders h ++ default [] (cfg_moduleProviders loaded))
    /\ cfg_routes cfg
       = Some (defaultLwrRoute h componentName projectDir
               :: default [] (cfg_routes loaded)).
Proof.
  intros Hload Hport. unfold getMergedLwrConfig. rewrite Hload, Hport.
  destruct loaded as [[s|] [n|] [d|] cache [[[ms|]]|] [ps|] [rs|]];
    unfold notStr, notNum; simpl;
    try (destruct (JsString.truthy s); simpl);
    try (destruct (n =? 0); simpl);
    try (destruct (JsString.truthy d); simpl);
    eexists; (split; [reflexivity|]); simpl;
    rewrite ?app_nil_r; repeat split; reflexivity.
Qed.

End MergedConfig.

(** C1, amended: a field among [serverMode], [port] and [rootDir] that the
    user's file declares with a truthy value (a string that is not
    empty, a port other than 0) is kept as it is, an absent one receives
    the computed default, and a list that the file declares for
    [lwc.modules], [moduleProviders] or [routes] is kept behind the
    computed entries, which are put in front of it. *)
Theorem C1_merge_keeps_truthy_fields_and_prepends
    (h : Host) (fuel : nat) (componentName projectDir : string)
    (user : LwrGlobalConfig) (freePort : Z) :
  loadJsonFromFile h (LwrServerUtils.userConfigPath h projectDir) = Normal user ->
  LwrServerUtils.getNextAvailablePort h fuel = Some freePort ->
  exists cfg,
    LwrServerUtils.getMergedLwrConfig h fuel componentName projectDir = Some cfg
    (* declared fields are preserved *)
    /\ (forall s, cfg_serverMode user = Some s -> s <> "" -> cfg_serverMode cfg = Some s)
    /\ (forall n, cfg_port user = Some n -> n <> 0 -> cfg_port cfg = Some n)
    /\ (forall d, cfg_rootDir user = Some d -> d <> "" -> cfg_rootDir cfg = Some d)
    (* absent fields receive the defaults *)
    /\ (cfg_serverMode user = None -> cfg_serverMode cfg = Some "dev")
    /\ (cfg_port user = None -> cfg_port cfg = Some freePort)
    /\ (cfg_rootDir user = None ->
        cfg_rootDir cfg = Some (Path.resolve (cwd h) [projectDir]))
    /\ (declaredModules user = None ->
        declaredModules cfg
        = Some [LwrServerUtils.lwcModuleRecord h componentName projectDir])
    /\ (cfg_moduleProviders user = None ->
        cfg_moduleProviders cfg = Some (LwrServerUtils.getModifiedModuleProviders h))
    /\ (cfg_routes user = None ->
        cfg_routes cfg = Some [LwrServerUtils.defaultLwrRoute h componentName projectDir])
    (* declared lists are kept behind the computed entries *)
    /\ (forall modules, declaredModules user = Some modules ->
        declaredModules cfg
        = Some (LwrServerUtils.lwcModuleRecord h componentName projectDir :: modules))
    /\ (forall providers, cfg_moduleProviders user = Some providers ->
        cfg_moduleProviders cfg
        = Some (LwrServerUtils.getModifiedModuleProviders h ++ providers))
    /\ (forall routes, cfg_routes user = Some routes ->
        cfg_routes cfg
        = Some (LwrServerUtils.defaultLwrRoute h componentName projectDir :: routes)).
Proof.
  intros Hload Hport.
  destruct (getMergedLwrConfig_unfold h fuel componentName projectDir user freePort)
    as (cfg & Hcfg & Hmode & Hp & Hroot & _ & Hmods & Hprov & Hroutes);
    [rewrite Hload; reflexivity | exact Hport |].
  exists cfg. split; [exact Hcfg|].
  repeat split.
  - intros s Hs Hne. rewrite Hmode, Hs, truthy_nonempty by exact Hne. reflexivity.
  - intros n Hn Hne. rewrite Hp, Hn.
    destruct (Z.eqb_spec n 0); [contradiction | reflexivity].
  - intros d Hd Hne. rewrite Hroot, Hd, truthy_nonempty by exact Hne. reflexivity.
  - intros Hnone. rewrite Hmode, Hnone. reflexivity.
  - intros Hnone. rewrite Hp, Hnone. reflexivity.
  - intros Hnone. rewrite Hroot, Hnone. reflexivity.
  - intros Hnone. rewrite Hmods, Hnone. reflexivity.
  - intros Hnone. rewrite Hprov, Hnone. simpl. rewrite app_nil_r. reflexivity.
  - intros Hnone. rewrite Hroutes, Hnone. reflexivity.
  - intros modules Hsome. rewrite Hmods, Hsome. reflexivity.
  - intros providers Hsome. rewrite Hprov, Hsome. reflexivity.
  - intros routes Hsome. rewrite Hroutes, Hsome. reflexivity.
Qed.

Lemma C1_witness_sample_config :
  exists cfg,
    LwrServerUtils.getMergedLwrConfig hostWithSampleConfig 1
      "/force-app/main/default/lwc/helloWorld" "/LWC-Mobile-Samples/HelloWorld" = Some cfg
    /\ cfg_port cfg = Some 3456
    /\ cfg_rootDir cfg = Some "/path/to/my/rootdir"
    /\ cfg_serverMode cfg = Some "dev"
    /\ declaredModules cfg
       = Some [DirModuleRecord "/LWC-Mobile-Samples/HelloWorld/force-app/main/default";
               DirModuleRecord "$rootDir/src/modules"]
    /\ (route_rootComponent <$> default [] (cfg_routes cfg)) = ["lwc/helloWorld"; "example/app"].
Proof.
  destruct (C1_merge_keeps_truthy_fields_and_prepends hostWithSampleConfig 1
              "/force-app/main/default/lwc/helloWorld" "/LWC-Mobile-Samples/HelloWorld"
              sampleUserConfig 3000 eq_refl eq_refl)
    as (cfg & Hcfg & _ & Hport & Hroot & Hmode & _ & _ & _ & _ & _ & Hmods & _ & Hroutes).
  exists cfg. split; [exact Hcfg|].
  split; [apply (Hport 3456 eq_refl); discriminate|].
  split; [apply (Hroot "/path/to/my/rootdir" eq_refl); discriminate|].
  split; [apply Hmode; reflexivity|].
  split; [rewrite (Hmods _ eq_refl); reflexivity|].
  rewrite (Hroutes _ eq_refl). reflexivity.
Defined.

(** The property as the design document words it fails for a declared port 0: the file's
    value is replaced by the port that the search finds. *)
Lemma C1_counterexample_port_zero_is_replaced :
  exists cfg,
    LwrServerUtils.getMergedLwrConfig hostWithPortZero 1
      "force-app/main/default/lwc/helloWorld" "/proj" = Some cfg
    /\ cfg_port portZeroConfig = Some 0
    /\ cfg_port cfg = Some 3000
    /\ cfg_port cfg <> cfg_port portZeroConfig.
Proof.
  eexists. split; [reflexivity|]. split; [reflexivity|]. split; [reflexivity|].
  discriminate.
Qed.

(** C6: with no configuration file in the project, the component
    [force-app/main/default/lwc/helloWorld] of the project [/proj] is
    served from the single module directory [/proj/force-app/main/default],
    under the single route [/] whose root component is [lwc/helloWorld],
    with [/proj] as root directory. *)
Theorem C6_hello_world_without_config_file
    (h : Host) (fuel : nat) (freePort : Z) (e : string) :
  loadJsonFromFile h "/proj/lwr.config.json" = Throw e ->
  LwrServerUtils.getNextAvailablePort h fuel = Some freePort ->
  exists cfg,
    LwrServerUtils.getMergedLwrConfig h fuel "force-app/main/default/lwc/helloWorld" "/proj"
    = Some cfg
    /\ declaredModules cfg = Some [DirModuleRecord "/proj/force-app/main/default"]
    /\ cfg_routes cfg
       = Some [{| route_id := "lwc-helloWorld-" +:+ JsString.ofZ (now h);
                  route_path := "/";
                  route_rootComponent := "lwc/helloWorld" |}]
    /\ cfg_rootDir cfg = Some "/proj"
    /\ cfg_port cfg = Some freePort
    /\ cfg_serverMode cfg = Some "dev".
Proof.
  intros Hload Hport.
  destruct (getMergedLwrConfig_unfold h fuel "force-app/main/default/lwc/helloWorld" "/proj"
              emptyConfig freePort)
    as (cfg & Hcfg & Hmode & Hp & Hroot & _ & Hmods & _ & Hroutes);
    [ change (LwrServerUtils.userConfigPath h "/proj") with "/proj/lwr.config.json";
      rewrite Hload; reflexivity
    | exact Hport | ].
  exists cfg. split; [exact Hcfg|].
  split; [rewrite Hmods; reflexivity|].
  split; [rewrite Hroutes; reflexivity|].
  split; [rewrite Hroot; reflexivity|].
  split; [rewrite Hp; reflexivity | rewrite Hmode; reflexivity].
Qed.

Lemma C6_witness_bare_host :
  exists cfg,
    LwrServerUtils.getMergedLwrConfig bareHost 1 "force-app/main/default/lwc/helloWorld" "/proj"
    = Some cfg
    /\ declaredModules cfg = Some [DirModuleRecord "/proj/force-app/main/default"]
    /\ cfg_routes cfg
       = Some [{| route_id := "lwc-helloWorld-1700000000000";
                  route_path := "/";
                  route_rootComponent := "lwc/helloWorld" |}]
    /\ cfg_rootDir cfg = Some "/proj"
    /\ cfg_port cfg = Some 3000
    /\ cfg_serverMode cfg = Some "dev".
Proof.
  exact (C6_hello_world_without_config_file bareHost 1 3000
           "ENOENT: no such file or directory" eq_refl eq_refl).
Defined.

(** ** The resolver of components *)

Section ComponentResolver.
Import CustomLwcModuleProvider.
Variable h : Host.
Variable moduleMap : gmap string string.

(** What the resolver answers for a plain reference to a known
    component: the directory joined with the name that the probes of the
    file system select. *)
Lemma getModuleEntry_plain (moduleId : ModuleId) (name dir : string) :
  specifier moduleId = "c/" +:+ name ->
  JsString.occurs "#" name = false ->
  JsString.occurs "." name = false ->
  moduleMap !! name = Some dir ->
  dir <> "" ->
  getModuleEntry h moduleMap moduleId
  = Normal (Some (makeEntry ("c/" +:+ name)
      (Path.join [dir;
         if existsSync h (Path.join [dir; name] +:+ ".js") then name +:+ ".js"
         else if existsSync h (Path.join [dir; name] +:+ ".css") then name +:+ ".css"
         else name]))).
Proof.
  intros Hspec Hhash Hdot Hdir Hne.
  unfold getModuleEntry, withImporter. cbn [specifier]. rewrite Hspec.
  change (JsString.startsWith ("c/" +:+ name) nestedModulesNamespace) with true.
  cbn iota.
  rewrite (split_absent "#" ("c/" +:+ name)) by exact Hhash.
  change (JsString.replace nestedModulesNamespace "" (List.nth 0 ["c/" +:+ name] ""))
    with name.
  change (JsString.replace nestedModulesNamespace "" ("c/" +:+ name)) with name.
  change ((1 <? length ["c/" +:+ name])%nat) with false. cbn iota.
  rewrite Hdir, (truthy_nonempty dir Hne).
  rewrite (lastIndexOf_absent "." name Hdot).
  change (negb (JsString.truthy (orElse None "")) && (-1 =? -1)) with true.
  cbn iota. cbn [orElse].
  rewrite (truthy_nonempty _ (join_nonempty _)).
  reflexivity.
Qed.

(** The earlier resolver names the script without looking at the
    directory. *)
Lemma getModuleEntry_rev1_plain (moduleId : ModuleId) (name dir : string) :
  specifier moduleId = "c/" +:+ name ->
  JsString.occurs "#" name = false ->
  moduleMap !! name = Some dir ->
  dir <> "" ->
  getModuleEntry_rev1 h moduleMap moduleId
  = Normal (Some (makeEntry ("c/" +:+ name) (Path.join [dir; name +:+ ".js"]))).
Proof.
  intros Hspec Hname Hdir Hdne.
  unfold getModuleEntry_rev1, withImporter. cbn [specifier]. rewrite Hspec.
  change (JsString.startsWith ("c/" +:+ name) nestedModulesNamespace) with true.
  cbn iota.
  rewrite (split_absent "#" ("c/" +:+ name)) by exact Hname.
  cbn [List.nth lookup list_lookup].
  change (JsString.replace nestedModulesNamespace "" ("c/" +:+ name)) with name.
  rewrite Hdir, (truthy_nonempty dir Hdne).
  cbn [orElse].
  rewrite (truthy_nonempty _ (join_nonempty _)). reflexivity.
Qed.

End ComponentResolver.

(** C2, amended: for a reference [c/name] to a component of the map,
    where [name] has neither a dot nor a fragment mark.  The resolver
    that probes the directory answers with an entry whose path ends in
    [.js] when the script [name.js] is in the component's directory,
    with one whose path ends in [.css] when only the style sheet
    [name.css] is there, and with the bare path of the component,
    without extension, when neither is there.  The earlier resolver does
    not look at the directory and answers with the path of [name.js] in
    all three cases.  Neither answers [undefined]. *)
Theorem C2_component_entry_follows_the_probes
    (h : Host) (moduleMap : gmap string string) (moduleId : ModuleId) (name dir : string) :
  specifier moduleId = "c/" +:+ name ->
  JsString.occurs "#" name = false ->
  JsString.occurs "." name = false ->
  moduleMap !! name = Some dir ->
  dir <> "" ->
  let script := existsSync h (Path.join [dir; name] +:+ ".js") in
  let sheet := existsSync h (Path.join [dir; name] +:+ ".css") in
  (script = true ->
     exists entry,
       CustomLwcModuleProvider.getModuleEntry h moduleMap moduleId = Normal (Some entry)
       /\ entry_path entry = Path.join [dir; name +:+ ".js"]
       /\ JsString.endsWith (entry_path entry) ".js" = true)
  /\ (script = false -> sheet = true ->
     exists entry,
       CustomLwcModuleProvider.getModuleEntry h moduleMap moduleId = Normal (Some entry)
       /\ entry_path entry = Path.join [dir; name +:+ ".css"]
       /\ JsString.endsWith (entry_path entry) ".css" = true)
  /\ (script = false -> sheet = false ->
     CustomLwcModuleProvider.getModuleEntry h moduleMap moduleId
     = Normal (Some (CustomLwcModuleProvider.makeEntry ("c/" +:+ name)
                       (Path.join [dir; name]))))
  /\ (exists entry,
        CustomLwcModuleProvider.getModuleEntry_rev1 h moduleMap moduleId = Normal (Some entry)
        /\ entry = CustomLwcModuleProvider.makeEntry ("c/" +:+ name)
                     (Path.join [dir; name +:+ ".js"])
        /\ JsString.endsWith (entry_path entry) ".js" = true).
Proof.
  intros Hspec Hhash Hdot Hdir Hne script sheet.
  pose proof (getModuleEntry_plain h moduleMap moduleId name dir Hspec Hhash Hdot Hdir Hne)
    as Hentry.
  fold script sheet in Hentry.
  split; [|split; [|split]].
  - intros Hscript. rewrite Hscript in Hentry.
    eexists. split; [exact Hentry|]. split; [reflexivity|]. cbn [entry_path CustomLwcModuleProvider.makeEntry].
    destruct (join_keeps dir name ".js" Hne eq_refl eq_refl) as [pre ->].
    apply endsWith_app.
  - intros Hscript Hsheet. rewrite Hscript, Hsheet in Hentry.
    eexists. split; [exact Hentry|]. split; [reflexivity|]. cbn [entry_path CustomLwcModuleProvider.makeEntry].
    destruct (join_keeps dir name ".css" Hne eq_refl eq_refl) as [pre ->].
    apply endsWith_app.
  - intros Hscript Hsheet. rewrite Hscript, Hsheet in Hentry. exact Hentry.
  - eexists. split; [apply (getModuleEntry_rev1_plain h moduleMap moduleId name dir); assumption|].
    split; [reflexivity|]. cbn [entry_path CustomLwcModuleProvider.makeEntry].
    destruct (join_keeps dir name ".js" Hne eq_refl eq_refl) as [pre ->].
    apply endsWith_app.
Qed.

Lemma C2_witness_foo_with_script :
  (exists entry,
     CustomLwcModuleProvider.getModuleEntry hostWithFooScript fooMap fooId = Normal (Some entry)
     /\ entry_path entry = "/proj/force-app/main/default/lwc/foo/foo.js"
     /\ JsString.endsWith (entry_path entry) ".js" = true)
  /\ (exists entry,
        CustomLwcModuleProvider.getModuleEntry_rev1 hostWithFooScript fooMap fooId
        = Normal (Some entry)
        /\ entry_path entry = "/proj/force-app/main/default/lwc/foo/foo.js").
Proof.
  pose proof (C2_component_entry_follows_the_probes hostWithFooScript fooMap fooId
                "foo" "/proj/force-app/main/default/lwc/foo"
                eq_refl eq_refl eq_refl eq_refl ltac:(discriminate))
    as (Hscript & _ & _ & Hearlier).
  split.
  - destruct (Hscript eq_refl) as (entry & Hentry & Hpath & Hends).
    exists entry. split; [exact Hentry|]. split; [|exact Hends].
    rewrite Hpath. reflexivity.
  - destruct Hearlier as (entry & Hentry & -> & _).
    eexists. split; [exact Hentry | reflexivity].
Defined.

(** The property as the design document words it fails when the directory of a known
    component holds neither file: neither resolver answers [undefined].
    The probing resolver answers with the path of the component without
    extension, the earlier one with the path of a script that is not
    there, and the inherited resolver is not asked. *)
Lemma C2_counterexample_neither_file_still_resolves :
  existsSync bareHost "/proj/force-app/main/default/lwc/foo/foo.js" = false
  /\ existsSync bareHost "/proj/force-app/main/default/lwc/foo/foo.css" = false
  /\ fooMap !! "foo" = Some "/proj/force-app/main/default/lwc/foo"
  /\ CustomLwcModuleProvider.getModuleEntry bareHost fooMap fooId
     = Normal (Some {| entry_id := "c/foo|1"; entry_virtual := false;
                       entry_path := "/proj/force-app/main/default/lwc/foo/foo";
                       entry_specifier := "c/foo"; entry_version := "1" |})
  /\ CustomLwcModuleProvider.getModuleEntry bareHost fooMap fooId <> Normal None
  /\ CustomLwcModuleProvider.getModuleEntry_rev1 bareHost fooMap fooId
     = Normal (Some {| entry_id := "c/foo|1"; entry_virtual := false;
                       entry_path := "/proj/force-app/main/default/lwc/foo/foo.js";
                       entry_specifier := "c/foo"; entry_version := "1" |}).
Proof.
  split; [reflexivity|]. split; [reflexivity|]. split; [reflexivity|].
  split; [reflexivity|]. split; [discriminate | reflexivity].
Qed.

(** ** The resolver of labels *)

Section LabelResolver.
Import SalesforceLabelProvider.
Variable labelName : string.

Lemma labels_of_parsed (labels : list Label) :
  labels <> [] ->
  exists doc,
    Js.getProp (parsedLabels labels) "CustomLabels" = Normal doc
    /\ exists value,
         Js.getPropOpt doc "labels" = Normal value
         /\ match value with JArr elements => elements | other => [other] end
            = map labelEntry labels.
Proof.
  intros Hne. destruct labels as [|l [|l' more]]; [contradiction| |].
  - eexists. split; [reflexivity|]. eexists. split; reflexivity.
  - eexists. split; [reflexivity|]. eexists. split; reflexivity.
Qed.

Lemma find_among_entries (labels : list Label) :
  Js.findC
    (fun item =>
       let! fullName := Js.getProp item "fullName" in
       Normal (Js.strictEqStr fullName labelName))
    (map labelEntry labels)
  = Normal (match List.find (fun l => Js.strictEqStr (fst l) labelName) labels with
            | Some l => labelEntry l
            | None => JUndefined
            end).
Proof.
  induction labels as [|l labels IH]; [reflexivity|].
  cbn [map Js.findC List.find]. unfold labelEntry at 1. cbn.
  destruct (Js.strictEqStr (fst l) labelName); [reflexivity | exact IH].
Qed.

(** One turn of the loop over the files, on a parsed file that holds a
    label. *)
Lemma searchLabels_parsed (file : string) (labels : list Label) (more : JsMap JsValue) :
  labels <> [] ->
  searchLabels labelName ((file, parsedLabels labels) :: more)
  = match List.find (fun l => Js.strictEqStr (fst l) labelName) labels with
    | Some l => Normal (snd l)
    | None => searchLabels labelName more
    end.
Proof.
  intros Hne.
  destruct (labels_of_parsed labels Hne) as (doc & Hdoc & value & Hvalue & Helements).
  cbn [searchLabels snd]. rewrite Hdoc. cbn [bindC]. rewrite Hvalue. cbn [bindC].
  rewrite Helements, find_among_entries. cbn [bindC].
  destruct (List.find (fun l => Js.strictEqStr (fst l) labelName) labels) as [l|]; reflexivity.
Qed.


Lemma searchLabels_skip (files : list (string * list Label)) (more : JsMap JsValue) :
  Forall (fun file => snd file <> []) files ->
  firstLabelAcrossFiles labelName files = None ->
  searchLabels labelName (parsedFiles files ++ more) = searchLabels labelName more.
Proof.
  induction files as [|[file labels] files IH]; intros Hfiles Hnone; [reflexivity|].
  inversion Hfiles as [|? ? Hne Hrest]; subst.
  cbn [parsedFiles map fst snd List.app]. cbn [firstLabelAcrossFiles snd] in Hnone.
  rewrite searchLabels_parsed by exact Hne.
  destruct (List.find (fun l => Js.strictEqStr (fst l) labelName) labels);
    [discriminate | apply IH; assumption].
Qed.

(** The loop treats a value that is not an array as the array of that
    value. *)
Lemma searchLabels_wrap (before after : JsMap JsValue) (file : string) (labels : JsValue) :
  Js.isArray labels = false ->
  searchLabels labelName (before ++ (file, labelsDocument labels) :: after)
  = searchLabels labelName (before ++ (file, labelsDocument (JArr [labels])) :: after).
Proof.
  intros Hshape. induction before as [|item before IH].
  - destruct labels; try discriminate; reflexivity.
  - cbn [List.app searchLabels]. rewrite IH. reflexivity.
Qed.

Hypothesis Hnonempty : labelName <> "".
Hypothesis Hslash : JsString.occurs "/" labelName = false.
Hypothesis Hdot : JsString.occurs "." labelName = false.

Lemma label_specifier_segments :
  JsString.split "/" ("@salesforce/label/c." +:+ labelName)
  = ["@salesforce"; "label"; "c." +:+ labelName]
  /\ JsString.split "." ("c." +:+ labelName) = ["c"; labelName].
Proof.
  split.
  - change ("@salesforce/label/c." +:+ labelName)
      with ("@salesforce/label" +:+ String "/" ("c." +:+ labelName)).
    rewrite split_app_sep, (split_absent "/" ("c." +:+ labelName)) by exact Hslash.
    reflexivity.
  - change ("c." +:+ labelName) with ("c" +:+ String "." labelName).
    rewrite split_app_sep, (split_absent "." labelName) by exact Hdot.
    reflexivity.
Qed.

Lemma label_specifier_name (customLabelsMap : JsMap JsValue) :
  getLabelValueFromMap customLabelsMap ("@salesforce/label/c." +:+ labelName)
  = searchLabels labelName customLabelsMap.
Proof.
  unfold getLabelValueFromMap.
  destruct label_specifier_segments as [-> Hsegment].
  cbn [lookup list_lookup mbind option_bind]. rewrite Hsegment.
  cbn [lookup list_lookup]. rewrite (truthy_nonempty labelName Hnonempty).
  reflexivity.
Qed.

End LabelResolver.

Section LabelModule.
Import SalesforceLabelProvider.
Variable h : Host.
Variable customLabelsMap : JsMap JsValue.
Variable moduleId : ModuleId.
Variable found : JsValue.
Hypothesis Hscoped : isLabelScopedModule (specifier moduleId) = true.
Hypothesis Hfound : getLabelValueFromMap customLabelsMap (specifier moduleId) = Normal found.



End LabelModule.





(** A value that reads as a number with a fraction is exported as the
    number prints. *)
Example label_with_a_decimal_value :
  firstLabelAcrossFiles "rate" numericValueFiles = Some (JDec 1.5)
  /\ exists m,
       SalesforceLabelProvider.getModule bareHost (parsedFiles numericValueFiles)
         (labelId "rate") = Normal (Some m)
       /\ exportedString (mc_originalSource m) = Some "1.5".
Proof. split; [reflexivity|]. eexists. split; reflexivity. Qed.

(** A file without labels ahead of the match makes the lookup throw. *)
Example label_lookup_throws_on_empty_file :
  SalesforceLabelProvider.getModule bareHost (parsedFiles emptyFileFirst) (labelId "greeting")
  = Throw "TypeError: Cannot read properties of undefined (reading 'fullName')".
Proof. reflexivity. Qed.

(** C10: a [labels] value that is not an array is searched as the array
    of that one value, so a file whose only label is parsed as a single
    object is looked up like a file with an array of labels, and the
    value of that label is found. *)
Theorem C10_single_label_file_is_searched
    (before after : JsMap JsValue) (file : string) (labels : JsValue) (specifier : string)
    (files : list (string * list Label)) (someLabel : string) (value : JsValue) :
  (Js.isArray labels = false ->
   SalesforceLabelProvider.getLabelValueFromMap
     (before ++ (file, labelsDocument labels) :: after) specifier
   = SalesforceLabelProvider.getLabelValueFromMap
       (before ++ (file, labelsDocument (JArr [labels])) :: after) specifier)
  /\ (someLabel <> "" ->
      JsString.occurs "/" someLabel = false ->
      JsString.occurs "." someLabel = false ->
      Forall (fun file => snd file <> []) files ->
      firstLabelAcrossFiles someLabel files = None ->
      SalesforceLabelProvider.getLabelValueFromMap
        (parsedFiles files
         ++ (file, labelsDocument (labelEntry (JStr someLabel, value))) :: after)
        ("@salesforce/label/c." +:+ someLabel)
      = Normal value
      /\ SalesforceLabelProvider.getLabelValueFromMap
           (parsedFiles files
            ++ (file, labelsDocument (JArr [labelEntry (JStr someLabel, value)])) :: after)
           ("@salesforce/label/c." +:+ someLabel)
         = Normal value).
Proof.
  split.
  - intros Hshape. unfold SalesforceLabelProvider.getLabelValueFromMap.
    destruct (_ ≫= _) as [labelName|]; [|reflexivity].
    destruct (JsString.truthy labelName); [|reflexivity].
    apply searchLabels_wrap, Hshape.
  - intros Hne Hslash Hdot Hfiles Hnone.
    assert (Hone : SalesforceLabelProvider.getLabelValueFromMap
                     (parsedFiles files
                      ++ (file, labelsDocument (labelEntry (JStr someLabel, value))) :: after)
                     ("@salesforce/label/c." +:+ someLabel)
                   = Normal value).
    { rewrite label_specifier_name by assumption.
      rewrite searchLabels_skip by assumption.
      change (labelsDocument (labelEntry (JStr someLabel, value)))
        with (parsedLabels [(JStr someLabel, value)]).
      rewrite searchLabels_parsed by discriminate.
      cbn [List.find fst snd Js.strictEqStr]. rewrite String.eqb_refl. reflexivity. }
    split; [exact Hone|].
    rewrite <- Hone. symmetry.
    unfold SalesforceLabelProvider.getLabelValueFromMap.
    destruct (_ ≫= _) as [labelName|]; [|reflexivity].
    destruct (JsString.truthy labelName); [|reflexivity].
    apply searchLabels_wrap. reflexivity.
Qed.

Lemma C10_witness_single_label_file :
  SalesforceLabelProvider.getLabelValueFromMap
    [("force-app/main/default/labels/Custom.labels-meta.xml",
      labelsDocument (labelEntry (JStr "greeting", JStr "Hello")))]
    "@salesforce/label/c.greeting"
  = Normal (JStr "Hello")
  /\ SalesforceLabelProvider.getLabelValueFromMap
       [("force-app/main/default/labels/Custom.labels-meta.xml",
         labelsDocument (labelEntry (JStr "greeting", JStr "Hello")))]
       "@salesforce/label/c.greeting"
     = SalesforceLabelProvider.getLabelValueFromMap
         [("force-app/main/default/labels/Custom.labels-meta.xml",
           labelsDocument (JArr [labelEntry (JStr "greeting", JStr "Hello")]))]
         "@salesforce/label/c.greeting".
Proof.
  pose proof (C10_single_label_file_is_searched [] []
                "force-app/main/default/labels/Custom.labels-meta.xml"
                (labelEntry (JStr "greeting", JStr "Hello")) "@salesforce/label/c.greeting"
                [] "greeting" (JStr "Hello")) as [Hwrap Hfound].
  split.
  - exact (proj1 (Hfound ltac:(discriminate) eq_refl eq_refl (List.Forall_nil _) eq_refl)).
  - exact (Hwrap eq_refl).
Defined.

(** ** The resolver of static resources *)

Section Extension.
Import Path.

Lemma strip_absent (t : string) :
  JsString.occurs "/" t = false -> stripTrailingSlashes t = t.
Proof.
  induction t as [|c t IH]; intros Habs; [reflexivity|].
  cbn [JsString.occurs] in Habs. apply orb_false_elim in Habs as [Hc Ht].
  cbn [stripTrailingSlashes]. rewrite (IH Ht), Hc.
  destruct t; reflexivity.
Qed.

Lemma strip_app_absent (s t : string) :
  t <> "" -> JsString.occurs "/" t = false -> stripTrailingSlashes (s +:+ t) = s +:+ t.
Proof.
  intros Hne Habs. induction s as [|c s IH].
  - apply strip_absent, Habs.
  - change (String c s +:+ t) with (String c (s +:+ t)).
    cbn [stripTrailingSlashes]. rewrite IH.
    destruct (s +:+ t) eqn:Hst; [|reflexivity].
    exfalso. exact (app_nonempty_r s t Hne Hst).
Qed.

Lemma splitLast_app_absent (c : ascii) (s t : string) :
  JsString.occurs c t = false ->
  splitLast c (s +:+ t)
  = match splitLast c s with
    | Some (before, after) => Some (before, after +:+ t)
    | None => None
    end.
Proof.
  intros Habs. induction s as [|d s IH].
  - apply splitLast_absent, Habs.
  - change (String d s +:+ t) with (String d (s +:+ t)).
    cbn [splitLast]. rewrite IH.
    destruct (splitLast c s) as [[before after]|]; [reflexivity|].
    destruct (Ascii.eqb d c); reflexivity.
Qed.

Lemma basename_app_absent (s t : string) :
  t <> "" -> JsString.occurs "/" t = false ->
  exists b0, basename (s +:+ t) = b0 +:+ t.
Proof.
  intros Hne Habs. unfold basename.
  rewrite strip_app_absent, splitLast_app_absent by assumption.
  destruct (splitLast "/" s) as [[before after]|].
  - exists after. reflexivity.
  - exists s. reflexivity.
Qed.

(** The extension of a file name that is a name, a dot and an
    extension without dot. *)
Lemma extname_dotted (pre name ext : string) :
  someOtherThan "." name = true ->
  JsString.occurs "/" name = false ->
  JsString.occurs "/" ext = false ->
  JsString.occurs "." ext = false ->
  extname (pre +:+ name +:+ "." +:+ ext) = "." +:+ ext.
Proof.
  intros Hname Hslash Hslash' Hdot. unfold extname.
  destruct (basename_app_absent pre (name +:+ "." +:+ ext)) as [b0 ->].
  - apply app_nonempty_r. discriminate.
  - rewrite occurs_app, Hslash. cbn. exact Hslash'.
  - unfold splitExt.
    replace (b0 +:+ name +:+ "." +:+ ext) with ((b0 +:+ name) +:+ String "." ext)
      by (rewrite app_assoc; reflexivity).
    rewrite splitLast_at_last by exact Hdot.
    pose proof (someOtherThan_app_r "." b0 name Hname) as Hbefore.
    destruct (String.eqb_spec (b0 +:+ name) "") as [Hempty|_];
      [rewrite Hempty in Hbefore; discriminate|].
    destruct (String.eqb_spec ((b0 +:+ name) +:+ String "." ext) "..") as [Hdots|_].
    + exfalso.
      pose proof (someOtherThan_app_l "." _ (String "." ext) Hbefore) as Hall.
      rewrite Hdots in Hall. discriminate.
    + reflexivity.
Qed.

End Extension.

Section ResourceResolver.
Import SalesforceResourceProvider.
Variable h : Host.
Variable resource : string.
Hypothesis Hnonempty : resource <> "".
Hypothesis Hslash : JsString.occurs "/" resource = false.
Hypothesis Hdot : JsString.occurs "." resource = false.

Lemma resource_is_name : someOtherThan "." resource = true.
Proof. apply absent_someOtherThan; assumption. Qed.

Lemma resource_pathInFolder :
  Path.join ["force-app/main/default/staticresources"; resource]
  = "force-app/main/default/staticresources/" +:+ resource.
Proof.
  rewrite join_two by (discriminate || assumption).
  destruct (real_segment resource resource_is_name) as [Hseg Hdots].
  unfold Path.normalize, Path.normalizeString.
  change ("force-app/main/default/staticresources" +:+ "/" +:+ resource)
    with ("force-app/main/default/staticresources" +:+ String "/" resource).
  rewrite split_app_sep, (split_absent "/" resource Hslash).
  change ("force-app/main/default/staticresources" +:+ String "/" resource)
    with ("force-app/main/default/staticresources/" +:+ resource).
  rewrite (endsWith_app_absent "/" _ resource Hnonempty Hslash).
  cbn [JsString.split Ascii.eqb Bool.eqb List.app Path.normalizeSegments String.eqb orb].
  cbn. rewrite Hseg, Hdots, app_empty_r. reflexivity.
Qed.

Lemma resource_fullPath_ends : exists pre, resourceFullPath h resource = pre +:+ resource.
Proof.
  unfold resourceFullPath.
  destruct (resolve_keeps (cwd h) [Path.resolve (cwd h) [default "" (env_ROOT_DIR h)]]
              "force-app/main/default/staticresources/" resource Hslash resource_is_name)
    as [pre Hpre].
  cbn [List.app] in Hpre. rewrite Hpre.
  apply normalize_keeps; [exact Hslash | exact resource_is_name].
Qed.

Lemma getPath_resource :
  getPath h resource "force-app/main/default/staticresources"
  = ("force-app/main/default/staticresources/" +:+ resource)
    +:+ getFileExtension h (resourceFullPath h resource).
Proof. unfold getPath. rewrite resource_pathInFolder. reflexivity. Qed.

Lemma resource_specifier_segments :
  JsString.split "/" ("@salesforce/resourceUrl/" +:+ resource)
  = ["@salesforce"; "resourceUrl"; resource].
Proof.
  change ("@salesforce/resourceUrl/" +:+ resource)
    with ("@salesforce/resourceUrl" +:+ String "/" resource).
  rewrite split_app_sep, (split_absent "/" resource Hslash). reflexivity.
Qed.

Lemma getModule_resource (moduleId : ModuleId) :
  specifier moduleId = "@salesforce/resourceUrl/" +:+ resource ->
  exists m,
    getModule h moduleId = Normal (Some m)
    /\ mc_originalSource m
       = exportDefault (("force-app/main/default/staticresources/" +:+ resource)
                        +:+ getFileExtension h (resourceFullPath h resource))
    /\ entry_virtual (mc_moduleEntry m) = true.
Proof.
  intros Hspec. unfold getModule, getModuleEntry. rewrite Hspec.
  change (isResourceUrlScopedModule ("@salesforce/resourceUrl/" +:+ resource)) with true.
  cbn [bindC].
  change (JsString.startsWith ("@salesforce/resourceUrl/" +:+ resource)
            CONTENT_ASSET_URL_PREFIX) with false.
  rewrite resource_specifier_segments.
  cbn [lookup list_lookup]. rewrite (split_absent "." resource Hdot).
  cbn [List.nth bindC].
  unfold getResourceFilePath. rewrite getPath_resource.
  eexists. split; [reflexivity|]. split; reflexivity.
Qed.

End ResourceResolver.

(** C8, amended: for a specifier [@salesforce/resourceUrl/name] where
    [name] is not empty and has neither slash nor dot.  The module
    exports the path [force-app/main/default/staticresources/name]
    followed by the extension of the file that the glob of [name.*],
    sidecar files left out, lists first, its extension being what
    follows its last dot.  So when that file is [name.ext] and [ext] has
    no further dot, the module exports
    [force-app/main/default/staticresources/name.ext]; when the glob
    gives nothing or fails, the module is returned all the same and
    exports the path without extension. *)
Theorem C8_resource_module_exports_relative_path
    (h : Host) (moduleId : ModuleId) (resource : string) :
  specifier moduleId = "@salesforce/resourceUrl/" +:+ resource ->
  resource <> "" ->
  JsString.occurs "/" resource = false ->
  JsString.occurs "." resource = false ->
  let fullPath := resourceFullPath h resource in
  (forall ext others,
     JsString.occurs "/" ext = false ->
     JsString.occurs "." ext = false ->
     fastGlob_sync h (resourcePatterns fullPath)
     = Normal ((fullPath +:+ "." +:+ ext) :: others) ->
     exists m,
       SalesforceResourceProvider.getModule h moduleId = Normal (Some m)
       /\ mc_originalSource m
          = "export default " +:+ JsString.quote
            +:+ "force-app/main/default/staticresources/" +:+ resource +:+ "." +:+ ext
            +:+ JsString.quote +:+ ";")
  /\ (fastGlob_sync h (resourcePatterns fullPath) = Normal []
      \/ (exists e, fastGlob_sync h (resourcePatterns fullPath) = Throw e) ->
      exists m,
        SalesforceResourceProvider.getModule h moduleId = Normal (Some m)
        /\ mc_originalSource m
           = "export default " +:+ JsString.quote
             +:+ "force-app/main/default/staticresources/" +:+ resource
             +:+ JsString.quote +:+ ";")
  /\ (forall first others,
        fastGlob_sync h (resourcePatterns fullPath) = Normal (first :: others) ->
        exists m,
          SalesforceResourceProvider.getModule h moduleId = Normal (Some m)
          /\ mc_originalSource m
             = "export default " +:+ JsString.quote
               +:+ "force-app/main/default/staticresources/" +:+ resource
               +:+ Path.extname first +:+ JsString.quote +:+ ";").
Proof.
  intros Hspec Hne Hslash Hdot fullPath.
  destruct (getModule_resource h resource Hne Hslash Hdot moduleId Hspec)
    as (m & Hm & Hsource & _).
  split; [|split].
  - intros ext others Hslash' Hdot' Hglob.
    exists m. split; [exact Hm|]. rewrite Hsource.
    unfold SalesforceResourceProvider.getFileExtension.
    fold fullPath. change [fullPath +:+ ".*"; "!" +:+ fullPath +:+ ".resource-meta.*";
                           "!" +:+ fullPath +:+ ".asset-meta.*"]
      with (resourcePatterns fullPath).
    rewrite Hglob. cbn [bindC try_catch].
    destruct (resource_fullPath_ends h resource Hne Hslash Hdot) as [pre Hpre].
    fold fullPath in Hpre. rewrite Hpre.
    replace ((pre +:+ resource) +:+ "." +:+ ext) with (pre +:+ resource +:+ "." +:+ ext)
      by (rewrite app_assoc; reflexivity).
    rewrite (extname_dotted pre resource ext)
      by (assumption || apply resource_is_name; assumption).
    unfold exportDefault. rewrite !app_assoc. reflexivity.
  - intros Hglob.
    exists m. split; [exact Hm|]. rewrite Hsource.
    unfold SalesforceResourceProvider.getFileExtension.
    fold fullPath. change [fullPath +:+ ".*"; "!" +:+ fullPath +:+ ".resource-meta.*";
                           "!" +:+ fullPath +:+ ".asset-meta.*"]
      with (resourcePatterns fullPath).
    destruct Hglob as [Hglob|[e Hglob]]; rewrite Hglob; cbn [bindC try_catch];
      unfold exportDefault; rewrite app_empty_r, !app_assoc; reflexivity.
  - intros first others Hglob.
    exists m. split; [exact Hm|]. rewrite Hsource.
    unfold SalesforceResourceProvider.getFileExtension.
    fold fullPath. change [fullPath +:+ ".*"; "!" +:+ fullPath +:+ ".resource-meta.*";
                           "!" +:+ fullPath +:+ ".asset-meta.*"]
      with (resourcePatterns fullPath).
    rewrite Hglob. cbn [bindC try_catch].
    unfold exportDefault. rewrite !app_assoc. reflexivity.
Qed.

Lemma C8_witness_myImage_png :
  resourceFullPath hostWithImage "myImage" = "/proj/force-app/main/default/staticresources/myImage"
  /\ exists m,
       SalesforceResourceProvider.getModule hostWithImage (resourceId "myImage")
       = Normal (Some m)
       /\ mc_originalSource m
          = "export default " +:+ JsString.quote
            +:+ "force-app/main/default/staticresources/myImage.png"
            +:+ JsString.quote +:+ ";".
Proof.
  split; [reflexivity|].
  exact (proj1 (C8_resource_module_exports_relative_path hostWithImage (resourceId "myImage")
                  "myImage" eq_refl ltac:(discriminate) eq_refl eq_refl)
           "png" [] eq_refl eq_refl eq_refl).
Defined.

(** The property as the design document words it fails for a file with two dots in its
    name.  The file [lib.min.js] is there for the resource [lib], and
    the module exports the path of [lib.js], which is not there: only
    what follows the last dot of the file is taken as its extension. *)
Lemma C8_counterexample_minified_script :
  existsSync hostWithMinifiedScript "/proj/force-app/main/default/staticresources/lib.min.js"
  = true
  /\ fastGlob_sync hostWithMinifiedScript
       (resourcePatterns (resourceFullPath hostWithMinifiedScript "lib"))
     = Normal ["/proj/force-app/main/default/staticresources/lib.min.js"]
  /\ existsSync hostWithMinifiedScript "/proj/force-app/main/default/staticresources/lib.js"
     = false
  /\ exists m,
       SalesforceResourceProvider.getModule hostWithMinifiedScript (resourceId "lib")
       = Normal (Some m)
       /\ mc_originalSource m
          = "export default " +:+ JsString.quote
            +:+ "force-app/main/default/staticresources/lib.js"
            +:+ JsString.quote +:+ ";".
Proof.
  split; [reflexivity|]. split; [reflexivity|]. split; [reflexivity|].
  eexists. split; reflexivity.
Qed.

(** ** The component locator *)

Section Locator.
Variable h : Host.
Variable rootDir : string.







End Locator.









(* ================================================================== *)
(** * Part III: further properties of the code *)
(* ================================================================== *)

(** ** Port search, the other way round *)

Section PortSearchSound.
Import LwrServerUtils.
Variable h : Host.

Lemma whileNotDone_sound (fuel : nat) : forall port found,
  whileNotDone h fuel port = Some found ->
  exists k : nat,
    (k < fuel)%nat
    /\ found = port + 2 * Z.of_nat k
    /\ probeSaysInUse h found = false
    /\ forall j : nat, (j < k)%nat -> probeSaysInUse h (port + 2 * Z.of_nat j) = true.
Proof.
  induction fuel as [|fuel IH]; intros port found Hrun; [discriminate|].
  rewrite whileNotDone_step in Hrun.
  destruct (probeSaysInUse h port) eqn:Hhere.
  - destruct (IH _ _ Hrun) as (k & Hk & Hfound & Hfree & Hbusy).
    exists (S k). split; [lia|]. split; [lia|]. split; [exact Hfree|].
    intros [|j] Hj.
    + rewrite Z.mul_0_r, Z.add_0_r. exact Hhere.
    + replace (port + 2 * Z.of_nat (S j)) with (port + 2 + 2 * Z.of_nat j) by lia.
      apply Hbusy. lia.
  - injection Hrun as <-. exists 0%nat. split; [lia|]. split; [lia|].
    split; [exact Hhere|]. intros j Hj. lia.
Qed.

Lemma whileNotDone_all_busy (fuel : nat) : forall port,
  (forall j : nat, probeSaysInUse h (port + 2 * Z.of_nat j) = true) ->
  whileNotDone h fuel port = None.
Proof.
  induction fuel as [|fuel IH]; intros port Hbusy; [reflexivity|].
  rewrite whileNotDone_step.
  pose proof (Hbusy 0%nat) as Hhere. rewrite Z.mul_0_r, Z.add_0_r in Hhere.
  rewrite Hhere. apply IH. intros j.
  replace (port + 2 + 2 * Z.of_nat j) with (port + 2 * Z.of_nat (S j)) by lia.
  apply Hbusy.
Qed.

End PortSearchSound.

(** X1: a port that the search returns is 3000 plus an even offset, its
    probe reported it free, and the probe of every candidate below it
    reported it in use. *)
Theorem X1_returned_port_is_first_free (h : Host) (fuel : nat) (port : Z) :
  LwrServerUtils.getNextAvailablePort h fuel = Some port ->
  exists k : nat,
    (k < fuel)%nat
    /\ port = 3000 + 2 * Z.of_nat k
    /\ probeSaysInUse h port = false
    /\ forall j : nat, (j < k)%nat -> probeSaysInUse h (3000 + 2 * Z.of_nat j) = true.
Proof. apply whileNotDone_sound. Qed.

Lemma X1_witness_3002 :
  exists k : nat,
    (k < 5)%nat /\ 3002 = 3000 + 2 * Z.of_nat k
    /\ probeSaysInUse host3000Busy 3002 = false
    /\ forall j : nat, (j < k)%nat -> probeSaysInUse host3000Busy (3000 + 2 * Z.of_nat j) = true.
Proof. exact (X1_returned_port_is_first_free host3000Busy 5 3002 eq_refl). Defined.

(** X2: when the probe of every candidate port reports it in use, the
    search does not come to an end, however many probes it is given. *)
Theorem X2_search_never_ends_when_all_busy (h : Host) :
  (forall j : nat, probeSaysInUse h (3000 + 2 * Z.of_nat j) = true) ->
  forall fuel, LwrServerUtils.getNextAvailablePort h fuel = None.
Proof. intros Hbusy fuel. apply whileNotDone_all_busy, Hbusy. Qed.

Lemma X2_witness_all_busy : LwrServerUtils.getNextAvailablePort hostAllBusy 50 = None.
Proof.
  apply (X2_search_never_ends_when_all_busy hostAllBusy).
  intros j. unfold probeSaysInUse. reflexivity.
Defined.

(** ** The merged configuration, further *)

Lemma resolve_nonempty (cwd : string) (args : list string) : Path.resolve cwd args <> "".
Proof.
  unfold Path.resolve.
  destruct (Path.gather (rev args ++ [cwd]) "") as [resolvedPath absolute].
  destruct absolute; [discriminate|].
  destruct (String.eqb_spec (Path.normalizeString resolvedPath (negb false)) "");
    [discriminate | assumption].
Qed.

Lemma search_ignores_config_loader (h : Host) (load : string -> Completion LwrGlobalConfig)
    (fuel : nat) :
  LwrServerUtils.getNextAvailablePort (withUserConfig load h) fuel
  = LwrServerUtils.getNextAvailablePort h fuel.
Proof.
  unfold LwrServerUtils.getNextAvailablePort.
  generalize LwrServerUtils.DEFAULT_SERVER_PORT.
  induction fuel as [|fuel IH]; intros port; [reflexivity|].
  cbn [LwrServerUtils.whileNotDone].
  change (LwrServerUtils.probeOnce (withUserConfig load h) port)
    with (LwrServerUtils.probeOnce h port).
  destruct (LwrServerUtils.probeOnce h port) as [port' done].
  destruct done; [reflexivity | apply IH].
Qed.

(** X3: a configuration file that cannot be loaded is merged like a file
    that declares nothing. *)
Theorem X3_unreadable_config_is_an_empty_config
    (h : Host) (fuel : nat) (componentName projectDir e : string) :
  loadJsonFromFile h (LwrServerUtils.userConfigPath h projectDir) = Throw e ->
  LwrServerUtils.getMergedLwrConfig h fuel componentName projectDir
  = LwrServerUtils.getMergedLwrConfig (withUserConfig (fun _ => Normal emptyConfig) h)
      fuel componentName projectDir.
Proof.
  intros Hload. unfold LwrServerUtils.getMergedLwrConfig. rewrite Hload.
  change (loadJsonFromFile (withUserConfig (fun _ => Normal emptyConfig) h)
            (LwrServerUtils.userConfigPath (withUserConfig (fun _ => Normal emptyConfig) h)
               projectDir))
    with (@Normal LwrGlobalConfig emptyConfig).
  rewrite (search_ignores_config_loader h (fun _ => Normal emptyConfig)). reflexivity.
Qed.

Lemma X3_witness_bare_host :
  LwrServerUtils.getMergedLwrConfig bareHost 1 "force-app/main/default/lwc/helloWorld" "/proj"
  = LwrServerUtils.getMergedLwrConfig (withUserConfig (fun _ => Normal emptyConfig) bareHost)
      1 "force-app/main/default/lwc/helloWorld" "/proj".
Proof.
  exact (X3_unreadable_config_is_an_empty_config bareHost 1
           "force-app/main/default/lwc/helloWorld" "/proj"
           "ENOENT: no such file or directory" eq_refl).
Defined.

(** X4: a port other than 0 in the user's file keeps the port search
    from running: the merge gives the same configuration whatever the
    probe commands would print and however little fuel the search has. *)
Theorem X4_declared_port_suppresses_the_search
    (h : Host) (componentName projectDir : string) (user : LwrGlobalConfig) (port : Z) :
  loadJsonFromFile h (LwrServerUtils.userConfigPath h projectDir) = Normal user ->
  cfg_port user = Some port ->
  port <> 0 ->
  exists cfg,
    cfg_port cfg = Some port
    /\ forall fuel run,
         LwrServerUtils.getMergedLwrConfig (withCommands run h) fuel componentName projectDir
         = Some cfg.
Proof.
  intros Hload Hport Hne.
  assert (Hnum : LwrServerUtils.notNum
                   (cfg_port (if LwrServerUtils.notStr (cfg_serverMode user)
                              then LwrServerUtils.setServerMode "dev" user else user))
                 = false).
  { destruct (LwrServerUtils.notStr (cfg_serverMode user));
      cbn [cfg_port LwrServerUtils.setServerMode]; rewrite Hport; apply Z.eqb_neq, Hne. }
  assert (Hsame : forall fuel run,
             LwrServerUtils.getMergedLwrConfig (withCommands run h) fuel componentName projectDir
             = LwrServerUtils.getMergedLwrConfig h 0 componentName projectDir).
  { intros fuel run. unfold LwrServerUtils.getMergedLwrConfig.
    change (loadJsonFromFile (withCommands run h)
              (LwrServerUtils.userConfigPath (withCommands run h) projectDir))
      with (loadJsonFromFile h (LwrServerUtils.userConfigPath h projectDir)).
    rewrite Hload. cbn [try_catch]. rewrite Hnum. reflexivity. }
  destruct (LwrServerUtils.getMergedLwrConfig h 0 componentName projectDir)
    as [cfg|] eqn:Hzero;
    unfold LwrServerUtils.getMergedLwrConfig in Hzero;
    rewrite Hload in Hzero; cbn [try_catch] in Hzero; rewrite Hnum in Hzero;
    cbn [mbind option_bind] in Hzero; [|discriminate].
  exists cfg. split; [|exact Hsame].
  injection Hzero as <-. clear Hsame Hnum Hload.
  destruct user as [[s|] port' [d|] cache [[[ms|]]|] [ps|] [rs|]];
    cbn [cfg_port] in Hport; subst port';
    unfold LwrServerUtils.notStr; cbn;
    try (destruct (JsString.truthy s); cbn);
    try (destruct (JsString.truthy d); cbn);
    reflexivity.
Qed.

Lemma X4_witness_sample_config :
  exists cfg,
    cfg_port cfg = Some 3456
    /\ forall fuel run,
         LwrServerUtils.getMergedLwrConfig (withCommands run hostWithSampleConfig) fuel
           "/force-app/main/default/lwc/helloWorld" "/LWC-Mobile-Samples/HelloWorld"
         = Some cfg.
Proof.
  exact (X4_declared_port_suppresses_the_search hostWithSampleConfig
           "/force-app/main/default/lwc/helloWorld" "/LWC-Mobile-Samples/HelloWorld"
           sampleUserConfig 3456 eq_refl eq_refl ltac:(discriminate)).
Defined.

Lemma truthy_true_nonempty (s : string) : JsString.truthy s = true -> s <> "".
Proof. intros Hs ->. discriminate. Qed.

Lemma found_port_nonzero (h : Host) (fuel : nat) (port : Z) :
  LwrServerUtils.getNextAvailablePort h fuel = Some port -> port <> 0.
Proof.
  intros Hsearch.
  destruct (whileNotDone_sound h fuel LwrServerUtils.DEFAULT_SERVER_PORT port Hsearch)
    as (k & _ & -> & _).
  unfold LwrServerUtils.DEFAULT_SERVER_PORT. lia.
Qed.

(** X5: whatever the user's file holds, a configuration that the merge
    returns has a server mode and a root directory that are not empty,
    a port other than 0, and at least one module directory, one module
    provider and one route; its first route is mounted at [/]. *)
Theorem X5_merged_config_is_filled_in
    (h : Host) (fuel : nat) (componentName projectDir : string) (cfg : LwrGlobalConfig) :
  LwrServerUtils.getMergedLwrConfig h fuel componentName projectDir = Some cfg ->
  filledIn cfg.
Proof.
  intros Hcfg. unfold LwrServerUtils.getMergedLwrConfig in Hcfg.
  pose proof (resolve_nonempty (cwd h) [projectDir]) as Hroot.
  pose proof (found_port_nonzero h fuel) as Hfound.
  destruct (try_catch (loadJsonFromFile h (LwrServerUtils.userConfigPath h projectDir))
              (fun _ => emptyConfig))
    as [[s|] [n|] [d|] cache [[[ms|]]|] [ps|] [rs|]];
    unfold LwrServerUtils.notStr, LwrServerUtils.notNum in Hcfg; cbn in Hcfg;
    try (destruct (JsString.truthy s) eqn:Hs; cbn in Hcfg);
    try (destruct (Z.eqb_spec n 0) as [Hn|Hn]; cbn in Hcfg);
    try (destruct (LwrServerUtils.getNextAvailablePort h fuel) as [fp|] eqn:Hsearch;
         cbn in Hcfg; [specialize (Hfound fp eq_refl) | discriminate]);
    try (destruct (JsString.truthy d) eqn:Hd; cbn in Hcfg);
    injection Hcfg as <-;
    (split; [eexists; split; [reflexivity|];
             first [discriminate | apply truthy_true_nonempty; assumption] |]);
    (split; [eexists; split; [reflexivity|]; assumption |]);
    (split; [eexists; split; [reflexivity|];
             first [apply truthy_true_nonempty; assumption | exact Hroot] |]);
    (split; [eexists; eexists; reflexivity |]);
    (split; [eexists; eexists; reflexivity |]);
    eexists; eexists; split; reflexivity.
Qed.

Lemma X5_witness_sample_config :
  exists cfg,
    LwrServerUtils.getMergedLwrConfig hostWithSampleConfig 1
      "/force-app/main/default/lwc/helloWorld" "/LWC-Mobile-Samples/HelloWorld" = Some cfg
    /\ filledIn cfg.
Proof.
  eexists. split; [reflexivity|].
  apply (X5_merged_config_is_filled_in hostWithSampleConfig 1
           "/force-app/main/default/lwc/helloWorld" "/LWC-Mobile-Samples/HelloWorld").
  reflexivity.
Defined.

(** ** Paths given by their segments *)

Section SegmentFacts.
Import JsString Path.

Lemma plain_parts (s : string) :
  plainSegment s = true ->
  someOtherThan "." s = true /\ occurs "/" s = false /\ occurs "\" s = false.
Proof.
  unfold plainSegment. intros Hp.
  apply andb_true_iff in Hp as [Hp Hback]. apply andb_true_iff in Hp as [Hname Hslash].
  apply negb_true_iff in Hback, Hslash. repeat split; assumption.
Qed.

Lemma plain_nonempty (s : string) : plainSegment s = true -> s <> "".
Proof. intros Hp. apply (someOtherThan_nonempty "."), (plain_parts s Hp). Qed.

Lemma concat_cons (sep x : string) (more : list string) :
  more <> [] -> String.concat sep (x :: more) = x +:+ sep +:+ String.concat sep more.
Proof. destruct more; [contradiction | reflexivity]. Qed.

Lemma concat_app (sep : string) (front back : list string) :
  front <> [] -> back <> [] ->
  String.concat sep (front ++ back)
  = String.concat sep front +:+ sep +:+ String.concat sep back.
Proof.
  intros Hfront Hback. induction front as [|x front IH]; [contradiction|].
  destruct front as [|y front].
  - cbn [List.app]. rewrite concat_cons by exact Hback. reflexivity.
  - change ((x :: y :: front) ++ back) with (x :: ((y :: front) ++ back)).
    rewrite concat_cons by discriminate.
    rewrite IH by discriminate.
    rewrite (concat_cons sep x (y :: front)) by discriminate.
    rewrite !app_assoc. reflexivity.
Qed.

Lemma concat_plain_nonempty (segs : list string) :
  Forall (fun s => plainSegment s = true) segs -> segs <> [] ->
  String.concat "/" segs <> "".
Proof.
  intros Hsegs Hne. destruct segs as [|x more]; [contradiction|].
  inversion Hsegs as [|? ? Hx _]; subst.
  pose proof (plain_nonempty x Hx) as Hxne.
  destruct more; cbn [String.concat]; [exact Hxne|].
  destruct x; [contradiction | discriminate].
Qed.

(** Splitting what was joined gives the segments back. *)
Lemma split_concat (segs : list string) :
  Forall (fun s => plainSegment s = true) segs -> segs <> [] ->
  split "/" (String.concat "/" segs) = segs.
Proof.
  intros Hsegs Hne. induction segs as [|x more IH]; [contradiction|].
  inversion Hsegs as [|? ? Hx Hmore]; subst.
  destruct (plain_parts x Hx) as (_ & Hslash & _).
  destruct more as [|y more].
  - apply split_absent, Hslash.
  - rewrite concat_cons by discriminate.
    change (x +:+ "/" +:+ String.concat "/" (y :: more))
      with (x +:+ String "/" (String.concat "/" (y :: more))).
    rewrite split_app_sep, (split_absent "/" x Hslash), IH by (assumption || discriminate).
    reflexivity.
Qed.

(** Empty segments are dropped and names are kept. *)
Lemma normalizeSegments_names (a : bool) (segs : list string) : forall kept more,
  Forall (fun s => s = "" \/ plainSegment s = true) segs ->
  normalizeSegments a (segs ++ more) kept
  = normalizeSegments a more (rev (filter (fun s => s <> "") segs) ++ kept).
Proof.
  induction segs as [|x segs IH]; intros kept more Hsegs; [reflexivity|].
  inversion Hsegs as [|? ? Hx Hrest]; subst.
  change ((x :: segs) ++ more) with (x :: (segs ++ more)).
  cbn [normalizeSegments]. destruct Hx as [->|Hx].
  - change (String.eqb "" "" || String.eqb "" ".") with true. cbn iota.
    rewrite IH by exact Hrest.
    rewrite filter_cons_False by (intros Hf; apply Hf; reflexivity).
    reflexivity.
  - destruct (real_segment x (proj1 (plain_parts x Hx))) as [-> ->].
    rewrite IH by exact Hrest.
    rewrite filter_cons_True by (apply plain_nonempty, Hx).
    cbn [rev]. rewrite <- List.app_assoc. reflexivity.
Qed.

Lemma filter_names (segs : list string) :
  Forall (fun s => plainSegment s = true) segs -> filter (fun s => s <> "") segs = segs.
Proof.
  induction segs as [|x segs IH]; intros Hsegs; [reflexivity|].
  inversion Hsegs as [|? ? Hx Hrest]; subst.
  rewrite filter_cons_True by (apply plain_nonempty, Hx). rewrite IH by exact Hrest.
  reflexivity.
Qed.

Lemma names_or_empty (segs : list string) :
  Forall (fun s => plainSegment s = true) segs ->
  Forall (fun s => s = "" \/ plainSegment s = true) segs.
Proof. intros Hsegs. eapply List.Forall_impl; [|exact Hsegs]. intros s Hs. right. exact Hs. Qed.

(** The segments of an absolute path: an empty one ahead of the names. *)
Lemma split_absPath (segs : list string) :
  Forall (fun s => plainSegment s = true) segs ->
  exists pad,
    split "/" (absPath segs) = "" :: pad ++ segs /\ Forall (fun s => s = "") pad.
Proof.
  intros Hsegs. unfold absPath.
  change ("/" +:+ String.concat "/" segs) with ("" +:+ String "/" (String.concat "/" segs)).
  rewrite split_app_sep. destruct segs as [|x more].
  - exists [""]. split; [reflexivity | repeat constructor].
  - exists []. rewrite split_concat by (assumption || discriminate).
    split; [reflexivity | constructor].
Qed.

Lemma filter_pad (pad : list string) :
  Forall (fun s => s = "") pad -> filter (fun s => s <> "") pad = [].
Proof.
  induction pad as [|x pad IH]; intros Hpad; [reflexivity|].
  inversion Hpad as [|? ? Hx Hrest]; subst.
  rewrite filter_cons_False by (intros Hf; apply Hf; reflexivity). apply IH, Hrest.
Qed.

Lemma pad_or_names (pad segs : list string) :
  Forall (fun s => s = "") pad -> Forall (fun s => plainSegment s = true) segs ->
  Forall (fun s => s = "" \/ plainSegment s = true) ("" :: pad ++ segs)
  /\ filter (fun s => s <> "") ("" :: pad ++ segs) = segs.
Proof.
  intros Hpad Hsegs. split.
  - constructor; [left; reflexivity|]. apply Forall_app. split.
    + eapply List.Forall_impl; [|exact Hpad]. intros s Hs. left. exact Hs.
    + apply names_or_empty, Hsegs.
  - rewrite filter_cons_False by (intros Hf; apply Hf; reflexivity).
    rewrite filter_app, (filter_pad pad Hpad), (filter_names segs Hsegs). reflexivity.
Qed.

(** An absolute path of names, followed by anything that normalizes
    away, is its own normal form. *)
Lemma normalizeString_absPath (segs : list string) (tail : string) (a : bool) :
  Forall (fun s => plainSegment s = true) segs ->
  Forall (fun s => s = "") (split "/" tail) ->
  normalizeString (absPath segs +:+ String "/" tail) a = String.concat "/" segs.
Proof.
  intros Hsegs Htail. unfold normalizeString.
  rewrite split_app_sep.
  destruct (split_absPath segs Hsegs) as (pad & -> & Hpad).
  destruct (pad_or_names pad segs Hpad Hsegs) as [Hall Hfilter].
  rewrite normalizeSegments_names by exact Hall.
  rewrite Hfilter, List.app_nil_r.
  rewrite <- (List.app_nil_r (split "/" tail)).
  rewrite normalizeSegments_names
    by (eapply List.Forall_impl; [|exact Htail]; intros s Hs; left; exact Hs).
  rewrite (filter_pad _ Htail). cbn [rev List.app normalizeSegments].
  rewrite rev_involutive. reflexivity.
Qed.

(** [path.resolve] leaves an absolute path of names as it is, and takes
    a closing separator away. *)
Lemma resolve_absPath (cwd : string) (segs : list string) :
  Forall (fun s => plainSegment s = true) segs ->
  resolve cwd [absPath segs] = absPath segs
  /\ resolve cwd [absPath segs +:+ "/"] = absPath segs.
Proof.
  intros Hsegs. unfold resolve. cbn [rev List.app gather].
  change (String.eqb (absPath segs) "") with false.
  change (String.eqb (absPath segs +:+ "/") "") with false.
  change (isAbsolute (absPath segs)) with true.
  change (isAbsolute (absPath segs +:+ "/")) with true.
  cbn iota. split.
  - change (absPath segs +:+ "/" +:+ "") with (absPath segs +:+ String "/" "").
    rewrite normalizeString_absPath by (assumption || (repeat constructor)). reflexivity.
  - replace ((absPath segs +:+ "/") +:+ "/" +:+ "") with (absPath segs +:+ String "/" "/")
      by (rewrite app_assoc; reflexivity).
    rewrite normalizeString_absPath by (assumption || (repeat constructor)). reflexivity.
Qed.

End SegmentFacts.

Section ComponentPaths.
Import JsString Path.

Lemma replace_unfold (pat rep s : string) :
  replace pat rep s
  = if startsWith s pat then rep +:+ drop (String.length pat) s
    else match s with
         | EmptyString => EmptyString
         | String c s' => String c (replace pat rep s')
         end.
Proof. destruct s; reflexivity. Qed.

(** Replacing a pattern that opens the string cuts it off. *)
Lemma replace_prefix (pat rest : string) : replace pat "" (pat +:+ rest) = rest.
Proof. rewrite replace_unfold, startsWith_app, drop_app. reflexivity. Qed.

Lemma replaceAll_absent (c : ascii) (rep s : string) :
  occurs c s = false -> replaceAll c rep s = s.
Proof.
  induction s as [|d s IH]; intros Habs; [reflexivity|].
  cbn [occurs] in Habs. apply orb_false_elim in Habs as [Hd Hs].
  cbn [replaceAll]. rewrite Hd, (IH Hs). reflexivity.
Qed.

Lemma replaceAll_app (c : ascii) (rep s t : string) :
  replaceAll c rep (s +:+ t) = replaceAll c rep s +:+ replaceAll c rep t.
Proof.
  induction s as [|d s IH]; [reflexivity|].
  cbn [String.append replaceAll]. rewrite IH, app_assoc. reflexivity.
Qed.

Lemma normalizeString_of_split (s : string) (a : bool) :
  Forall (fun x => x = "" \/ plainSegment x = true) (split "/" s) ->
  normalizeString s a = String.concat "/" (filter (fun x => x <> "") (split "/" s)).
Proof.
  intros Hsegs. unfold normalizeString.
  rewrite <- (List.app_nil_r (split "/" s)) at 1.
  rewrite normalizeSegments_names by exact Hsegs.
  cbn [normalizeSegments]. rewrite List.app_nil_r, rev_involutive. reflexivity.
Qed.

Variable cwd : string.
Variables ps rel : list string.
Hypothesis Hps : Forall (fun s => plainSegment s = true) ps.
Hypothesis Hrel : Forall (fun s => plainSegment s = true) rel.
Hypothesis Hrel_ne : rel <> [].

Lemma plain_app : Forall (fun s => plainSegment s = true) (ps ++ rel).
Proof. apply Forall_app. split; assumption. Qed.

Lemma concat_ends_plain : endsWith (absPath ps +:+ "/" +:+ String.concat "/" rel) "/" = false.
Proof.
  destruct (exists_last Hrel_ne) as (front & l & ->).
  destruct (concat_snoc "/" front l) as [q ->].
  apply Forall_app in Hrel as [_ Hl]. inversion Hl as [|? ? Hplain _]; subst.
  replace (absPath ps +:+ "/" +:+ q +:+ l) with ((absPath ps +:+ "/" +:+ q) +:+ l)
    by (rewrite !app_assoc; reflexivity).
  apply endsWith_app_absent; [apply plain_nonempty, Hplain | apply (plain_parts l Hplain)].
Qed.

(** Joining an absolute path of names and a relative one appends the
    segments. *)
Lemma join_absPath :
  join [absPath ps; String.concat "/" rel] = absPath (ps ++ rel).
Proof.
  rewrite join_two; [| discriminate | apply concat_plain_nonempty; assumption].
  unfold normalize.
  change (String.eqb (absPath ps +:+ "/" +:+ String.concat "/" rel) "") with false.
  change (isAbsolute (absPath ps +:+ "/" +:+ String.concat "/" rel)) with true.
  cbn iota. rewrite concat_ends_plain.
  change (absPath ps +:+ "/" +:+ String.concat "/" rel)
    with (absPath ps +:+ String "/" (String.concat "/" rel)).
  assert (Hsplit : exists pad,
             split "/" (absPath ps +:+ String "/" (String.concat "/" rel))
             = "" :: pad ++ (ps ++ rel) /\ Forall (fun s => s = "") pad).
  { rewrite split_app_sep, (split_concat rel Hrel Hrel_ne).
    destruct (split_absPath ps Hps) as (pad & -> & Hpad).
    exists pad. split; [|exact Hpad].
    cbn [List.app]. rewrite <- !List.app_assoc. reflexivity. }
  destruct Hsplit as (pad & Hsplit & Hpad).
  destruct (pad_or_names pad (ps ++ rel) Hpad plain_app) as [Hall Hfilter].
  rewrite normalizeString_of_split by (rewrite Hsplit; exact Hall).
  rewrite Hsplit, Hfilter.
  assert (Hne : String.concat "/" (ps ++ rel) <> "").
  { apply concat_plain_nonempty; [exact plain_app|].
    destruct ps; [exact Hrel_ne | discriminate]. }
  destruct (String.eqb_spec (String.concat "/" (ps ++ rel)) ""); [contradiction|].
  rewrite app_empty_r. reflexivity.
Qed.

End ComponentPaths.

Section TwoLevelsUp.
Import JsString Path.
Variable cwd : string.
Variable segs : list string.
Variables ns nm : string.
Hypothesis Hsegs : Forall (fun s => plainSegment s = true) segs.
Hypothesis Hns : plainSegment ns = true.
Hypothesis Hnm : plainSegment nm = true.

Lemma plain_with_component : Forall (fun s => plainSegment s = true) (segs ++ [ns; nm]).
Proof. apply Forall_app. split; [exact Hsegs | repeat constructor; assumption]. Qed.

(** Two levels up from a component: the path without its last two
    segments, with a closing separator. *)
Lemma join_two_levels_up :
  join [absPath (segs ++ [ns; nm]); "../../"]
  = match segs with [] => "/" | _ => absPath segs +:+ "/" end.
Proof.
  rewrite join_two by discriminate.
  unfold normalize.
  change (String.eqb (absPath (segs ++ [ns; nm]) +:+ "/" +:+ "../../") "") with false.
  change (isAbsolute (absPath (segs ++ [ns; nm]) +:+ "/" +:+ "../../")) with true.
  cbn iota.
  replace (endsWith (absPath (segs ++ [ns; nm]) +:+ "/" +:+ "../../") "/") with true
    by (symmetry;
        replace (absPath (segs ++ [ns; nm]) +:+ "/" +:+ "../../")
          with ((absPath (segs ++ [ns; nm]) +:+ "/" +:+ "../..") +:+ "/")
          by (rewrite !app_assoc; reflexivity);
        apply endsWith_app).
  assert (Hnorm : normalizeString (absPath (segs ++ [ns; nm]) +:+ "/" +:+ "../../") (negb true)
                  = String.concat "/" segs).
  { unfold normalizeString.
    change (absPath (segs ++ [ns; nm]) +:+ "/" +:+ "../../")
      with (absPath (segs ++ [ns; nm]) +:+ String "/" "../../").
    rewrite split_app_sep.
    destruct (split_absPath _ plain_with_component) as (pad & -> & Hpad).
    destruct (pad_or_names pad _ Hpad plain_with_component) as [Hall Hfilter].
    rewrite normalizeSegments_names by exact Hall.
    rewrite Hfilter, List.app_nil_r, rev_app_distr.
    destruct (real_segment ns (proj1 (plain_parts ns Hns))) as [_ Hns'].
    destruct (real_segment nm (proj1 (plain_parts nm Hnm))) as [_ Hnm'].
    change (split "/" "../../") with [".."; ".."; ""].
    cbn [rev List.app normalizeSegments].
    change (String.eqb ".." "" || String.eqb ".." ".") with false.
    change (String.eqb ".." "..") with true.
    change (String.eqb "" "" || String.eqb "" ".") with true.
    cbn iota. rewrite Hnm', Hns'. rewrite rev_involutive. reflexivity. }
  rewrite Hnorm. destruct segs as [|x more]; [reflexivity|].
  assert (Hne : String.concat "/" (x :: more) <> "")
    by (apply concat_plain_nonempty; [exact Hsegs | discriminate]).
  destruct (String.eqb_spec (String.concat "/" (x :: more)) ""); [contradiction|].
  reflexivity.
Qed.

Lemma resolve_two_levels_up :
  resolve cwd [join [absPath (segs ++ [ns; nm]); "../../"]] = absPath segs.
Proof.
  rewrite join_two_levels_up. destruct segs as [|x more] eqn:Hshape.
  - reflexivity.
  - rewrite <- Hshape. apply resolve_absPath. rewrite Hshape. exact Hsegs.
Qed.

Lemma component_name_slashes :
  occurs "\" (ns +:+ "/" +:+ nm) = false
  /\ replaceAll "/" "-" (ns +:+ "/" +:+ nm) = ns +:+ "-" +:+ nm.
Proof.
  destruct (plain_parts ns Hns) as (_ & Hns_slash & Hns_back).
  destruct (plain_parts nm Hnm) as (_ & Hnm_slash & Hnm_back).
  split.
  - rewrite !occurs_app, Hns_back, Hnm_back. reflexivity.
  - rewrite !replaceAll_app, (replaceAll_absent "/" _ ns Hns_slash),
      (replaceAll_absent "/" _ nm Hnm_slash). reflexivity.
Qed.

(** The root component, when the component has a directory above its
    namespace directory. *)
Lemma rootComp_of_segments :
  segs <> [] ->
  replaceAll "\" "/" (replace (absPath segs +:+ "/") "" (absPath (segs ++ [ns; nm])))
  = ns +:+ "/" +:+ nm.
Proof.
  intros Hne.
  assert (Hfull : absPath (segs ++ [ns; nm]) = (absPath segs +:+ "/") +:+ ns +:+ "/" +:+ nm).
  { unfold absPath. rewrite concat_app by (assumption || discriminate).
    cbn [String.concat]. rewrite !app_assoc. reflexivity. }
  rewrite Hfull, replace_prefix.
  apply replaceAll_absent, component_name_slashes.
Qed.

End TwoLevelsUp.

Section RootLevelComponent.
Import JsString Path.

Lemma replace_skips_plain (pat rep s : string) : forall t,
  occurs "/" s = false ->
  replace (String "/" pat) rep (s +:+ t) = s +:+ replace (String "/" pat) rep t.
Proof.
  induction s as [|c s IH]; intros t Habs; [reflexivity|].
  cbn [occurs] in Habs. apply orb_false_elim in Habs as [Hc Hs].
  change (String c s +:+ t) with (String c (s +:+ t)).
  rewrite replace_unfold. cbn [startsWith].
  rewrite Ascii.eqb_sym, Hc. cbn [andb]. rewrite IH by exact Hs. reflexivity.
Qed.

(** With the file-system root two levels up, the pattern to cut off is
    a double slash, which a path of names does not hold. *)
Lemma replace_double_slash (ns nm : string) :
  plainSegment ns = true -> plainSegment nm = true ->
  replace "//" "" ("/" +:+ ns +:+ "/" +:+ nm) = "/" +:+ ns +:+ "/" +:+ nm.
Proof.
  intros Hns Hnm.
  destruct (plain_parts ns Hns) as (_ & Hns_slash & _).
  destruct (plain_parts nm Hnm) as (_ & Hnm_slash & _).
  assert (Hhead : forall s t, s <> "" -> occurs "/" s = false ->
            replace "//" "" (String "/" (s +:+ t)) = String "/" (s +:+ replace "//" "" t)).
  { intros s t Hne Habs. rewrite replace_unfold.
    destruct s as [|c s]; [contradiction|].
    cbn [occurs] in Habs. apply orb_false_elim in Habs as [Hc Hs].
    change (String c s +:+ t) with (String c (s +:+ t)).
    cbn [startsWith]. rewrite Ascii.eqb_refl, (Ascii.eqb_sym "/" c), Hc. cbn [andb].
    f_equal. apply (replace_skips_plain "/" "" (String c s) t).
    cbn [occurs]. rewrite Hc, Hs. reflexivity. }
  assert (Hlast : replace "//" "" (String "/" nm) = String "/" nm).
  { pose proof (Hhead nm "" (plain_nonempty nm Hnm) Hnm_slash) as Hstep.
    change (replace "//" "" "") with "" in Hstep.
    rewrite app_empty_r in Hstep. exact Hstep. }
  change ("/" +:+ ns +:+ "/" +:+ nm) with (String "/" (ns +:+ String "/" nm)).
  rewrite Hhead by (apply plain_nonempty, Hns || exact Hns_slash).
  rewrite Hlast. reflexivity.
Qed.

End RootLevelComponent.

Section MergedHeads.
Import LwrServerUtils.

(** The computed entries head the three lists, whatever was loaded. *)
Lemma merged_heads (h : Host) (fuel : nat) (componentName projectDir : string)
    (cfg : LwrGlobalConfig) :
  getMergedLwrConfig h fuel componentName projectDir = Some cfg ->
  exists modules providers routes,
    declaredModules cfg = Some (lwcModuleRecord h componentName projectDir :: modules)
    /\ cfg_moduleProviders cfg = Some (getModifiedModuleProviders h ++ providers)
    /\ cfg_routes cfg = Some (defaultLwrRoute h componentName projectDir :: routes).
Proof.
  intros Hcfg. unfold getMergedLwrConfig in Hcfg.
  destruct (if notNum _ then _ else _) as [c1|]; cbn [mbind option_bind] in Hcfg;
    [|discriminate].
  injection Hcfg as <-.
  destruct (if notStr (cfg_rootDir c1) then _ else c1)
    as [mode port root cache [[[ms|]]|] [ps|] [rs|]]; cbn;
    eexists; eexists; eexists; (split; [reflexivity|]); split;
    first [reflexivity | rewrite app_nil_r; reflexivity].
Qed.

End MergedHeads.

Section ComponentReference.
Variable h : Host.
Variables ps cs : list string.
Variables ns nm : string.
Hypothesis Hps : Forall (fun s => plainSegment s = true) ps.
Hypothesis Hcs : Forall (fun s => plainSegment s = true) cs.
Hypothesis Hns : plainSegment ns = true.
Hypothesis Hnm : plainSegment nm = true.

Lemma reference_full_path :
  LwrServerUtils.componentFullPath h (String.concat "/" (cs ++ [ns; nm])) (absPath ps)
  = absPath ((ps ++ cs) ++ [ns; nm]).
Proof.
  unfold LwrServerUtils.componentFullPath.
  assert (Hrel : Forall (fun s => plainSegment s = true) (cs ++ [ns; nm]))
    by (apply plain_with_component; assumption).
  rewrite join_absPath by (assumption || (destruct cs; discriminate)).
  rewrite List.app_assoc.
  apply resolve_absPath, plain_with_component; try assumption.
  apply Forall_app. split; assumption.
Qed.

Lemma reference_two_level_up :
  LwrServerUtils.twoLevelUp h (String.concat "/" (cs ++ [ns; nm])) (absPath ps) = absPath (ps ++ cs).
Proof.
  unfold LwrServerUtils.twoLevelUp. rewrite reference_full_path.
  apply resolve_two_levels_up; try assumption.
  apply Forall_app. split; assumption.
Qed.

Lemma reference_root_directory :
  LwrServerUtils.rootDirectory h (absPath ps) = absPath ps.
Proof. apply resolve_absPath, Hps. Qed.

Lemma reference_root_comp :
  ps ++ cs <> [] ->
  LwrServerUtils.rootComp h (String.concat "/" (cs ++ [ns; nm])) (absPath ps) = ns +:+ "/" +:+ nm.
Proof.
  intros Hne. unfold LwrServerUtils.rootComp.
  rewrite reference_two_level_up, reference_full_path.
  apply rootComp_of_segments; assumption.
Qed.

Lemma reference_root_comp_at_root :
  ps ++ cs = [] ->
  LwrServerUtils.rootComp h (String.concat "/" (cs ++ [ns; nm])) (absPath ps) = "/" +:+ ns +:+ "/" +:+ nm.
Proof.
  intros Hroot. unfold LwrServerUtils.rootComp.
  rewrite reference_two_level_up, reference_full_path, Hroot.
  change (absPath [] +:+ Path.sep) with "//".
  change (absPath ([] ++ [ns; nm])) with ("/" +:+ ns +:+ "/" +:+ nm).
  rewrite replace_double_slash by assumption.
  apply replaceAll_absent.
  change ("/" +:+ ns +:+ "/" +:+ nm) with (String "/" (ns +:+ "/" +:+ nm)).
  cbn [JsString.occurs]. change (Ascii.eqb "/" "\") with false.
  apply (component_name_slashes ns nm Hns Hnm).
Qed.

End ComponentReference.

(** X6: for a project directory and a component reference made of
    names, with at least one directory above the last two segments of
    the component, the first module directory of the merged
    configuration is the path two segments above the component, and its
    first route leads from [/] to the root component named by those
    last two segments, under an id that joins them with a dash and ends
    in the time stamp. *)
Theorem X6_defaults_follow_the_component_path
    (h : Host) (fuel : nat) (ps cs : list string) (ns nm : string) (cfg : LwrGlobalConfig) :
  Forall (fun s => plainSegment s = true) ps ->
  Forall (fun s => plainSegment s = true) cs ->
  plainSegment ns = true ->
  plainSegment nm = true ->
  ps ++ cs <> [] ->
  LwrServerUtils.getMergedLwrConfig h fuel
    (String.concat "/" (cs ++ [ns; nm])) (absPath ps) = Some cfg ->
  exists modules routes,
    declaredModules cfg = Some (DirModuleRecord (absPath (ps ++ cs)) :: modules)
    /\ cfg_routes cfg
       = Some ({| route_id := ns +:+ "-" +:+ nm +:+ "-" +:+ JsString.ofZ (now h);
                  route_path := "/";
                  route_rootComponent := ns +:+ "/" +:+ nm |} :: routes).
Proof.
  intros Hps Hcs Hns Hnm Hne Hcfg.
  destruct (merged_heads h fuel _ _ cfg Hcfg) as (modules & _ & routes & Hmods & _ & Hroutes).
  exists modules, routes. split.
  - rewrite Hmods. unfold LwrServerUtils.lwcModuleRecord.
    rewrite reference_two_level_up by assumption. reflexivity.
  - rewrite Hroutes. unfold LwrServerUtils.defaultLwrRoute.
    rewrite reference_root_comp by assumption.
    rewrite (proj2 (component_name_slashes ns nm Hns Hnm)), !app_assoc. reflexivity.
Qed.

Lemma X6_witness_sample_project :
  exists cfg modules routes,
    LwrServerUtils.getMergedLwrConfig hostWithSampleConfig 1
      "force-app/main/default/lwc/helloWorld" "/LWC-Mobile-Samples/HelloWorld" = Some cfg
    /\ declaredModules cfg
       = Some (DirModuleRecord "/LWC-Mobile-Samples/HelloWorld/force-app/main/default"
               :: modules)
    /\ cfg_routes cfg
       = Some ({| route_id := "lwc-helloWorld-1700000000000";
                  route_path := "/";
                  route_rootComponent := "lwc/helloWorld" |} :: routes).
Proof.
  eexists.
  destruct (X6_defaults_follow_the_component_path hostWithSampleConfig 1
              ["LWC-Mobile-Samples"; "HelloWorld"] ["force-app"; "main"; "default"]
              "lwc" "helloWorld" _
              ltac:(repeat constructor) ltac:(repeat constructor) eq_refl eq_refl
              ltac:(discriminate) eq_refl)
    as (modules & routes & Hmods & Hroutes).
  exists modules, routes. split; [reflexivity|]. split; [exact Hmods | exact Hroutes].
Defined.

(** X7: for a component that sits two levels below the root of the file
    system, the prefix to cut off is a double slash, which does not
    occur: the root component of the first route keeps its leading
    slash and the id of the route starts with a dash. *)
Theorem X7_root_level_component_keeps_its_slash
    (h : Host) (fuel : nat) (ns nm : string) (cfg : LwrGlobalConfig) :
  plainSegment ns = true ->
  plainSegment nm = true ->
  LwrServerUtils.getMergedLwrConfig h fuel (ns +:+ "/" +:+ nm) "/" = Some cfg ->
  exists modules routes,
    declaredModules cfg = Some (DirModuleRecord "/" :: modules)
    /\ cfg_routes cfg
       = Some ({| route_id := "-" +:+ ns +:+ "-" +:+ nm +:+ "-" +:+ JsString.ofZ (now h);
                  route_path := "/";
                  route_rootComponent := "/" +:+ ns +:+ "/" +:+ nm |} :: routes).
Proof.
  intros Hns Hnm Hcfg.
  destruct (merged_heads h fuel (String.concat "/" ([] ++ [ns; nm])) (absPath []) cfg Hcfg)
    as (modules & _ & routes & Hmods & _ & Hroutes).
  exists modules, routes. split.
  - rewrite Hmods. unfold LwrServerUtils.lwcModuleRecord.
    rewrite (reference_two_level_up h [] [] ns nm) by (assumption || constructor).
    reflexivity.
  - rewrite Hroutes. unfold LwrServerUtils.defaultLwrRoute.
    rewrite (reference_root_comp_at_root h [] [] ns nm) by (assumption || constructor || reflexivity).
    rewrite (replaceAll_app "/" "-" "/" (ns +:+ "/" +:+ nm)).
    change (JsString.replaceAll "/" "-" "/") with "-".
    rewrite (proj2 (component_name_slashes ns nm Hns Hnm)), !app_assoc. reflexivity.
Qed.

Lemma X7_witness_component_under_root :
  exists cfg modules routes,
    LwrServerUtils.getMergedLwrConfig bareHost 1 "lwc/helloWorld" "/" = Some cfg
    /\ declaredModules cfg = Some (DirModuleRecord "/" :: modules)
    /\ cfg_routes cfg
       = Some ({| route_id := "-lwc-helloWorld-1700000000000";
                  route_path := "/";
                  route_rootComponent := "/lwc/helloWorld" |} :: routes).
Proof.
  eexists.
  destruct (X7_root_level_component_keeps_its_slash bareHost 1 "lwc" "helloWorld" _
              eq_refl eq_refl eq_refl)
    as (modules & routes & Hmods & Hroutes).
  exists modules, routes. split; [reflexivity|]. split; [exact Hmods | exact Hroutes].
Defined.

(** X8: the revision that passes its results through the environment
    assigns, for a project directory and a component reference made of
    names: the project directory to ROOT_DIR, the path two segments
    above the component to MODULES_DIR, the first free port to
    SERVER_PORT and the idle timeout to SERVER_IDLE_TIMEOUT_MINUTES,
    with MODE [dev]; it then settles like [doStartLwrApp] on that
    environment.  ROOT_COMPONENT is the last two segments of the
    component joined by a dash when there is a directory above them,
    and the same after a leading dash when they sit directly under the
    root of the file system. *)
Theorem X8_environment_of_the_server
    (h : Host) (fuel : nat) (doStartLwrApp : LwrServerUtilsEnv.PreviewEnv -> Completion string)
    (ps cs : list string) (ns nm : string) (serverIdleTimeoutMinutes : float) (port : Z) :
  Forall (fun s => plainSegment s = true) ps ->
  Forall (fun s => plainSegment s = true) cs ->
  plainSegment ns = true ->
  plainSegment nm = true ->
  LwrServerUtils.getNextAvailablePort h fuel = Some port ->
  exists env debugged,
    LwrServerUtilsEnv.startLwrServer h fuel doStartLwrApp
      (String.concat "/" (cs ++ [ns; nm])) (absPath ps) serverIdleTimeoutMinutes
    = Some (env, debugged, doStartLwrApp env)
    /\ LwrServerUtilsEnv.ROOT_DIR env = absPath ps
    /\ LwrServerUtilsEnv.MODULES_DIR env = absPath (ps ++ cs)
    /\ LwrServerUtilsEnv.ROOT_COMPONENT env
       = match ps ++ cs with
         | [] => "-" +:+ ns +:+ "-" +:+ nm
         | _ :: _ => ns +:+ "-" +:+ nm
         end
    /\ LwrServerUtilsEnv.MODE env = "dev"
    /\ LwrServerUtilsEnv.SERVER_PORT env = JsString.ofZ port
    /\ LwrServerUtilsEnv.SERVER_IDLE_TIMEOUT_MINUTES env
       = JsNumber.toString serverIdleTimeoutMinutes.
Proof.
  intros Hps Hcs Hns Hnm Hport.
  unfold LwrServerUtilsEnv.startLwrServer. rewrite Hport. cbn [mbind option_bind].
  eexists _, _. split; [reflexivity|].
  cbn [LwrServerUtilsEnv.ROOT_DIR LwrServerUtilsEnv.MODULES_DIR
       LwrServerUtilsEnv.ROOT_COMPONENT LwrServerUtilsEnv.MODE
       LwrServerUtilsEnv.SERVER_PORT LwrServerUtilsEnv.SERVER_IDLE_TIMEOUT_MINUTES].
  split; [apply (reference_root_directory h ps Hps)|].
  split; [apply (reference_two_level_up h ps cs ns nm); assumption|].
  split; [|repeat split].
  destruct (ps ++ cs) as [|seg segs] eqn:Habove.
  - pose proof (reference_root_comp_at_root h ps cs ns nm Hps Hcs Hns Hnm Habove) as Hroot.
    unfold LwrServerUtils.rootComp, LwrServerUtils.twoLevelUp,
      LwrServerUtils.componentFullPath in Hroot.
    rewrite Hroot.
    rewrite (replaceAll_app "/" "-" "/" (ns +:+ "/" +:+ nm)).
    change (JsString.replaceAll "/" "-" "/") with "-".
    rewrite (proj2 (component_name_slashes ns nm Hns Hnm)). reflexivity.
  - assert (Hne : ps ++ cs <> []) by (rewrite Habove; discriminate).
    pose proof (reference_root_comp h ps cs ns nm Hps Hcs Hns Hnm Hne) as Hroot.
    unfold LwrServerUtils.rootComp, LwrServerUtils.twoLevelUp,
      LwrServerUtils.componentFullPath in Hroot.
    rewrite Hroot. apply (component_name_slashes ns nm Hns Hnm).
Qed.

Lemma X8_witness_sample_project :
  exists env debugged,
    LwrServerUtilsEnv.startLwrServer bareHost 1 (fun env => Normal (LwrServerUtilsEnv.SERVER_PORT env))
      "force-app/main/default/lwc/helloWorld" "/LWC-Mobile-Samples/HelloWorld"
      LwrServerUtilsEnv.DEFAULT_SERVER_IDLE_TIMEOUT_MINUTES
    = Some (env, debugged, Normal "3000")
    /\ LwrServerUtilsEnv.ROOT_DIR env = "/LWC-Mobile-Samples/HelloWorld"
    /\ LwrServerUtilsEnv.MODULES_DIR env = "/LWC-Mobile-Samples/HelloWorld/force-app/main/default"
    /\ LwrServerUtilsEnv.ROOT_COMPONENT env = "lwc-helloWorld"
    /\ LwrServerUtilsEnv.MODE env = "dev"
    /\ LwrServerUtilsEnv.SERVER_IDLE_TIMEOUT_MINUTES env = "15".
Proof.
  destruct (X8_environment_of_the_server bareHost 1
              (fun env => Normal (LwrServerUtilsEnv.SERVER_PORT env))
              ["LWC-Mobile-Samples"; "HelloWorld"] ["force-app"; "main"; "default"]
              "lwc" "helloWorld" LwrServerUtilsEnv.DEFAULT_SERVER_IDLE_TIMEOUT_MINUTES 3000
              ltac:(repeat constructor) ltac:(repeat constructor) eq_refl eq_refl
              eq_refl)
    as (env & debugged & Hrun & Hroot & Hmods & Hcomp & Hmode & Hport & Hidle).
  exists env, debugged. split; [|repeat split; assumption].
  etransitivity; [exact Hrun|]. cbv beta.
  rewrite Hport. reflexivity.
Defined.

(** ** The idle timer over any course of events *)

Section TimerInvariant.
Import LwrServerUtils.
Variable h : Host.
Variable timeoutMinutes : float.

Lemma timer_invariant_step (p : Process) (e : Event) :
  match exited p with
  | None => exists handle deadline, pending p = [(handle, deadline)] /\ timer p = Some handle
  | Some code =>
      pending p = [] /\ code = match lwrapp_close h with Normal _ => 0 | Throw _ => 1 end
  end ->
  match exited (step h timeoutMinutes p e) with
  | None =>
      exists handle deadline,
        pending (step h timeoutMinutes p e) = [(handle, deadline)]
        /\ timer (step h timeoutMinutes p e) = Some handle
  | Some code =>
      pending (step h timeoutMinutes p e) = []
      /\ code = match lwrapp_close h with Normal _ => 0 | Throw _ => 1 end
  end.
Proof.
  intros Hinv. destruct e as [|d]; cbn [step].
  - destruct (exited p) as [code|] eqn:Hlive.
    + rewrite Hlive. exact Hinv.
    + destruct Hinv as (handle & deadline & Hpending & Htimer).
      unfold onRequest. rewrite Htimer. cbn. rewrite Hlive, Hpending.
      rewrite filter_cons, decide_False by (cbn; intros Hne; apply Hne; reflexivity).
      eexists _, _. split; reflexivity.
  - unfold elapse. destruct (exited p) as [code|] eqn:Hlive.
    + rewrite Hlive. exact Hinv.
    + destruct Hinv as (handle & deadline & Hpending & Htimer).
      rewrite Hpending. cbn [earliest snd].
      destruct (deadline <=? clock p + d).
      * rewrite shutdown_exit_code. split; [|reflexivity].
        unfold onShutDownTimer.
        destruct (lwrapp_close h) as [[]|err]; cbn; rewrite Hpending;
          rewrite filter_cons, decide_False by (cbn; intros Hne; apply Hne; reflexivity);
          reflexivity.
      * cbn. rewrite Hlive. eexists _, _. split; eassumption.
Qed.

Lemma timer_invariant_run (events : list Event) : forall p,
  match exited p with
  | None => exists handle deadline, pending p = [(handle, deadline)] /\ timer p = Some handle
  | Some code =>
      pending p = [] /\ code = match lwrapp_close h with Normal _ => 0 | Throw _ => 1 end
  end ->
  match exited (run h timeoutMinutes events p) with
  | None =>
      exists handle deadline,
        pending (run h timeoutMinutes events p) = [(handle, deadline)]
        /\ timer (run h timeoutMinutes events p) = Some handle
  | Some code =>
      pending (run h timeoutMinutes events p) = []
      /\ code = match lwrapp_close h with Normal _ => 0 | Throw _ => 1 end
  end.
Proof.
  induction events as [|e events IH]; intros p Hinv; [exact Hinv|].
  apply (IH (step h timeoutMinutes p e)), timer_invariant_step, Hinv.
Qed.

End TimerInvariant.

(** X9: whatever requests and silences follow the start of the server,
    a process that is still running has exactly one timer armed, the
    one that [timer] names, so that requests never pile up timers; a
    process that has exited has none left, and its exit status is 0 when
    the close of the server succeeded and 1 when it threw. *)
Theorem X9_at_most_one_timer_is_armed
    (h : Host) (timeoutMinutes : float) (port : Z) (serverMode : string)
    (events : list LwrServerUtils.Event) :
  let p := LwrServerUtils.run h timeoutMinutes events
             (LwrServerUtils.onListening port serverMode timeoutMinutes LwrServerUtils.boot) in
  match LwrServerUtils.exited p with
  | None =>
      exists handle deadline,
        LwrServerUtils.pending p = [(handle, deadline)]
        /\ LwrServerUtils.timer p = Some handle
  | Some code =>
      LwrServerUtils.pending p = []
      /\ code = match lwrapp_close h with Normal _ => 0 | Throw _ => 1 end
  end.
Proof.
  intros p. apply timer_invariant_run.
  cbn. eexists _, _. split; reflexivity.
Qed.

(** ** The resolver of components, further cases *)

Section ResolverCases.
Import CustomLwcModuleProvider.
Variable h : Host.
Variable moduleMap : gmap string string.
Variable moduleId : ModuleId.

Lemma fragment_parts (name file : string) :
  JsString.occurs "#" name = false ->
  JsString.occurs "#" file = false ->
  JsString.split "#" ("c/" +:+ name +:+ "#" +:+ file) = ["c/" +:+ name; file].
Proof.
  intros Hname Hfile.
  change ("c/" +:+ name +:+ "#" +:+ file) with (("c/" +:+ name) +:+ String "#" file).
  rewrite split_app_sep, (split_absent "#" ("c/" +:+ name)) by exact Hname.
  rewrite (split_absent "#" file Hfile). reflexivity.
Qed.

Lemma specifier_in_namespace (rest : string) :
  JsString.startsWith ("c/" +:+ rest) nestedModulesNamespace = true.
Proof. reflexivity. Qed.

Lemma name_of_specifier (rest : string) :
  JsString.replace nestedModulesNamespace "" ("c/" +:+ rest) = rest.
Proof. reflexivity. Qed.

Lemma getModuleEntry_fragment (name file dir : string) :
  specifier moduleId = "c/" +:+ name +:+ "#" +:+ file ->
  JsString.occurs "#" name = false ->
  JsString.occurs "#" file = false ->
  file <> "" ->
  moduleMap !! name = Some dir ->
  dir <> "" ->
  getModuleEntry h moduleMap moduleId
  = Normal (Some (makeEntry (specifier moduleId) (Path.join [dir; file]))).
Proof.
  intros Hspec Hname Hfile Hne Hdir Hdne.
  unfold getModuleEntry, withImporter. cbn [specifier]. rewrite Hspec.
  rewrite specifier_in_namespace. cbn iota.
  rewrite (fragment_parts name file Hname Hfile).
  cbn [List.nth length Nat.ltb Nat.leb lookup list_lookup].
  rewrite (name_of_specifier name), Hdir, (truthy_nonempty dir Hdne).
  cbn [orElse]. rewrite (truthy_nonempty file Hne). cbn [negb andb].
  rewrite (truthy_nonempty _ (join_nonempty _)). reflexivity.
Qed.

Lemma getModuleEntry_rev1_fragment (name file dir : string) :
  specifier moduleId = "c/" +:+ name +:+ "#" +:+ file ->
  JsString.occurs "#" name = false ->
  JsString.occurs "#" file = false ->
  file <> "" ->
  moduleMap !! name = Some dir ->
  dir <> "" ->
  getModuleEntry_rev1 h moduleMap moduleId
  = Normal (Some (makeEntry (specifier moduleId) (Path.join [dir; file]))).
Proof.
  intros Hspec Hname Hfile Hne Hdir Hdne.
  unfold getModuleEntry_rev1, withImporter. cbn [specifier]. rewrite Hspec.
  rewrite specifier_in_namespace. cbn iota.
  rewrite (fragment_parts name file Hname Hfile).
  cbn [List.nth lookup list_lookup].
  rewrite (name_of_specifier name), Hdir, (truthy_nonempty dir Hdne).
  cbn [orElse]. rewrite (truthy_nonempty file Hne).
  rewrite (truthy_nonempty _ (join_nonempty _)). reflexivity.
Qed.

Lemma indexFrom_nonneg (c : ascii) (s : string) : forall i found,
  0 <= i -> 0 <= found -> 0 <= JsString.indexFrom i c s found.
Proof.
  induction s as [|d s IH]; intros i found Hi Hfound; [exact Hfound|].
  cbn [JsString.indexFrom]. apply IH; [lia|].
  destruct (Ascii.eqb d c); assumption.
Qed.

Lemma indexFrom_occurs (c : ascii) (s : string) : forall i found,
  JsString.occurs c s = true -> 0 <= i -> 0 <= JsString.indexFrom i c s found.
Proof.
  induction s as [|d s IH]; intros i found Hocc Hi; [discriminate|].
  cbn [JsString.occurs] in Hocc. cbn [JsString.indexFrom].
  destruct (Ascii.eqb d c).
  - apply indexFrom_nonneg; lia.
  - apply IH; [exact Hocc | lia].
Qed.

(** A name with a dot is taken to carry its extension: the directory is
    not looked at. *)
Lemma getModuleEntry_dotted (name dir : string) :
  specifier moduleId = "c/" +:+ name ->
  JsString.occurs "#" name = false ->
  JsString.occurs "." name = true ->
  moduleMap !! name = Some dir ->
  dir <> "" ->
  getModuleEntry h moduleMap moduleId
  = Normal (Some (makeEntry ("c/" +:+ name) (Path.join [dir; name]))).
Proof.
  intros Hspec Hhash Hdot Hdir Hne.
  unfold getModuleEntry, withImporter. cbn [specifier]. rewrite Hspec.
  rewrite specifier_in_namespace. cbn iota.
  rewrite (split_absent "#" ("c/" +:+ name)) by exact Hhash.
  cbn [List.nth length Nat.ltb Nat.leb].
  rewrite (name_of_specifier name), Hdir, (truthy_nonempty dir Hne).
  assert (Hlast : (JsString.lastIndexOf "." name =? -1) = false).
  { apply Z.eqb_neq. unfold JsString.lastIndexOf.
    pose proof (indexFrom_occurs "." name 0 (-1) Hdot ltac:(lia)). lia. }
  rewrite Hlast, andb_false_r. cbn [orElse].
  rewrite (truthy_nonempty _ (join_nonempty _)). reflexivity.
Qed.

Lemma unknown_is_inherited :
  JsString.startsWith (specifier moduleId) nestedModulesNamespace = false
  \/ moduleMap !! JsString.replace nestedModulesNamespace ""
                    (List.nth 0 (JsString.split "#" (specifier moduleId)) "") = None ->
  getModuleEntry h moduleMap moduleId = super_getModuleEntry h (withImporter h moduleId)
  /\ getModuleEntry_rev1 h moduleMap moduleId = super_getModuleEntry h (withImporter h moduleId).
Proof.
  intros Hcase. unfold getModuleEntry, getModuleEntry_rev1.
  change (specifier (withImporter h moduleId)) with (specifier moduleId).
  destruct (JsString.startsWith (specifier moduleId) nestedModulesNamespace);
    [|split; reflexivity].
  destruct Hcase as [Hout|Hnone]; [discriminate|].
  rewrite Hnone. split; reflexivity.
Qed.

End ResolverCases.

(** X10: a reference [c/name#file] to a known component, where the
    fragment [file] is not empty, resolves to the path of [file] in the
    directory of the component, in the probing resolver and in the
    earlier one alike; what the file system holds plays no part. *)
Theorem X10_fragment_is_resolved_in_the_component_directory
    (h : Host) (moduleMap : gmap string string) (moduleId : ModuleId) (name file dir : string) :
  specifier moduleId = "c/" +:+ name +:+ "#" +:+ file ->
  JsString.occurs "#" name = false ->
  JsString.occurs "#" file = false ->
  file <> "" ->
  moduleMap !! name = Some dir ->
  dir <> "" ->
  forall present : string -> bool,
    let h' := withFiles (readFileSync h) present (fastGlob_sync h) h in
    CustomLwcModuleProvider.getModuleEntry h' moduleMap moduleId
    = Normal (Some (CustomLwcModuleProvider.makeEntry
                      ("c/" +:+ name +:+ "#" +:+ file) (Path.join [dir; file])))
    /\ CustomLwcModuleProvider.getModuleEntry_rev1 h' moduleMap moduleId
       = Normal (Some (CustomLwcModuleProvider.makeEntry
                         ("c/" +:+ name +:+ "#" +:+ file) (Path.join [dir; file]))).
Proof.
  intros Hspec Hname Hfile Hne Hdir Hdne present h'. rewrite <- Hspec. split.
  - apply (getModuleEntry_fragment h' moduleMap moduleId name file dir); assumption.
  - apply (getModuleEntry_rev1_fragment h' moduleMap moduleId name file dir); assumption.
Qed.

Lemma X10_witness_foo_template :
  CustomLwcModuleProvider.getModuleEntry hostWithFooScript fooMap
    {| specifier := "c/foo#foo.html"; namespace := None; name := None; importer := None |}
  = Normal (Some {| entry_id := "c/foo#foo.html|1"; entry_virtual := false;
                    entry_path := "/proj/force-app/main/default/lwc/foo/foo.html";
                    entry_specifier := "c/foo#foo.html"; entry_version := "1" |}).
Proof.
  exact (proj1 (X10_fragment_is_resolved_in_the_component_directory bareHost fooMap
                  {| specifier := "c/foo#foo.html"; namespace := None; name := None;
                     importer := None |}
                  "foo" "foo.html" "/proj/force-app/main/default/lwc/foo"
                  eq_refl eq_refl eq_refl ltac:(discriminate) eq_refl ltac:(discriminate)
                  (existsSync hostWithFooScript))).
Defined.

(** X11: the probing resolver against the earlier one, for a reference
    [c/name] without fragment to a component of the map.  When [name]
    has no dot and the script [name.js] is in the directory of the
    component, the probing resolver answers as the earlier resolver
    did.  When [name] has a dot the two differ: the probing resolver
    takes the name to carry its extension and answers with the path of
    [name], whatever the directory holds, where the earlier one answers
    with the path of [name.js].  Both hand a reference over to the
    inherited resolver, with the plug-in as importer, when it is
    outside the namespace [c/] or names a component that the map does
    not have. *)
Theorem X11_probing_resolver_extends_the_earlier_one
    (h : Host) (moduleMap : gmap string string) (moduleId : ModuleId) :
  (forall name dir,
     specifier moduleId = "c/" +:+ name ->
     JsString.occurs "#" name = false ->
     JsString.occurs "." name = false ->
     moduleMap !! name = Some dir ->
     dir <> "" ->
     existsSync h (Path.join [dir; name] +:+ ".js") = true ->
     CustomLwcModuleProvider.getModuleEntry h moduleMap moduleId
     = CustomLwcModuleProvider.getModuleEntry_rev1 h moduleMap moduleId)
  /\ (forall name dir,
        specifier moduleId = "c/" +:+ name ->
        JsString.occurs "#" name = false ->
        JsString.occurs "." name = true ->
        moduleMap !! name = Some dir ->
        dir <> "" ->
        CustomLwcModuleProvider.getModuleEntry h moduleMap moduleId
        = Normal (Some (CustomLwcModuleProvider.makeEntry ("c/" +:+ name)
                          (Path.join [dir; name])))
        /\ CustomLwcModuleProvider.getModuleEntry_rev1 h moduleMap moduleId
           = Normal (Some (CustomLwcModuleProvider.makeEntry ("c/" +:+ name)
                             (Path.join [dir; name +:+ ".js"]))))
  /\ (JsString.startsWith (specifier moduleId) "c/" = false
      \/ moduleMap !! JsString.replace "c/" ""
                        (List.nth 0 (JsString.split "#" (specifier moduleId)) "") = None ->
      CustomLwcModuleProvider.getModuleEntry h moduleMap moduleId
      = super_getModuleEntry h (CustomLwcModuleProvider.withImporter h moduleId)
      /\ CustomLwcModuleProvider.getModuleEntry_rev1 h moduleMap moduleId
         = super_getModuleEntry h (CustomLwcModuleProvider.withImporter h moduleId)).
Proof.
  split; [|split].
  - intros name dir Hspec Hhash Hdot Hdir Hdne Hscript.
    rewrite (getModuleEntry_plain h moduleMap moduleId name dir Hspec Hhash Hdot Hdir Hdne).
    rewrite (getModuleEntry_rev1_plain h moduleMap moduleId name dir Hspec Hhash Hdir Hdne).
    rewrite Hscript. reflexivity.
  - intros name dir Hspec Hhash Hdot Hdir Hdne. split.
    + apply (getModuleEntry_dotted h moduleMap moduleId name dir); assumption.
    + apply (getModuleEntry_rev1_plain h moduleMap moduleId name dir); assumption.
  - apply unknown_is_inherited.
Qed.

Lemma X11_witness_foo_and_a_stranger :
  CustomLwcModuleProvider.getModuleEntry hostWithFooScript fooMap fooId
  = CustomLwcModuleProvider.getModuleEntry_rev1 hostWithFooScript fooMap fooId
  /\ CustomLwcModuleProvider.getModuleEntry hostWithFooScript fooMap
       {| specifier := "c/bar"; namespace := None; name := None; importer := None |}
     = Normal None.
Proof.
  split.
  - exact (proj1 (X11_probing_resolver_extends_the_earlier_one hostWithFooScript fooMap fooId)
             "foo" "/proj/force-app/main/default/lwc/foo"
             eq_refl eq_refl eq_refl eq_refl ltac:(discriminate) eq_refl).
  - exact (proj1 (proj2 (proj2 (X11_probing_resolver_extends_the_earlier_one
                                  hostWithFooScript fooMap
                                  {| specifier := "c/bar"; namespace := None; name := None;
                                     importer := None |}))
                    (or_intror eq_refl))).
Defined.

(** ** The map of components *)

Section ComponentsMap.
Import CustomLwcModuleProvider.

Lemma addComponent_lookup (m : gmap string string) (item name dir : string) :
  addComponent m item !! name = Some dir ->
  m !! name = Some dir
  \/ (Path.parsed_name (Path.parse item) = name
      /\ Path.parsed_dir (Path.parse item) = dir
      /\ JsString.endsWith dir name = true).
Proof.
  unfold addComponent.
  destruct (JsString.endsWith _ _) eqn:Hends; [|intros Hm; left; exact Hm].
  intros Hm. apply lookup_insert_Some in Hm as [[Hname Hdir]|[_ Hm]].
  - right. subst. split; [reflexivity|]. split; [reflexivity | exact Hends].
  - left. exact Hm.
Qed.

Lemma components_sound (files : list string) : forall (m : gmap string string) name dir,
  fold_left addComponent files m !! name = Some dir ->
  m !! name = Some dir
  \/ exists item,
       In item files
       /\ Path.parsed_name (Path.parse item) = name
       /\ Path.parsed_dir (Path.parse item) = dir
       /\ JsString.endsWith dir name = true.
Proof.
  induction files as [|item files IH]; intros m name dir Hm; [left; exact Hm|].
  cbn [fold_left] in Hm. apply IH in Hm as [Hm|(other & Hin & Hrest)].
  - apply addComponent_lookup in Hm as [Hm|Hitem]; [left; exact Hm|].
    right. exists item. split; [left; reflexivity | exact Hitem].
  - right. exists other. split; [right; exact Hin | exact Hrest].
Qed.

Lemma components_kept (name dir : string) (files : list string) :
  forall m : gmap string string,
  m !! name = Some dir ->
  Forall (leavesAlone name) files ->
  fold_left addComponent files m !! name = Some dir.
Proof.
  induction files as [|item files IH]; intros m Hm Hfiles; [exact Hm|].
  inversion Hfiles as [|? ? Hitem Hrest]; subst.
  cbn [fold_left]. apply IH; [|exact Hrest].
  unfold addComponent. destruct (JsString.endsWith _ _) eqn:Hends; [|exact Hm].
  destruct Hitem as [Hother|Hno]; [|rewrite Hends in Hno; discriminate].
  apply lookup_insert_Some. right. split; assumption.
Qed.

Lemma components_bound (before after : list string) (item : string) (m : gmap string string) :
  JsString.endsWith (Path.parsed_dir (Path.parse item)) (Path.parsed_name (Path.parse item))
  = true ->
  Forall (leavesAlone (Path.parsed_name (Path.parse item))) after ->
  fold_left addComponent (before ++ item :: after) m !! Path.parsed_name (Path.parse item)
  = Some (Path.parsed_dir (Path.parse item)).
Proof.
  intros Hends Hafter. rewrite fold_left_app. cbn [fold_left].
  apply components_kept; [|exact Hafter].
  unfold addComponent. rewrite Hends.
  apply lookup_insert_Some. left. split; reflexivity.
Qed.

Lemma scan_binds (h : Host) (rootDir pattern : string) (before after : list string)
    (item : string) :
  sfdxSource h rootDir "/**/*/lwc/**/*.js" = Normal pattern ->
  fastGlob_sync h [pattern] = Normal (before ++ item :: after) ->
  JsString.endsWith (Path.parsed_dir (Path.parse item)) (Path.parsed_name (Path.parse item))
  = true ->
  Forall (leavesAlone (Path.parsed_name (Path.parse item))) after ->
  generateSfdxComponentsMap h rootDir !! Path.parsed_name (Path.parse item)
  = Some (Path.parsed_dir (Path.parse item)).
Proof.
  intros Hpattern Hglob Hends Hafter.
  unfold generateSfdxComponentsMap.
  rewrite Hpattern. cbn [bindC]. rewrite Hglob. cbn [bindC try_catch].
  apply components_bound; assumption.
Qed.

Lemma metadata_kept (name dir : string) (files : list string) :
  forall m : gmap string string,
  m !! name = Some dir ->
  Forall (leavesAloneMeta name) files ->
  fold_left addComponentMeta files m !! name = Some dir.
Proof.
  induction files as [|item files IH]; intros m Hm Hfiles; [exact Hm|].
  inversion Hfiles as [|? ? Hitem Hrest]; subst.
  cbn [fold_left]. apply IH; [|exact Hrest].
  unfold addComponentMeta. destruct (JsString.endsWith _ _) eqn:Hends; [|exact Hm].
  destruct Hitem as [Hother|Hno]; [|rewrite Hends in Hno; discriminate].
  apply lookup_insert_Some. right. split; assumption.
Qed.

Lemma scan_binds_metadata (h : Host) (rootDir pattern : string) (before after : list string)
    (item name : string) :
  sfdxSource h rootDir "/**/*/lwc/**/*.js-meta.xml" = Normal pattern ->
  fastGlob_sync h [pattern] = Normal (before ++ item :: after) ->
  JsString.replace ".js-meta" "" (Path.parsed_name (Path.parse item)) = name ->
  JsString.endsWith (Path.parsed_dir (Path.parse item)) name = true ->
  Forall (leavesAloneMeta name) after ->
  generateSfdxComponentsMap_rev2 h rootDir !! name = Some (Path.parsed_dir (Path.parse item)).
Proof.
  intros Hpattern Hglob Hname Hends Hafter.
  unfold generateSfdxComponentsMap_rev2.
  rewrite Hpattern. cbn [bindC]. rewrite Hglob. cbn [bindC try_catch].
  rewrite fold_left_app. cbn [fold_left].
  apply metadata_kept; [|exact Hafter].
  unfold addComponentMeta. rewrite Hname, Hends.
  apply lookup_insert_Some. left. split; reflexivity.
Qed.

End ComponentsMap.

(** X12: every binding of the map of components comes from a script
    that the glob of the project listed: the key is the name of the
    script without its extension, the value is the directory of the
    script, and the directory ends with the name. *)
Theorem X12_map_binds_names_to_their_directories
    (h : Host) (rootDir name dir : string) :
  CustomLwcModuleProvider.generateSfdxComponentsMap h rootDir !! name = Some dir ->
  JsString.endsWith dir name = true
  /\ exists pattern files item,
       sfdxSource h rootDir "/**/*/lwc/**/*.js" = Normal pattern
       /\ fastGlob_sync h [pattern] = Normal files
       /\ In item files
       /\ Path.parsed_name (Path.parse item) = name
       /\ Path.parsed_dir (Path.parse item) = dir.
Proof.
  unfold CustomLwcModuleProvider.generateSfdxComponentsMap.
  destruct (sfdxSource h rootDir "/**/*/lwc/**/*.js") as [pattern|e] eqn:Hpattern;
    [|cbn; intros Hm; rewrite lookup_empty in Hm; discriminate].
  cbn [bindC].
  destruct (fastGlob_sync h [pattern]) as [files|e] eqn:Hglob;
    [|cbn; intros Hm; rewrite lookup_empty in Hm; discriminate].
  cbn [bindC try_catch]. intros Hm.
  apply components_sound in Hm as [Hm|(item & Hin & Hname & Hdir & Hends)];
    [rewrite lookup_empty in Hm; discriminate|].
  split; [exact Hends|].
  exists pattern, files, item. repeat split; (assumption || reflexivity).
Qed.

Lemma X12_witness_foo :
  CustomLwcModuleProvider.generateSfdxComponentsMap hostWithComponents "/proj" !! "foo"
  = Some "/proj/force-app/main/default/lwc/foo"
  /\ JsString.endsWith "/proj/force-app/main/default/lwc/foo" "foo" = true.
Proof.
  split; [reflexivity|].
  exact (proj1 (X12_map_binds_names_to_their_directories hostWithComponents "/proj" "foo"
                  "/proj/force-app/main/default/lwc/foo" eq_refl)).
Defined.

(** X13: when the manifest is read and the glob answers, a script that
    lies in a directory ending with its own name binds that name to that
    directory, unless a later script of the same name does. *)
Theorem X13_component_script_is_bound
    (h : Host) (rootDir pattern : string) (before after : list string) (item : string) :
  sfdxSource h rootDir "/**/*/lwc/**/*.js" = Normal pattern ->
  fastGlob_sync h [pattern] = Normal (before ++ item :: after) ->
  JsString.endsWith (Path.parsed_dir (Path.parse item)) (Path.parsed_name (Path.parse item))
  = true ->
  Forall (leavesAlone (Path.parsed_name (Path.parse item))) after ->
  CustomLwcModuleProvider.generateSfdxComponentsMap h rootDir
    !! Path.parsed_name (Path.parse item)
  = Some (Path.parsed_dir (Path.parse item)).
Proof.
  apply scan_binds.
Qed.

Lemma X13_witness_bar :
  CustomLwcModuleProvider.generateSfdxComponentsMap hostWithComponents "/proj" !! "bar"
  = Some "/proj/force-app/main/default/lwc/bar".
Proof.
  exact (X13_component_script_is_bound hostWithComponents "/proj"
           "/proj/force-app/**/*/lwc/**/*.js"
           ["/proj/force-app/main/default/lwc/foo/foo.js";
            "/proj/force-app/main/default/lwc/foo/helper.js"]
           ["/proj/force-app/main/default/lwc/bar/__tests__/bar.test.js"]
           "/proj/force-app/main/default/lwc/bar/bar.js"
           eq_refl eq_refl eq_refl
           ltac:(repeat (apply List.Forall_cons; [left; vm_compute; discriminate|]);
                  apply List.Forall_nil)).
Defined.

(** ** From the scan of the project to the resolver *)

Section ScriptPaths.
Import JsString Path.
Variable segs : list string.
Variable name : string.
Hypothesis Hsegs : Forall (fun s => plainSegment s = true) segs.
Hypothesis Hname : plainSegment name = true.

Lemma script_is_plain (ext : string) :
  occurs "/" ext = false -> occurs "\" ext = false -> plainSegment (name +:+ ext) = true.
Proof.
  intros Hslash Hback. destruct (plain_parts name Hname) as (Hreal & Hslash' & Hback').
  unfold plainSegment.
  rewrite (someOtherThan_app_l "." name ext Hreal), !occurs_app, Hslash, Hslash', Hback, Hback'.
  reflexivity.
Qed.

Lemma absPath_snoc (front : list string) (l t : string) :
  absPath (front ++ [l]) +:+ t = absPath (front ++ [l +:+ t]).
Proof.
  unfold absPath. rewrite app_assoc. f_equal.
  induction front as [|x front IH]; [reflexivity|].
  change ((x :: front) ++ [l]) with (x :: (front ++ [l])).
  change ((x :: front) ++ [l +:+ t]) with (x :: (front ++ [l +:+ t])).
  rewrite !concat_cons by (destruct front; discriminate).
  rewrite !app_assoc, IH. reflexivity.
Qed.

Lemma name_is_not_dots (ext : string) :
  someOtherThan "." ext = true -> String.eqb (name +:+ ext) ".." = false.
Proof.
  intros Hext.
  pose proof (someOtherThan_app_r "." name ext Hext) as Hreal.
  destruct (String.eqb_spec (name +:+ ext) "..") as [Hdots|_]; [|reflexivity].
  rewrite Hdots in Hreal. discriminate.
Qed.

Lemma replace_skips (c : ascii) (pat rep s : string) : forall t,
  occurs c s = false ->
  replace (String c pat) rep (s +:+ t) = s +:+ replace (String c pat) rep t.
Proof.
  induction s as [|d s IH]; intros t Habs; [reflexivity|].
  cbn [occurs] in Habs. apply orb_false_elim in Habs as [Hd Hs].
  change (String d s +:+ t) with (String d (s +:+ t)).
  rewrite replace_unfold. cbn [startsWith].
  rewrite Ascii.eqb_sym, Hd. cbn [andb]. rewrite IH by exact Hs. reflexivity.
Qed.

(** The script of a component, as [path.parse] takes it apart. *)
Lemma parse_script :
  parse (absPath (segs ++ [name; name +:+ ".js"]))
  = {| parsed_dir := absPath (segs ++ [name]); parsed_base := name +:+ ".js";
       parsed_ext := ".js"; parsed_name := name |}.
Proof.
  assert (Hfile : occurs "/" (name +:+ ".js") = false).
  { rewrite occurs_app. destruct (plain_parts name Hname) as (_ & -> & _). reflexivity. }
  assert (Hrest : String.concat "/" (segs ++ [name; name +:+ ".js"])
                  = String.concat "/" (segs ++ [name]) +:+ String "/" (name +:+ ".js")).
  { replace (segs ++ [name; name +:+ ".js"]) with ((segs ++ [name]) ++ [name +:+ ".js"])
      by (rewrite <- List.app_assoc; reflexivity).
    rewrite concat_app by (destruct segs; discriminate). reflexivity. }
  unfold parse, absPath.
  set (rest := String.concat "/" (segs ++ [name; name +:+ ".js"])) in *.
  change (isAbsolute ("/" +:+ rest)) with true. cbn iota.
  change (drop 1 ("/" +:+ rest)) with rest.
  rewrite Hrest.
  replace (String.concat "/" (segs ++ [name]) +:+ String "/" (name +:+ ".js"))
    with ((String.concat "/" (segs ++ [name]) +:+ "/") +:+ (name +:+ ".js"))
    by (rewrite app_assoc; reflexivity).
  rewrite strip_app_absent by (exact Hfile || apply app_nonempty_r; discriminate).
  rewrite app_assoc.
  change ("/" +:+ name +:+ ".js") with (String "/" (name +:+ ".js")).
  rewrite splitLast_at_last by exact Hfile.
  unfold splitExt.
  change (name +:+ ".js") with (name +:+ String "." "js").
  rewrite splitLast_at_last by reflexivity.
  destruct (String.eqb_spec name "") as [Hempty|_];
    [exfalso; exact (plain_nonempty name Hname Hempty)|].
  rewrite (name_is_not_dots (String "." "js") eq_refl). reflexivity.
Qed.

(** The metadata file of a component, as [path.parse] takes it apart. *)
Lemma parse_metadata :
  parse (absPath (segs ++ [name; name +:+ ".js-meta.xml"]))
  = {| parsed_dir := absPath (segs ++ [name]); parsed_base := name +:+ ".js-meta.xml";
       parsed_ext := ".xml"; parsed_name := name +:+ ".js-meta" |}.
Proof.
  assert (Hfile : occurs "/" (name +:+ ".js-meta.xml") = false).
  { rewrite occurs_app. destruct (plain_parts name Hname) as (_ & -> & _). reflexivity. }
  assert (Hrest : String.concat "/" (segs ++ [name; name +:+ ".js-meta.xml"])
                  = String.concat "/" (segs ++ [name])
                    +:+ String "/" (name +:+ ".js-meta.xml")).
  { replace (segs ++ [name; name +:+ ".js-meta.xml"])
      with ((segs ++ [name]) ++ [name +:+ ".js-meta.xml"])
      by (rewrite <- List.app_assoc; reflexivity).
    rewrite concat_app by (destruct segs; discriminate). reflexivity. }
  unfold parse, absPath.
  set (rest := String.concat "/" (segs ++ [name; name +:+ ".js-meta.xml"])) in *.
  change (isAbsolute ("/" +:+ rest)) with true. cbn iota.
  change (drop 1 ("/" +:+ rest)) with rest.
  rewrite Hrest.
  replace (String.concat "/" (segs ++ [name]) +:+ String "/" (name +:+ ".js-meta.xml"))
    with ((String.concat "/" (segs ++ [name]) +:+ "/") +:+ (name +:+ ".js-meta.xml"))
    by (rewrite app_assoc; reflexivity).
  rewrite strip_app_absent by (exact Hfile || apply app_nonempty_r; discriminate).
  rewrite app_assoc.
  change ("/" +:+ name +:+ ".js-meta.xml") with (String "/" (name +:+ ".js-meta.xml")).
  rewrite splitLast_at_last by exact Hfile.
  unfold splitExt.
  replace (name +:+ ".js-meta.xml") with ((name +:+ ".js-meta") +:+ String "." "xml")
    by (rewrite app_assoc; reflexivity).
  rewrite splitLast_at_last by reflexivity.
  destruct (String.eqb_spec (name +:+ ".js-meta") "") as [Hempty|_];
    [exfalso; exact (app_nonempty_r name ".js-meta" ltac:(discriminate) Hempty)|].
  replace (String.eqb ((name +:+ ".js-meta") +:+ String "." "xml") "..") with false;
    [reflexivity|].
  symmetry. rewrite app_assoc. apply (name_is_not_dots (".js-meta" +:+ String "." "xml")).
  reflexivity.
Qed.

Lemma name_of_metadata :
  occurs "." name = false -> replace ".js-meta" "" (name +:+ ".js-meta") = name.
Proof.
  intros Hdot. rewrite (replace_skips "." "js-meta" "" name ".js-meta" Hdot).
  change (replace ".js-meta" "" ".js-meta") with "". apply app_empty_r.
Qed.

Lemma directory_ends_with_name : endsWith (absPath (segs ++ [name])) name = true.
Proof.
  unfold absPath. destruct (concat_snoc "/" segs name) as [q ->].
  rewrite <- app_assoc. apply endsWith_app.
Qed.

Lemma file_in_directory (file : string) :
  plainSegment file = true ->
  join [absPath (segs ++ [name]); file] = absPath (segs ++ [name; file]).
Proof.
  intros Hfile.
  change file with (String.concat "/" [file]) at 1.
  rewrite join_absPath.
  - rewrite <- List.app_assoc. reflexivity.
  - apply Forall_app. split; [exact Hsegs | repeat constructor; exact Hname].
  - repeat constructor. exact Hfile.
  - discriminate.
Qed.

End ScriptPaths.

(** X14: the scan and the resolver of the earlier revision fit
    together.  When the glob lists the script [name/name.js] of a
    component and no later script binds the same name, the reference
    [c/name], resolved over the map that the scan builds, is answered
    with the path of that very script. *)
Theorem X14_scanned_component_resolves_to_its_script
    (h : Host) (rootDir pattern : string) (before after segs : list string) (name : string)
    (moduleId : ModuleId) :
  Forall (fun s => plainSegment s = true) segs ->
  plainSegment name = true ->
  JsString.occurs "#" name = false ->
  sfdxSource h rootDir "/**/*/lwc/**/*.js" = Normal pattern ->
  fastGlob_sync h [pattern]
  = Normal (before ++ absPath (segs ++ [name; name +:+ ".js"]) :: after) ->
  Forall (leavesAlone name) after ->
  specifier moduleId = "c/" +:+ name ->
  CustomLwcModuleProvider.getModuleEntry_rev1 h
    (CustomLwcModuleProvider.generateSfdxComponentsMap h rootDir) moduleId
  = Normal (Some (CustomLwcModuleProvider.makeEntry ("c/" +:+ name)
                    (absPath (segs ++ [name; name +:+ ".js"])))).
Proof.
  intros Hsegs Hname Hhash Hpattern Hglob Hafter Hspec.
  pose proof (parse_script segs name Hsegs Hname) as Hparse.
  pose proof (scan_binds h rootDir pattern before after
                (absPath (segs ++ [name; name +:+ ".js"])) Hpattern Hglob) as Hbound.
  rewrite Hparse in Hbound. cbn [Path.parsed_dir Path.parsed_name] in Hbound.
  specialize (Hbound (directory_ends_with_name segs name) Hafter).
  rewrite (getModuleEntry_rev1_plain h _ moduleId name (absPath (segs ++ [name]))
             Hspec Hhash Hbound ltac:(discriminate)).
  rewrite (file_in_directory segs name Hsegs Hname (name +:+ ".js")
             (script_is_plain name Hname ".js" eq_refl eq_refl)).
  reflexivity.
Qed.

Lemma X14_witness_foo :
  CustomLwcModuleProvider.getModuleEntry_rev1 hostWithComponents
    (CustomLwcModuleProvider.generateSfdxComponentsMap hostWithComponents "/proj") fooId
  = Normal (Some {| entry_id := "c/foo|1"; entry_virtual := false;
                    entry_path := "/proj/force-app/main/default/lwc/foo/foo.js";
                    entry_specifier := "c/foo"; entry_version := "1" |}).
Proof.
  exact (X14_scanned_component_resolves_to_its_script hostWithComponents "/proj"
           "/proj/force-app/**/*/lwc/**/*.js" []
           ["/proj/force-app/main/default/lwc/foo/helper.js";
            "/proj/force-app/main/default/lwc/bar/bar.js";
            "/proj/force-app/main/default/lwc/bar/__tests__/bar.test.js"]
           ["proj"; "force-app"; "main"; "default"; "lwc"] "foo" fooId
           ltac:(repeat constructor) eq_refl eq_refl eq_refl eq_refl
           ltac:(repeat (apply List.Forall_cons; [left; vm_compute; discriminate|]);
                  apply List.Forall_nil)
           eq_refl).
Defined.

(** X19: the scan of metadata files and the probing resolver fit
    together, for a component whose name has neither dot nor fragment
    mark.  When the glob lists the file [name/name.js-meta.xml] of the
    component and no later file binds the same name, the reference
    [c/name] is answered with the script [name/name.js] when it is on
    disk, with the style sheet [name/name.css] when only that is, and
    with the path [name/name] otherwise. *)
Theorem X19_component_found_by_its_metadata_is_probed
    (h : Host) (rootDir pattern : string) (before after segs : list string) (name : string)
    (moduleId : ModuleId) :
  Forall (fun s => plainSegment s = true) segs ->
  plainSegment name = true ->
  JsString.occurs "." name = false ->
  JsString.occurs "#" name = false ->
  sfdxSource h rootDir "/**/*/lwc/**/*.js-meta.xml" = Normal pattern ->
  fastGlob_sync h [pattern]
  = Normal (before ++ absPath (segs ++ [name; name +:+ ".js-meta.xml"]) :: after) ->
  Forall (leavesAloneMeta name) after ->
  specifier moduleId = "c/" +:+ name ->
  CustomLwcModuleProvider.getModuleEntry h
    (CustomLwcModuleProvider.generateSfdxComponentsMap_rev2 h rootDir) moduleId
  = Normal (Some (CustomLwcModuleProvider.makeEntry ("c/" +:+ name)
      (absPath (segs ++ [name;
         if existsSync h (absPath (segs ++ [name; name +:+ ".js"])) then name +:+ ".js"
         else if existsSync h (absPath (segs ++ [name; name +:+ ".css"])) then name +:+ ".css"
         else name])))).
Proof.
  intros Hsegs Hname Hdot Hhash Hpattern Hglob Hafter Hspec.
  pose proof (parse_metadata segs name Hsegs Hname) as Hparse.
  pose proof (scan_binds_metadata h rootDir pattern before after
                (absPath (segs ++ [name; name +:+ ".js-meta.xml"])) name Hpattern Hglob)
    as Hbound.
  rewrite Hparse in Hbound. cbn [Path.parsed_dir Path.parsed_name] in Hbound.
  specialize (Hbound (name_of_metadata name Hdot) (directory_ends_with_name segs name) Hafter).
  rewrite (getModuleEntry_plain h _ moduleId name (absPath (segs ++ [name]))
             Hspec Hhash Hdot Hbound ltac:(discriminate)).
  rewrite (file_in_directory segs name Hsegs Hname name Hname).
  replace (segs ++ [name; name]) with ((segs ++ [name]) ++ [name])
    by (rewrite <- List.app_assoc; reflexivity).
  rewrite !absPath_snoc, <- !List.app_assoc. cbn [List.app].
  destruct (existsSync h (absPath (segs ++ [name; name +:+ ".js"]))).
  - rewrite (file_in_directory segs name Hsegs Hname (name +:+ ".js")
               (script_is_plain name Hname ".js" eq_refl eq_refl)).
    reflexivity.
  - destruct (existsSync h (absPath (segs ++ [name; name +:+ ".css"]))).
    + rewrite (file_in_directory segs name Hsegs Hname (name +:+ ".css")
                 (script_is_plain name Hname ".css" eq_refl eq_refl)).
      reflexivity.
    + rewrite (file_in_directory segs name Hsegs Hname name Hname). reflexivity.
Qed.

Lemma X19_witness_shared_style_sheet :
  CustomLwcModuleProvider.getModuleEntry hostWithComponents
    (CustomLwcModuleProvider.generateSfdxComponentsMap_rev2 hostWithComponents "/proj")
    {| specifier := "c/shared"; namespace := None; name := None; importer := None |}
  = Normal (Some {| entry_id := "c/shared|1"; entry_virtual := false;
                    entry_path := "/proj/force-app/main/default/lwc/shared/shared.css";
                    entry_specifier := "c/shared"; entry_version := "1" |}).
Proof.
  exact (X19_component_found_by_its_metadata_is_probed hostWithComponents "/proj"
           "/proj/force-app/**/*/lwc/**/*.js-meta.xml"
           ["/proj/force-app/main/default/lwc/foo/foo.js-meta.xml";
            "/proj/force-app/main/default/lwc/bar/bar.js-meta.xml"]
           []
           ["proj"; "force-app"; "main"; "default"; "lwc"] "shared"
           {| specifier := "c/shared"; namespace := None; name := None; importer := None |}
           ltac:(repeat constructor) eq_refl eq_refl eq_refl eq_refl eq_refl
           (List.Forall_nil _) eq_refl).
Defined.

(** ** The resolver of labels, further cases *)

Section LabelSpecifiers.
Import SalesforceLabelProvider.

Lemma scoped_segments (seg : string) :
  JsString.occurs "/" seg = false ->
  JsString.split "/" ("@salesforce/label/" +:+ seg) = ["@salesforce"; "label"; seg].
Proof.
  intros Hslash.
  change ("@salesforce/label/" +:+ seg) with ("@salesforce/label" +:+ String "/" seg).
  rewrite split_app_sep, (split_absent "/" seg Hslash). reflexivity.
Qed.

Lemma qualified_label_name (customLabelsMap : JsMap JsValue) (ns labelName : string) :
  JsString.occurs "/" ns = false ->
  JsString.occurs "." ns = false ->
  labelName <> "" ->
  JsString.occurs "/" labelName = false ->
  JsString.occurs "." labelName = false ->
  getLabelValueFromMap customLabelsMap ("@salesforce/label/" +:+ ns +:+ "." +:+ labelName)
  = searchLabels labelName customLabelsMap.
Proof.
  intros Hns_slash Hns_dot Hne Hslash Hdot. unfold getLabelValueFromMap.
  rewrite scoped_segments
    by (rewrite occurs_app, Hns_slash; cbn [JsString.occurs Ascii.eqb Bool.eqb orb];
        exact Hslash).
  cbn [lookup list_lookup mbind option_bind].
  change (ns +:+ "." +:+ labelName) with (ns +:+ String "." labelName).
  rewrite split_app_sep, (split_absent "." ns Hns_dot), (split_absent "." labelName Hdot).
  cbn [List.app lookup list_lookup]. rewrite (truthy_nonempty labelName Hne). reflexivity.
Qed.

Lemma undotted_is_not_searched (customLabelsMap : JsMap JsValue) (seg : string) :
  JsString.occurs "/" seg = false ->
  JsString.occurs "." seg = false ->
  getLabelValueFromMap customLabelsMap ("@salesforce/label/" +:+ seg) = Normal JUndefined.
Proof.
  intros Hslash Hdot. unfold getLabelValueFromMap.
  rewrite (scoped_segments seg Hslash).
  cbn [lookup list_lookup mbind option_bind].
  rewrite (split_absent "." seg Hdot). reflexivity.
Qed.

Lemma searchLabels_without_labels (labelName file : string) (doc customLabels : JsValue)
    (after : JsMap JsValue) :
  Js.getProp doc "CustomLabels" = Normal customLabels ->
  Js.getPropOpt customLabels "labels" = Normal JUndefined ->
  searchLabels labelName ((file, doc) :: after)
  = Throw "TypeError: Cannot read properties of undefined (reading 'fullName')".
Proof.
  intros Hdoc Hlabels. cbn [searchLabels snd]. rewrite Hdoc. cbn [bindC].
  rewrite Hlabels. reflexivity.
Qed.

End LabelSpecifiers.

(** X15: a parsed file without [CustomLabels.labels] stops the search.
    When the files ahead of it each hold a label and none holds the one
    that is looked for, the lookup reaches that file, wraps the missing
    value in an array and throws on reading [fullName] from it, so that
    the resolver rejects, whatever the files behind hold. *)
Theorem X15_file_without_labels_makes_the_lookup_throw
    (h : Host) (files : list (string * list Label)) (file : string)
    (doc customLabels : JsValue) (after : JsMap JsValue) (moduleId : ModuleId)
    (someLabel : string) :
  specifier moduleId = "@salesforce/label/c." +:+ someLabel ->
  someLabel <> "" ->
  JsString.occurs "/" someLabel = false ->
  JsString.occurs "." someLabel = false ->
  Forall (fun file => snd file <> []) files ->
  firstLabelAcrossFiles someLabel files = None ->
  Js.getProp doc "CustomLabels" = Normal customLabels ->
  Js.getPropOpt customLabels "labels" = Normal JUndefined ->
  SalesforceLabelProvider.getModule h (parsedFiles files ++ (file, doc) :: after) moduleId
  = Throw "TypeError: Cannot read properties of undefined (reading 'fullName')".
Proof.
  intros Hspec Hne Hslash Hdot Hfiles Hnone Hdoc Hlabels.
  unfold SalesforceLabelProvider.getModule, SalesforceLabelProvider.getModuleEntry.
  rewrite Hspec.
  change (SalesforceLabelProvider.isLabelScopedModule ("@salesforce/label/c." +:+ someLabel))
    with true.
  cbn iota.
  rewrite label_specifier_name by assumption.
  rewrite searchLabels_skip by assumption.
  rewrite (searchLabels_without_labels someLabel file doc customLabels after Hdoc Hlabels).
  reflexivity.
Qed.

Lemma X15_witness_empty_file_first :
  SalesforceLabelProvider.getModule bareHost
    (("force-app/main/default/labels/Farewell.labels-meta.xml",
      parsedLabels [(JStr "farewell", JStr "Bye")])
     :: parsedFiles emptyFileFirst)
    (labelId "greeting")
  = Throw "TypeError: Cannot read properties of undefined (reading 'fullName')".
Proof.
  exact (X15_file_without_labels_makes_the_lookup_throw bareHost
           [("force-app/main/default/labels/Farewell.labels-meta.xml",
             [(JStr "farewell", JStr "Bye")])]
           "force-app/main/default/labels/Empty.labels-meta.xml"
           (parsedLabels []) (JStr "")
           (parsedFiles [("force-app/main/default/labels/Custom.labels-meta.xml",
                          [(JStr "greeting", JStr "Hello")])])
           (labelId "greeting") "greeting"
           eq_refl ltac:(discriminate) eq_refl eq_refl
           ltac:(repeat constructor; discriminate) eq_refl eq_refl eq_refl).
Defined.

(** X16: what the resolver of labels reads from a specifier.  The name
    of the label is what follows the dot of the third segment, and the
    part ahead of the dot is not looked at; a third segment without a
    dot names no label, and the resolver answers [undefined] without
    going through the map. *)
Theorem X16_label_name_follows_the_dot
    (h : Host) (customLabelsMap : JsMap JsValue) (moduleId : ModuleId) :
  (forall ns someLabel,
     specifier moduleId = "@salesforce/label/" +:+ ns +:+ "." +:+ someLabel ->
     JsString.occurs "/" ns = false ->
     JsString.occurs "." ns = false ->
     someLabel <> "" ->
     JsString.occurs "/" someLabel = false ->
     JsString.occurs "." someLabel = false ->
     SalesforceLabelProvider.getLabelValueFromMap customLabelsMap (specifier moduleId)
     = SalesforceLabelProvider.getLabelValueFromMap customLabelsMap
         ("@salesforce/label/c." +:+ someLabel))
  /\ (forall seg,
        specifier moduleId = "@salesforce/label/" +:+ seg ->
        JsString.occurs "/" seg = false ->
        JsString.occurs "." seg = false ->
        SalesforceLabelProvider.getModule h customLabelsMap moduleId = Normal None).
Proof.
  split.
  - intros ns someLabel Hspec Hns_slash Hns_dot Hne Hslash Hdot.
    rewrite Hspec, qualified_label_name by assumption.
    symmetry. apply (qualified_label_name customLabelsMap "c" someLabel); auto.
  - intros seg Hspec Hslash Hdot.
    unfold SalesforceLabelProvider.getModule, SalesforceLabelProvider.getModuleEntry.
    rewrite Hspec.
    change (SalesforceLabelProvider.isLabelScopedModule ("@salesforce/label/" +:+ seg))
      with true.
    cbn iota. rewrite (undotted_is_not_searched customLabelsMap seg Hslash Hdot).
    reflexivity.
Qed.

Lemma X16_witness_other_namespace :
  SalesforceLabelProvider.getLabelValueFromMap (parsedFiles sampleLabelFiles)
    "@salesforce/label/acme.greeting"
  = Normal (JStr "Hello")
  /\ SalesforceLabelProvider.getModule bareHost (parsedFiles emptyFileFirst)
       {| specifier := "@salesforce/label/greeting"; namespace := None; name := None;
          importer := None |}
     = Normal None.
Proof.
  split.
  - etransitivity.
    + exact (proj1 (X16_label_name_follows_the_dot bareHost (parsedFiles sampleLabelFiles)
                      {| specifier := "@salesforce/label/acme.greeting"; namespace := None;
                         name := None; importer := None |})
               "acme" "greeting" eq_refl eq_refl eq_refl ltac:(discriminate) eq_refl eq_refl).
    + reflexivity.
  - exact (proj2 (X16_label_name_follows_the_dot bareHost (parsedFiles emptyFileFirst)
                    {| specifier := "@salesforce/label/greeting"; namespace := None;
                       name := None; importer := None |})
             "greeting" eq_refl eq_refl eq_refl).
Defined.

(** ** The resolver of content assets *)

Section AssetResolver.
Import SalesforceResourceProvider.
Variable h : Host.
Variable asset : string.
Hypothesis Hnonempty : asset <> "".
Hypothesis Hslash : JsString.occurs "/" asset = false.
Hypothesis Hdot : JsString.occurs "." asset = false.

Lemma asset_is_name : someOtherThan "." asset = true.
Proof. apply absent_someOtherThan; assumption. Qed.

Lemma asset_pathInFolder :
  Path.join ["force-app/main/default/contentassets"; asset]
  = "force-app/main/default/contentassets/" +:+ asset.
Proof.
  rewrite join_two by (discriminate || assumption).
  destruct (real_segment asset asset_is_name) as [Hseg Hdots].
  unfold Path.normalize, Path.normalizeString.
  change ("force-app/main/default/contentassets" +:+ "/" +:+ asset)
    with ("force-app/main/default/contentassets" +:+ String "/" asset).
  rewrite split_app_sep, (split_absent "/" asset Hslash).
  change ("force-app/main/default/contentassets" +:+ String "/" asset)
    with ("force-app/main/default/contentassets/" +:+ asset).
  rewrite (endsWith_app_absent "/" _ asset Hnonempty Hslash).
  cbn [JsString.split Ascii.eqb Bool.eqb List.app Path.normalizeSegments String.eqb orb].
  cbn. rewrite Hseg, Hdots, app_empty_r. reflexivity.
Qed.

Lemma asset_fullPath_ends : exists pre, assetFullPath h asset = pre +:+ asset.
Proof.
  unfold assetFullPath.
  destruct (resolve_keeps (cwd h) [Path.resolve (cwd h) [default "" (env_ROOT_DIR h)]]
              "force-app/main/default/contentassets/" asset Hslash asset_is_name)
    as [pre Hpre].
  cbn [List.app] in Hpre. rewrite Hpre.
  apply normalize_keeps; [exact Hslash | exact asset_is_name].
Qed.

Lemma getModule_asset (moduleId : ModuleId) :
  specifier moduleId = "@salesforce/contentAssetUrl/" +:+ asset ->
  exists m,
    getModule h moduleId = Normal (Some m)
    /\ mc_originalSource m
       = exportDefault (("force-app/main/default/contentassets/" +:+ asset)
                        +:+ getFileExtension h (assetFullPath h asset))
    /\ entry_virtual (mc_moduleEntry m) = true.
Proof.
  intros Hspec. unfold getModule, getModuleEntry. rewrite Hspec.
  change (isResourceUrlScopedModule ("@salesforce/contentAssetUrl/" +:+ asset)) with true.
  cbn [bindC].
  change (JsString.startsWith ("@salesforce/contentAssetUrl/" +:+ asset)
            CONTENT_ASSET_URL_PREFIX) with true.
  change ("@salesforce/contentAssetUrl/" +:+ asset)
    with ("@salesforce/contentAssetUrl" +:+ String "/" asset).
  rewrite split_app_sep, (split_absent "/" asset Hslash).
  cbn [JsString.split Ascii.eqb Bool.eqb List.app].
  cbn [lookup list_lookup]. rewrite (split_absent "." asset Hdot).
  cbn [List.nth bindC].
  unfold getContentAssetFilePath, getPath. rewrite asset_pathInFolder.
  eexists. split; [reflexivity|]. split; reflexivity.
Qed.

End AssetResolver.

Section DottedSpecifier.
Import SalesforceResourceProvider.
Variable h : Host.

Lemma source_of_resource (moduleId : ModuleId) (seg : string) :
  specifier moduleId = "@salesforce/resourceUrl/" +:+ seg ->
  JsString.occurs "/" seg = false ->
  exists m,
    getModule h moduleId = Normal (Some m)
    /\ mc_originalSource m
       = exportDefault (getResourceFilePath h (List.nth 0 (JsString.split "." seg) "")).
Proof.
  intros Hspec Hslash. unfold getModule, getModuleEntry. rewrite Hspec.
  change (isResourceUrlScopedModule ("@salesforce/resourceUrl/" +:+ seg)) with true.
  cbn [bindC].
  change (JsString.startsWith ("@salesforce/resourceUrl/" +:+ seg)
            CONTENT_ASSET_URL_PREFIX) with false.
  change ("@salesforce/resourceUrl/" +:+ seg)
    with ("@salesforce/resourceUrl" +:+ String "/" seg).
  rewrite split_app_sep, (split_absent "/" seg Hslash).
  cbn [JsString.split Ascii.eqb Bool.eqb List.app].
  cbn [lookup list_lookup bindC].
  eexists. split; reflexivity.
Qed.

Lemma first_piece (resource rest : string) :
  JsString.occurs "." resource = false ->
  List.nth 0 (JsString.split "." (resource +:+ "." +:+ rest)) "" = resource.
Proof.
  intros Hdot. change (resource +:+ "." +:+ rest) with (resource +:+ String "." rest).
  rewrite split_app_sep, (split_absent "." resource Hdot). reflexivity.
Qed.

End DottedSpecifier.

(** X17: for a specifier [@salesforce/contentAssetUrl/name], where
    [name] is not empty and has neither slash nor dot, the module is
    looked for under [force-app/main/default/contentassets].  It exports
    the path [force-app/main/default/contentassets/name] followed by
    the extension of the file that the glob of [name.*], sidecar files
    left out, lists first, its extension being what follows its last
    dot.  So when that file is [name.ext] and [ext] has no further dot,
    the module exports [force-app/main/default/contentassets/name.ext],
    and when the glob gives nothing or fails it exports the path
    without extension. *)
Theorem X17_content_asset_exports_relative_path
    (h : Host) (moduleId : ModuleId) (asset : string) :
  specifier moduleId = "@salesforce/contentAssetUrl/" +:+ asset ->
  asset <> "" ->
  JsString.occurs "/" asset = false ->
  JsString.occurs "." asset = false ->
  let fullPath := assetFullPath h asset in
  (forall ext others,
     JsString.occurs "/" ext = false ->
     JsString.occurs "." ext = false ->
     fastGlob_sync h (resourcePatterns fullPath)
     = Normal ((fullPath +:+ "." +:+ ext) :: others) ->
     exists m,
       SalesforceResourceProvider.getModule h moduleId = Normal (Some m)
       /\ mc_originalSource m
          = "export default " +:+ JsString.quote
            +:+ "force-app/main/default/contentassets/" +:+ asset +:+ "." +:+ ext
            +:+ JsString.quote +:+ ";")
  /\ (fastGlob_sync h (resourcePatterns fullPath) = Normal []
      \/ (exists e, fastGlob_sync h (resourcePatterns fullPath) = Throw e) ->
      exists m,
        SalesforceResourceProvider.getModule h moduleId = Normal (Some m)
        /\ mc_originalSource m
           = "export default " +:+ JsString.quote
             +:+ "force-app/main/default/contentassets/" +:+ asset
             +:+ JsString.quote +:+ ";")
  /\ (forall first others,
        fastGlob_sync h (resourcePatterns fullPath) = Normal (first :: others) ->
        exists m,
          SalesforceResourceProvider.getModule h moduleId = Normal (Some m)
          /\ mc_originalSource m
             = "export default " +:+ JsString.quote
               +:+ "force-app/main/default/contentassets/" +:+ asset
               +:+ Path.extname first +:+ JsString.quote +:+ ";").
Proof.
  intros Hspec Hne Hslash Hdot fullPath.
  destruct (getModule_asset h asset Hne Hslash Hdot moduleId Hspec)
    as (m & Hm & Hsource & _).
  split; [|split].
  - intros ext others Hslash' Hdot' Hglob.
    exists m. split; [exact Hm|]. rewrite Hsource.
    unfold SalesforceResourceProvider.getFileExtension.
    fold fullPath. change [fullPath +:+ ".*"; "!" +:+ fullPath +:+ ".resource-meta.*";
                           "!" +:+ fullPath +:+ ".asset-meta.*"]
      with (resourcePatterns fullPath).
    rewrite Hglob. cbn [bindC try_catch].
    destruct (asset_fullPath_ends h asset Hne Hslash Hdot) as [pre Hpre].
    fold fullPath in Hpre. rewrite Hpre.
    replace ((pre +:+ asset) +:+ "." +:+ ext) with (pre +:+ asset +:+ "." +:+ ext)
      by (rewrite app_assoc; reflexivity).
    rewrite (extname_dotted pre asset ext)
      by (assumption || apply asset_is_name; assumption).
    unfold exportDefault. rewrite !app_assoc. reflexivity.
  - intros Hglob.
    exists m. split; [exact Hm|]. rewrite Hsource.
    unfold SalesforceResourceProvider.getFileExtension.
    fold fullPath. change [fullPath +:+ ".*"; "!" +:+ fullPath +:+ ".resource-meta.*";
                           "!" +:+ fullPath +:+ ".asset-meta.*"]
      with (resourcePatterns fullPath).
    destruct Hglob as [Hglob|[e Hglob]]; rewrite Hglob; cbn [bindC try_catch];
      unfold exportDefault; rewrite app_empty_r, !app_assoc; reflexivity.
  - intros first others Hglob.
    exists m. split; [exact Hm|]. rewrite Hsource.
    unfold SalesforceResourceProvider.getFileExtension.
    fold fullPath. change [fullPath +:+ ".*"; "!" +:+ fullPath +:+ ".resource-meta.*";
                           "!" +:+ fullPath +:+ ".asset-meta.*"]
      with (resourcePatterns fullPath).
    rewrite Hglob. cbn [bindC try_catch].
    unfold exportDefault. rewrite !app_assoc. reflexivity.
Qed.

Lemma X17_witness_logo :
  assetFullPath hostWithAsset "logo" = "/proj/force-app/main/default/contentassets/logo"
  /\ exists m,
       SalesforceResourceProvider.getModule hostWithAsset (assetId "logo") = Normal (Some m)
       /\ mc_originalSource m
          = "export default " +:+ JsString.quote
            +:+ "force-app/main/default/contentassets/logo.asset"
            +:+ JsString.quote +:+ ";".
Proof.
  split; [reflexivity|].
  exact (proj1 (X17_content_asset_exports_relative_path hostWithAsset (assetId "logo")
                  "logo" eq_refl ltac:(discriminate) eq_refl eq_refl)
           "asset" [] eq_refl eq_refl eq_refl).
Defined.

(** X18: an extension written in the specifier of a static resource is
    not used: the resource is looked for under the name ahead of the
    first dot, so [@salesforce/resourceUrl/name.rest] exports what
    [@salesforce/resourceUrl/name] exports. *)
Theorem X18_extension_in_the_specifier_is_dropped
    (h : Host) (moduleId : ModuleId) (resource rest : string) :
  specifier moduleId = "@salesforce/resourceUrl/" +:+ resource +:+ "." +:+ rest ->
  JsString.occurs "/" resource = false ->
  JsString.occurs "." resource = false ->
  JsString.occurs "/" rest = false ->
  exists m m',
    SalesforceResourceProvider.getModule h moduleId = Normal (Some m)
    /\ SalesforceResourceProvider.getModule h (resourceId resource) = Normal (Some m')
    /\ mc_originalSource m = mc_originalSource m'
    /\ mc_compiledSource m = mc_originalSource m'.
Proof.
  intros Hspec Hslash Hdot Hslash'.
  destruct (source_of_resource h moduleId (resource +:+ "." +:+ rest) Hspec)
    as (m & Hm & Hsource).
  { rewrite occurs_app, Hslash. exact Hslash'. }
  destruct (source_of_resource h (resourceId resource) resource eq_refl Hslash)
    as (m' & Hm' & Hsource').
  exists m, m'. split; [exact Hm|]. split; [exact Hm'|].
  rewrite first_piece in Hsource by exact Hdot.
  rewrite (split_absent "." resource Hdot) in Hsource'. cbn [List.nth] in Hsource'.
  split; [congruence|].
  unfold SalesforceResourceProvider.getModule in Hm.
  destruct (SalesforceResourceProvider.getModuleEntry moduleId) as [[entry|]|e];
    cbn [bindC] in Hm; try discriminate.
  destruct (JsString.split "/" (specifier moduleId) !! 2%nat); cbn [bindC] in Hm;
    [|discriminate].
  injection Hm as <-. cbn [mc_compiledSource mc_originalSource] in *. congruence.
Qed.

Lemma X18_witness_myImage_png :
  exists m,
    SalesforceResourceProvider.getModule hostWithImage (resourceId "myImage.png")
    = Normal (Some m)
    /\ mc_originalSource m
       = "export default " +:+ JsString.quote
         +:+ "force-app/main/default/staticresources/myImage.png"
         +:+ JsString.quote +:+ ";".
Proof.
  destruct (X18_extension_in_the_specifier_is_dropped hostWithImage (resourceId "myImage.png")
              "myImage" "png" eq_refl eq_refl eq_refl eq_refl)
    as (m & m' & Hm & Hm' & Hsame & _).
  exists m. split; [exact Hm|]. rewrite Hsame.
  injection Hm' as <-. reflexivity.
Defined.

(** ** The preview command *)

Example path_dirname_samples :
  path_dirname "/path/to/project_root/mobile-apps.json" = "/path/to/project_root"
  /\ path_dirname "/a/b/" = "/a"
  /\ path_dirname "/a" = "/"
  /\ path_dirname "a" = "."
  /\ path_dirname "a/b" = "a"
  /\ path_dirname "a//b" = "a/"
  /\ path_dirname "//a" = "//"
  /\ path_dirname "" = ".".
Proof. repeat split; reflexivity. Qed.

(** A component name that is one NO-BREAK SPACE is a blank name. *)
Example no_break_space_is_a_blank_name :
  snd (Preview.validateInputParameters sampleCore bareHost
         {| Preview.flag_platform := "desktop";
            Preview.flag_apilevel := None;
            Preview.flag_componentname := noBreakSpace;
            Preview.flag_configfile := "";
            Preview.flag_confighelp := false;
            Preview.flag_projectdir := "/path/to/project_root";
            Preview.flag_target := "sfdxdebug";
            Preview.flag_targetapp := "browser" |}
         Preview.initialFields)
  = Throw "error:invalidComponentNameFlagsDescription".
Proof. reflexivity. Qed.

Section PreviewCommand.
Import Preview.
Variable c : Core.
Variable h : Host.
Variable flags : FlagValues.

Lemma blank_name_is_rejected (f : Fields) :
  JsString.trim (flag_componentname flags) = "" ->
  exists f' log error, validateInputParameters c h flags f = (f', log, Throw error).
Proof.
  intros Hblank. unfold validateInputParameters. rewrite Hblank.
  destruct (platformFlagIsDesktop c (flag_target flags) && _); [eexists _, _, _; reflexivity|].
  cbn [String.length Nat.eqb]. eexists _, _, _. reflexivity.
Qed.

Lemma rejected_run (fuel : nat) (createServer : LwrGlobalConfig -> Completion LwrServerUtils.LwrApp)
    (f' : Fields) (log : list Effect) (error : string) :
  validateInputParameters c h flags initialFields = (f', log, Throw error) ->
  run c h fuel createServer flags
  = Some {| effects := (LoggerInfo ("Preview command invoked for " +:+ flag_platform flags)
                        :: log)
                       ++ [LoggerWarn ("Preview failed for " +:+ flag_platform flags +:+ ".")];
            settled := Throw error; server := None |}.
Proof.
  intros Hvalidated. unfold run. rewrite Hvalidated.
  cbn [fmap option_fmap option_map withEffects warnOnFailure settled effects server List.app].
  rewrite List.app_nil_r. reflexivity.
Qed.

Lemma browser_validation (f : Fields) :
  isTargetingBrowser c (JsString.trim (flag_targetapp flags)) = true ->
  JsString.trim (flag_componentname flags) <> "" ->
  exists log,
    validateInputParameters c h flags f
    = ({| deviceName := JsString.trim (flag_target flags);
          componentName := JsString.trim (flag_componentname flags);
          targetApp := JsString.trim (flag_targetapp flags);
          projectDir := resolveUserHomePath c (JsString.trim (flag_projectdir flags));
          configFilePath :=
            Path.normalize
              (Path.resolve (cwd h)
                 [resolveUserHomePath c (JsString.trim (flag_projectdir flags));
                  resolveUserHomePath c (JsString.trim (flag_configfile flags))]);
          appConfig := appConfig f |},
       log, Normal tt).
Proof.
  intros Hbrowser Hname. unfold validateInputParameters. rewrite Hbrowser.
  rewrite andb_false_r. cbn [negb andb].
  destruct (JsString.trim (flag_componentname flags)) as [|ch rest] eqn:Hcomp;
    [contradiction|].
  cbn [String.length Nat.eqb]. eexists. reflexivity.
Qed.

Lemma native_validation (f f' : Fields) (log : list Effect) :
  isTargetingBrowser c (JsString.trim (flag_targetapp flags)) = false ->
  validateInputParameters c h flags f = (f', log, Normal tt) ->
  platformFlagIsDesktop c (flag_target flags) = false
  /\ JsString.trim (flag_componentname flags) <> ""
  /\ resolveUserHomePath c (JsString.trim (flag_configfile flags)) <> ""
  /\ existsSync h (configFilePath f') = true
  /\ (exists errorMessage,
        validateConfigFileWithSchema c (configFilePath f') = Normal (true, errorMessage))
  /\ getAppConfig c (configFilePath f') (flag_platform flags) (targetApp f')
     = Normal (appConfig f')
  /\ appConfig f' <> JUndefined.
Proof.
  intros Hnative. unfold validateInputParameters. rewrite Hnative. cbn [negb].
  rewrite andb_true_r.
  destruct (platformFlagIsDesktop c (flag_target flags)); [discriminate|].
  cbn [andb].
  destruct (JsString.trim (flag_componentname flags)) as [|ch rest] eqn:Hcomp;
    [discriminate|].
  cbn [String.length Nat.eqb].
  destruct (resolveUserHomePath c (JsString.trim (flag_configfile flags)))
    as [|ch' rest'] eqn:Hfile; [discriminate|].
  cbn [String.length Nat.ltb Nat.leb andb].
  destruct (existsSync h _) eqn:Hdisk; [|discriminate].
  cbn [negb].
  destruct (validateConfigFileWithSchema c _) as [[passed errorMessage]|e] eqn:Hschema;
    [|discriminate].
  destruct passed; [|discriminate]. cbn [negb].
  destruct (getAppConfig c _ _ _) as [found|e] eqn:Hfound; [|discriminate].
  destruct found; try discriminate; intros Hdone; injection Hdone as <- <-;
    cbn [configFilePath targetApp appConfig setAppConfig];
    (split; [reflexivity|]); (split; [discriminate|]); (split; [discriminate|]);
    (split; [exact Hdisk|]); (split; [eexists; exact Hschema|]);
    (split; [exact Hfound | discriminate]).
Qed.

End PreviewCommand.

Section PreviewLaunch.
Import Preview.
Variable c : Core.
Variable h : Host.
Variable fuel : nat.
Variable createServer : LwrGlobalConfig -> Completion LwrServerUtils.LwrApp.
Variable flags : FlagValues.

(** The default idle timeout is thirty minutes of milliseconds. *)
Example default_idle_delay :
  LwrServerUtils.idleDelay DEFAULT_SERVER_TIMEOUT_MINUTES = 30 * 60 * 1000.
Proof. reflexivity. Qed.

(** How [startLwrServer] settles, read off the way the server is
    created and bound. *)
Lemma startLwrServer_cases (componentName projectDir : string) (cfg : LwrGlobalConfig) :
  LwrServerUtils.getMergedLwrConfig h fuel componentName projectDir = Some cfg ->
  LwrServerUtils.startLwrServer h fuel createServer componentName projectDir
    DEFAULT_SERVER_TIMEOUT_MINUTES
  = Some
      match createServer cfg with
      | Throw error => (Throw error, LwrServerUtils.boot)
      | Normal lwrApp =>
          match LwrServerUtils.app_listen lwrApp with
          | Throw error => (Throw error, LwrServerUtils.boot)
          | Normal _ =>
              (Normal (JsString.ofZ (LwrServerUtils.app_port lwrApp)),
               LwrServerUtils.onListening (LwrServerUtils.app_port lwrApp)
                 (LwrServerUtils.app_serverMode lwrApp) DEFAULT_SERVER_TIMEOUT_MINUTES
                 LwrServerUtils.boot)
          end
      end.
Proof. intros Hcfg. unfold LwrServerUtils.startLwrServer. rewrite Hcfg. reflexivity. Qed.

Lemma started_server_is_armed (componentName projectDir : string) (serverPort : string)
    (process : LwrServerUtils.Process) :
  LwrServerUtils.startLwrServer h fuel createServer componentName projectDir
    DEFAULT_SERVER_TIMEOUT_MINUTES = Some (Normal serverPort, process) ->
  armedAfresh DEFAULT_SERVER_TIMEOUT_MINUTES process
  /\ exists cfg lwrApp,
       LwrServerUtils.getMergedLwrConfig h fuel componentName projectDir = Some cfg
       /\ createServer cfg = Normal lwrApp
       /\ LwrServerUtils.app_listen lwrApp = Normal tt
       /\ serverPort = JsString.ofZ (LwrServerUtils.app_port lwrApp).
Proof.
  destruct (LwrServerUtils.getMergedLwrConfig h fuel componentName projectDir) as [cfg|]
    eqn:Hcfg; [|unfold LwrServerUtils.startLwrServer; rewrite Hcfg; discriminate].
  rewrite (startLwrServer_cases componentName projectDir cfg Hcfg).
  destruct (createServer cfg) as [lwrApp|error] eqn:Hcreated; [|discriminate].
  destruct (LwrServerUtils.app_listen lwrApp) as [[]|error] eqn:Hbound; [|discriminate].
  intros Hstarted. injection Hstarted as <- <-.
  split; [apply listening_armed|].
  exists cfg, lwrApp. repeat split; (assumption || reflexivity).
Qed.

Lemma launched_server (f : Fields) (o : Outcome) (process : LwrServerUtils.Process) :
  launchPreview c h fuel createServer flags f = Some o ->
  server o = Some process ->
  armedAfresh DEFAULT_SERVER_TIMEOUT_MINUTES process
  /\ (exists cfg lwrApp,
        LwrServerUtils.getMergedLwrConfig h fuel (componentName f) (projectDir f) = Some cfg
        /\ createServer cfg = Normal lwrApp
        /\ LwrServerUtils.app_listen lwrApp = Normal tt)
  /\ (isTargetingBrowser c (targetApp f) = false ->
      Js.truthy (appConfig f) = true ->
      exists appBundlePath,
        getAppBundlePath c (path_dirname (configFilePath f)) (appConfig f)
        = Normal appBundlePath).
Proof.
  unfold launchPreview. intros Hlaunch Hserver.
  assert (Hlaunchers : forall log (started : option Outcome),
             started = launchDesktop c h fuel createServer (componentName f) (projectDir f)
             \/ (exists appBundlePath,
                   started = launchIOS c h fuel createServer (deviceName f) (componentName f)
                               (projectDir f) appBundlePath (targetApp f)
                               (andAlso (appConfig f) (appConfig f)))
             \/ (exists appBundlePath,
                   started = launchAndroid c h fuel createServer (deviceName f)
                               (componentName f) (projectDir f) appBundlePath (targetApp f)
                               (andAlso (appConfig f) (appConfig f))) ->
             withEffects log <$> started = Some o ->
             exists serverPort,
               LwrServerUtils.startLwrServer h fuel createServer (componentName f)
                 (projectDir f) DEFAULT_SERVER_TIMEOUT_MINUTES
               = Some (Normal serverPort, process)).
  { intros log started Hwhich Hsome.
    destruct Hwhich as [->|[[appBundlePath ->]|[appBundlePath ->]]];
      unfold launchDesktop, launchIOS, launchAndroid in Hsome;
      destruct (LwrServerUtils.startLwrServer h fuel createServer (componentName f)
                  (projectDir f) DEFAULT_SERVER_TIMEOUT_MINUTES)
        as [[[serverPort|error] process']|];
      try discriminate;
      cbn in Hsome; injection Hsome as <-; cbn in Hserver;
      try discriminate; injection Hserver as ->;
      exists serverPort; reflexivity. }
  assert (Hdispatch : forall log appBundlePath,
             withEffects log <$>
               (if platformFlagIsDesktop c (flag_platform flags) then
                  launchDesktop c h fuel createServer (componentName f) (projectDir f)
                else if platformFlagIsIOS c (flag_platform flags) then
                  launchIOS c h fuel createServer (deviceName f) (componentName f)
                    (projectDir f) appBundlePath (targetApp f)
                    (andAlso (appConfig f) (appConfig f))
                else
                  launchAndroid c h fuel createServer (deviceName f) (componentName f)
                    (projectDir f) appBundlePath (targetApp f)
                    (andAlso (appConfig f) (appConfig f))) = Some o ->
             armedAfresh DEFAULT_SERVER_TIMEOUT_MINUTES process
             /\ (exists cfg lwrApp,
                   LwrServerUtils.getMergedLwrConfig h fuel (componentName f) (projectDir f)
                   = Some cfg
                   /\ createServer cfg = Normal lwrApp
                   /\ LwrServerUtils.app_listen lwrApp = Normal tt)).
  { intros log appBundlePath Hsome.
    assert (Hstarted : exists serverPort,
               LwrServerUtils.startLwrServer h fuel createServer (componentName f)
                 (projectDir f) DEFAULT_SERVER_TIMEOUT_MINUTES
               = Some (Normal serverPort, process)).
    { refine (Hlaunchers log _ _ Hsome).
      destruct (platformFlagIsDesktop c (flag_platform flags)); [left; reflexivity|].
      destruct (platformFlagIsIOS c (flag_platform flags));
        [right; left | right; right]; exists appBundlePath; reflexivity. }
    destruct Hstarted as [serverPort Hstarted].
    destruct (started_server_is_armed _ _ _ _ Hstarted)
      as (Harmed & cfg & lwrApp & Hcfg & Hcreated & Hbound & _).
    split; [exact Harmed|]. exists cfg, lwrApp. repeat split; assumption. }
  destruct (negb (isTargetingBrowser c (targetApp f)) && Js.truthy (appConfig f)) eqn:Hnative.
  - destruct (getAppBundlePath c (path_dirname (configFilePath f)) (appConfig f))
      as [appBundlePath|error] eqn:Hbundle.
    + destruct (Hdispatch _ _ Hlaunch) as [Harmed Hbound].
      split; [exact Harmed|]. split; [exact Hbound|].
      intros _ _. exists appBundlePath. reflexivity.
    + injection Hlaunch as <-. discriminate.
  - destruct (Hdispatch _ _ Hlaunch) as [Harmed Hbound].
    split; [exact Harmed|]. split; [exact Hbound|]. intros Hbrowser Hconfig.
    rewrite Hbrowser, Hconfig in Hnative. discriminate.
Qed.

Lemma warned_outcome (o : Outcome) :
  settled (warnOnFailure flags o) = settled o /\ server (warnOnFailure flags o) = server o.
Proof. unfold warnOnFailure. destruct (settled o) eqn:Hsettled; cbn; auto. Qed.

End PreviewLaunch.

(** X20: a component name of blanks makes the command fail: whatever
    the other flags and the machine, [run] rejects, the last thing it
    writes is the warning that the preview failed, and no server is
    started; the search for a port is not even begun. *)
Theorem X20_blank_component_name_fails_the_command
    (c : Preview.Core) (h : Host) (fuel : nat)
    (createServer : LwrGlobalConfig -> Completion LwrServerUtils.LwrApp)
    (flags : Preview.FlagValues) :
  JsString.trim (Preview.flag_componentname flags) = "" ->
  exists log error,
    Preview.run c h fuel createServer flags
    = Some {| Preview.effects :=
                (Preview.LoggerInfo
                   ("Preview command invoked for " +:+ Preview.flag_platform flags) :: log)
                ++ [Preview.LoggerWarn
                      ("Preview failed for " +:+ Preview.flag_platform flags +:+ ".")];
              Preview.settled := Throw error;
              Preview.server := None |}.
Proof.
  intros Hblank.
  destruct (blank_name_is_rejected c h flags Preview.initialFields Hblank)
    as (f' & log & error & Hvalidated).
  exists log, error. apply (rejected_run c h flags fuel createServer f' log error Hvalidated).
Qed.

Lemma X20_witness_blank_name :
  exists log,
    Preview.run sampleCore bareHost 0 configuredServer blankNameFlags
    = Some {| Preview.effects :=
                (Preview.LoggerInfo "Preview command invoked for desktop" :: log)
                ++ [Preview.LoggerWarn "Preview failed for desktop."];
              Preview.settled := Throw "error:invalidComponentNameFlagsDescription";
              Preview.server := None |}.
Proof.
  destruct (X20_blank_component_name_fails_the_command sampleCore bareHost 0
              configuredServer blankNameFlags eq_refl) as (log & error & Hrun).
  exists log. rewrite Hrun. f_equal. f_equal.
  vm_compute in Hrun. injection Hrun as _ Herror. rewrite <- Herror. reflexivity.
Defined.

(** X21: with the browser as target app and a component name that is
    not blank, the validation resolves without looking into the
    configuration file: the schema validation and the app configuration
    are not asked for, [appConfig] stays as it was, and a configuration
    file that is on disk only earns the warning that it is ignored. *)
Theorem X21_browser_preview_ignores_the_config_file
    (c : Preview.Core) (h : Host) (flags : Preview.FlagValues) (f : Preview.Fields) :
  Preview.isTargetingBrowser c (JsString.trim (Preview.flag_targetapp flags)) = true ->
  JsString.trim (Preview.flag_componentname flags) <> "" ->
  let projectDir :=
    Preview.resolveUserHomePath c (JsString.trim (Preview.flag_projectdir flags)) in
  let configFileName :=
    Preview.resolveUserHomePath c (JsString.trim (Preview.flag_configfile flags)) in
  let configFilePath := Path.normalize (Path.resolve (cwd h) [projectDir; configFileName]) in
  Preview.validateInputParameters c h flags f
  = ({| Preview.deviceName := JsString.trim (Preview.flag_target flags);
        Preview.componentName := JsString.trim (Preview.flag_componentname flags);
        Preview.targetApp := JsString.trim (Preview.flag_targetapp flags);
        Preview.projectDir := projectDir;
        Preview.configFilePath := configFilePath;
        Preview.appConfig := Preview.appConfig f |},
     Preview.LoggerDebug "Validating Preview command inputs."
     :: (if (0 <? String.length configFileName)%nat && existsSync h configFilePath
         then [Preview.LoggerWarn
                 (Preview.getMessage c "ignoringConfigFileFlagDescription" [])]
         else []),
     Normal tt).
Proof.
  intros Hbrowser Hname projectDir configFileName configFilePath.
  unfold Preview.validateInputParameters. rewrite Hbrowser.
  rewrite andb_false_r. cbn [negb andb].
  destruct (JsString.trim (Preview.flag_componentname flags)) as [|ch rest] eqn:Hcomp;
    [contradiction|].
  cbn [String.length Nat.eqb].
  fold projectDir configFileName. fold configFilePath.
  destruct ((0 <? String.length configFileName)%nat && existsSync h configFilePath);
    reflexivity.
Qed.

Lemma X21_witness_desktop_flags :
  Preview.validateInputParameters sampleCore bareHost desktopFlags Preview.initialFields
  = ({| Preview.deviceName := "sfdxdebug";
        Preview.componentName := "force-app/main/default/lwc/myComponent";
        Preview.targetApp := "browser";
        Preview.projectDir := "/path/to/project_root";
        Preview.configFilePath := "/path/to/project_root";
        Preview.appConfig := JUndefined |},
     [Preview.LoggerDebug "Validating Preview command inputs."],
     Normal tt).
Proof.
  exact (X21_browser_preview_ignores_the_config_file sampleCore bareHost desktopFlags
           Preview.initialFields eq_refl ltac:(discriminate)).
Defined.

(** X22: with a target app other than the browser, the validation
    resolves only if the target flag is not the desktop, the component
    name is not blank, the configuration file is named and on disk, it
    passes the schema, and it holds a configuration for the app on that
    platform, which is then kept in [appConfig]. *)
Theorem X22_native_preview_needs_a_valid_config_file
    (c : Preview.Core) (h : Host) (flags : Preview.FlagValues) (f f' : Preview.Fields)
    (log : list Preview.Effect) :
  Preview.isTargetingBrowser c (JsString.trim (Preview.flag_targetapp flags)) = false ->
  Preview.validateInputParameters c h flags f = (f', log, Normal tt) ->
  Preview.platformFlagIsDesktop c (Preview.flag_target flags) = false
  /\ JsString.trim (Preview.flag_componentname flags) <> ""
  /\ Preview.resolveUserHomePath c (JsString.trim (Preview.flag_configfile flags)) <> ""
  /\ existsSync h (Preview.configFilePath f') = true
  /\ (exists errorMessage,
        Preview.validateConfigFileWithSchema c (Preview.configFilePath f')
        = Normal (true, errorMessage))
  /\ Preview.getAppConfig c (Preview.configFilePath f') (Preview.flag_platform flags)
       (Preview.targetApp f')
     = Normal (Preview.appConfig f')
  /\ Preview.appConfig f' <> JUndefined.
Proof. apply native_validation. Qed.

Lemma X22_witness_native_flags :
  exists f' log,
    Preview.validateInputParameters coreWithAppConfig hostWithMobileApps nativeFlags
      Preview.initialFields = (f', log, Normal tt)
    /\ Preview.configFilePath f' = "/path/to/project_root/mobile-apps.json"
    /\ existsSync hostWithMobileApps (Preview.configFilePath f') = true
    /\ Preview.appConfig f' = exampleAppConfig.
Proof.
  eexists _, _. split; [reflexivity|]. split; [reflexivity|].
  split; [|reflexivity].
  exact (proj1 (proj2 (proj2 (proj2
           (X22_native_preview_needs_a_valid_config_file coreWithAppConfig hostWithMobileApps
              nativeFlags Preview.initialFields _ _ eq_refl eq_refl))))).
Defined.

(** X23: the desktop preview from end to end.  With a desktop platform,
    the browser as target app, a component name that is not blank, no
    request for help and the requirements met, in a run where the merge
    of the configuration for that component and project returns (its
    search for a port ends), the command hands the merged configuration
    to [createServer].  When the server is created and its listener is
    bound, the idle timer is armed for thirty minutes and the command
    settles like the launch of the desktop browser at
    [http://localhost:] followed by the port that the server reports.
    When the creation throws or the listen fails, the command rejects
    with that error after the warning that the preview failed, no timer
    is armed and the browser is not launched. *)
Theorem X23_desktop_preview_opens_the_browser_on_the_server_port
    (c : Preview.Core) (h : Host) (fuel : nat)
    (createServer : LwrGlobalConfig -> Completion LwrServerUtils.LwrApp)
    (flags : Preview.FlagValues) (cfg : LwrGlobalConfig) :
  Preview.platformFlagIsDesktop c (Preview.flag_platform flags) = true ->
  Preview.isTargetingBrowser c (JsString.trim (Preview.flag_targetapp flags)) = true ->
  JsString.trim (Preview.flag_componentname flags) <> "" ->
  Preview.flag_confighelp flags = false ->
  Preview.RequirementProcessor_execute c None = Normal tt ->
  LwrServerUtils.getMergedLwrConfig h fuel
    (JsString.trim (Preview.flag_componentname flags))
    (Preview.resolveUserHomePath c (JsString.trim (Preview.flag_projectdir flags)))
  = Some cfg ->
  exists o,
    Preview.run c h fuel createServer flags = Some o
    /\ match createServer cfg with
       | Normal lwrApp =>
           match LwrServerUtils.app_listen lwrApp with
           | Normal _ =>
               Preview.settled o
               = Preview.launchUrlInDesktopBrowser c
                   ("http://localhost:"
                    +:+ JsString.ofZ (LwrServerUtils.app_port lwrApp))
               /\ exists process,
                    Preview.server o = Some process /\ armedAfresh 30 process
           | Throw error => Preview.failedWith flags error o
           end
       | Throw error => Preview.failedWith flags error o
       end.
Proof.
  intros Hdesktop Hbrowser Hname Hhelp Hreqs Hcfg.
  destruct (browser_validation c h flags Preview.initialFields Hbrowser Hname)
    as [log Hvalidated].
  unfold Preview.run. rewrite Hvalidated, Hhelp.
  unfold Preview.populateCommandRequirements. rewrite Hdesktop, Hreqs.
  unfold Preview.launchPreview.
  cbn [Preview.targetApp Preview.appConfig Preview.initialFields Preview.componentName
       Preview.projectDir Preview.deviceName Preview.configFilePath].
  rewrite Hbrowser. cbn [negb andb]. rewrite Hdesktop.
  unfold Preview.launchDesktop.
  rewrite (startLwrServer_cases h fuel createServer _ _ cfg Hcfg).
  cbn [mbind option_bind].
  destruct (createServer cfg) as [lwrApp|error].
  - destruct (LwrServerUtils.app_listen lwrApp) as [[]|error].
    + cbn [fmap option_fmap option_map mbind option_bind].
      eexists. split; [reflexivity|].
      split; [apply warned_outcome|].
      eexists. split; [rewrite (proj2 (warned_outcome _ _)); reflexivity|].
      apply listening_armed.
    + cbn [fmap option_fmap option_map mbind option_bind].
      eexists. split; [reflexivity|].
      unfold Preview.failedWith, Preview.warnOnFailure.
      cbn [Preview.settled Preview.server Preview.effects Preview.withEffects].
      split; [reflexivity|]. split; [reflexivity|].
      eexists. reflexivity.
  - cbn [fmap option_fmap option_map mbind option_bind].
    eexists. split; [reflexivity|].
    unfold Preview.failedWith, Preview.warnOnFailure.
    cbn [Preview.settled Preview.server Preview.effects Preview.withEffects].
    split; [reflexivity|]. split; [reflexivity|].
    eexists. reflexivity.
Qed.

Lemma X23_witness_desktop_flags :
  (exists o process,
     Preview.run sampleCore bareHost 1 configuredServer desktopFlags = Some o
     /\ Preview.settled o
        = Preview.launchUrlInDesktopBrowser sampleCore "http://localhost:3000"
     /\ Preview.server o = Some process
     /\ armedAfresh 30 process)
  /\ (exists o,
        Preview.run sampleCore bareHost 1 portTakenServer desktopFlags = Some o
        /\ Preview.settled o = Throw "Error: listen EADDRINUSE: address already in use"
        /\ Preview.server o = None).
Proof.
  split.
  - destruct (X23_desktop_preview_opens_the_browser_on_the_server_port sampleCore bareHost 1
                configuredServer desktopFlags _ eq_refl eq_refl ltac:(discriminate)
                eq_refl eq_refl eq_refl)
      as (o & Hrun & Hsettled & process & Hserver & Harmed).
    exists o, process. split; [exact Hrun|]. split; [exact Hsettled|].
    split; [exact Hserver | exact Harmed].
  - destruct (X23_desktop_preview_opens_the_browser_on_the_server_port sampleCore bareHost 1
                portTakenServer desktopFlags _ eq_refl eq_refl ltac:(discriminate)
                eq_refl eq_refl eq_refl)
      as (o & Hrun & Hsettled & Hserver & _).
    exists o. split; [exact Hrun|]. split; [exact Hsettled | exact Hserver].
Defined.

(** X24: the command starts a server only at the end of the chain: if
    [run] leaves a server process behind, the validation resolved, help
    was not asked for, the requirements of the platform were met, the
    app bundle was found when a native app with a configuration is
    targeted, the server was created from the merged configuration and
    its listener bound, and the process has its idle timer armed for
    thirty minutes. *)
Theorem X24_server_is_started_last
    (c : Preview.Core) (h : Host) (fuel : nat)
    (createServer : LwrGlobalConfig -> Completion LwrServerUtils.LwrApp)
    (flags : Preview.FlagValues) (o : Preview.Outcome) (process : LwrServerUtils.Process) :
  Preview.run c h fuel createServer flags = Some o ->
  Preview.server o = Some process ->
  exists f log,
    Preview.validateInputParameters c h flags Preview.initialFields = (f, log, Normal tt)
    /\ Preview.flag_confighelp flags = false
    /\ Preview.RequirementProcessor_execute c (Preview.populateCommandRequirements c flags)
       = Normal tt
    /\ (Preview.isTargetingBrowser c (Preview.targetApp f) = false ->
        Js.truthy (Preview.appConfig f) = true ->
        exists appBundlePath,
          Preview.getAppBundlePath c (path_dirname (Preview.configFilePath f))
            (Preview.appConfig f) = Normal appBundlePath)
    /\ armedAfresh 30 process
    /\ (exists cfg lwrApp,
          LwrServerUtils.getMergedLwrConfig h fuel (Preview.componentName f)
            (Preview.projectDir f) = Some cfg
          /\ createServer cfg = Normal lwrApp
          /\ LwrServerUtils.app_listen lwrApp = Normal tt).
Proof.
  unfold Preview.run. intros Hrun Hserver.
  destruct (Preview.validateInputParameters c h flags Preview.initialFields)
    as [[f log] validated].
  destruct validated as [[]|error];
    [|injection Hrun as <-; discriminate].
  destruct (Preview.flag_confighelp flags);
    [injection Hrun as <-; discriminate|].
  destruct (Preview.RequirementProcessor_execute c
              (Preview.populateCommandRequirements c flags)) as [[]|error];
    [|injection Hrun as <-; discriminate].
  destruct (Preview.launchPreview c h fuel createServer flags f) as [launched|] eqn:Hlaunch;
    [|discriminate].
  cbn [fmap option_fmap option_map] in Hrun. injection Hrun as <-.
  rewrite (proj2 (warned_outcome _ _)) in Hserver. cbn [Preview.withEffects Preview.server] in Hserver.
  destruct (launched_server c h fuel createServer flags f launched process Hlaunch Hserver)
    as (Harmed & Hbound & Hbundle).
  exists f, log. split; [reflexivity|]. split; [reflexivity|]. split; [reflexivity|].
  split; [exact Hbundle|]. split; [exact Harmed | exact Hbound].
Qed.

Lemma X24_witness_native_preview :
  exists o process,
    Preview.run coreWithAppConfig hostWithMobileApps 1 configuredServer nativeFlags = Some o
    /\ Preview.server o = Some process
    /\ Preview.getAppBundlePath coreWithAppConfig "/path/to/project_root" exampleAppConfig
       = Normal "/path/to/project_root/Example.app"
    /\ armedAfresh 30 process.
Proof.
  eexists _, _. split; [reflexivity|]. split; [reflexivity|]. split; [reflexivity|].
  destruct (X24_server_is_started_last coreWithAppConfig hostWithMobileApps 1
              configuredServer nativeFlags _ _ eq_refl eq_refl)
    as (f & log & _ & _ & _ & _ & Harmed & _).
  exact Harmed.
Defined.

(** ** The entries of virtual modules *)

Section VirtualEntries.
Import Path.

Lemma basename_last (pre t : string) :
  t <> "" -> JsString.occurs "/" t = false -> basename (pre +:+ String "/" t) = t.
Proof.
  intros Hne Hslash. unfold basename.
  replace (pre +:+ String "/" t) with ((pre +:+ "/") +:+ t)
    by (rewrite app_assoc; reflexivity).
  rewrite strip_app_absent by assumption.
  rewrite app_assoc. change ("/" +:+ t) with (String "/" t).
  rewrite splitLast_at_last by exact Hslash. reflexivity.
Qed.

Lemma extname_undotted (pre t : string) :
  t <> "" -> JsString.occurs "/" t = false -> JsString.occurs "." t = false ->
  extname (pre +:+ String "/" t) = "".
Proof.
  intros Hne Hslash Hdot. unfold extname.
  rewrite basename_last by assumption.
  unfold splitExt. rewrite (splitLast_absent "." t Hdot). reflexivity.
Qed.

Lemma extname_hidden (pre t : string) :
  JsString.occurs "/" t = false -> JsString.occurs "." t = false ->
  extname (pre +:+ String "/" (String "." t)) = "".
Proof.
  intros Hslash Hdot. unfold extname.
  rewrite basename_last by (discriminate || (cbn [JsString.occurs]; exact Hslash)).
  unfold splitExt.
  change (String "." t) with ("" +:+ String "." t).
  rewrite (splitLast_at_last "." "" t Hdot). reflexivity.
Qed.

End VirtualEntries.

(** X25: the path of a virtual entry is [<virtual>/] and the specifier,
    with [.js] put after it when [path.extname] of the specifier is
    empty, in four cases.  For a label [ns.name] whose namespace is a
    name, the extension of the specifier is [.name] and nothing is put
    after it; for a label with an empty namespace, [.name], the
    specifier has no extension and [.js] is put after it.  For a static
    resource without a dot [.js] is put after the specifier, and for
    one written as [name.ext] nothing is. *)
Theorem X25_virtual_entry_gets_a_script_extension_when_it_has_none
    (customLabelsMap : JsMap JsValue) (moduleId : ModuleId) :
  (forall ns someLabel found,
     specifier moduleId = "@salesforce/label/" +:+ ns +:+ "." +:+ someLabel ->
     someOtherThan "." ns = true ->
     JsString.occurs "/" ns = false ->
     JsString.occurs "/" someLabel = false ->
     JsString.occurs "." someLabel = false ->
     SalesforceLabelProvider.getLabelValueFromMap customLabelsMap (specifier moduleId)
     = Normal found ->
     Js.truthy found = true ->
     exists e,
       SalesforceLabelProvider.getModuleEntry customLabelsMap moduleId = Normal (Some e)
       /\ SalesforceLabelProvider.labelValue e = found
       /\ entry_path (SalesforceLabelProvider.entry e) = "<virtual>/" +:+ specifier moduleId)
  /\ (forall someLabel found,
        specifier moduleId = "@salesforce/label/." +:+ someLabel ->
        JsString.occurs "/" someLabel = false ->
        JsString.occurs "." someLabel = false ->
        SalesforceLabelProvider.getLabelValueFromMap customLabelsMap (specifier moduleId)
        = Normal found ->
        Js.truthy found = true ->
        exists e,
          SalesforceLabelProvider.getModuleEntry customLabelsMap moduleId = Normal (Some e)
          /\ entry_path (SalesforceLabelProvider.entry e)
             = "<virtual>/" +:+ specifier moduleId +:+ ".js")
  /\ (forall resource,
        specifier moduleId = "@salesforce/resourceUrl/" +:+ resource ->
        resource <> "" ->
        JsString.occurs "/" resource = false ->
        JsString.occurs "." resource = false ->
        exists e,
          SalesforceResourceProvider.getModuleEntry moduleId = Normal (Some e)
          /\ entry_path e = "<virtual>/" +:+ specifier moduleId +:+ ".js")
  /\ (forall resource ext,
        specifier moduleId = "@salesforce/resourceUrl/" +:+ resource +:+ "." +:+ ext ->
        someOtherThan "." resource = true ->
        JsString.occurs "/" resource = false ->
        JsString.occurs "/" ext = false ->
        JsString.occurs "." ext = false ->
        exists e,
          SalesforceResourceProvider.getModuleEntry moduleId = Normal (Some e)
          /\ entry_path e = "<virtual>/" +:+ specifier moduleId).
Proof.
  split; [|split; [|split]].
  - intros ns someLabel found Hspec Hns Hns_slash Hslash Hdot Hfound Htruthy.
    unfold SalesforceLabelProvider.getModuleEntry. rewrite Hfound. rewrite Hspec.
    change (SalesforceLabelProvider.isLabelScopedModule
              ("@salesforce/label/" +:+ ns +:+ "." +:+ someLabel)) with true.
    cbn [bindC]. rewrite Htruthy.
    eexists. split; [reflexivity|]. split; [reflexivity|].
    cbn [entry_path SalesforceLabelProvider.entry].
    rewrite (extname_dotted "@salesforce/label/" ns someLabel Hns Hns_slash Hslash Hdot).
    change (JsString.truthy ("." +:+ someLabel)) with true. cbn iota.
    rewrite app_empty_r. reflexivity.
  - intros someLabel found Hspec Hslash Hdot Hfound Htruthy.
    unfold SalesforceLabelProvider.getModuleEntry. rewrite Hfound. rewrite Hspec.
    change (SalesforceLabelProvider.isLabelScopedModule
              ("@salesforce/label/." +:+ someLabel)) with true.
    cbn [bindC]. rewrite Htruthy.
    eexists. split; [reflexivity|].
    cbn [entry_path SalesforceLabelProvider.entry].
    change ("@salesforce/label/." +:+ someLabel)
      with ("@salesforce/label" +:+ String "/" (String "." someLabel)).
    rewrite (extname_hidden "@salesforce/label" someLabel Hslash Hdot).
    reflexivity.
  - intros resource Hspec Hne Hslash Hdot.
    unfold SalesforceResourceProvider.getModuleEntry. rewrite Hspec.
    change (SalesforceResourceProvider.isResourceUrlScopedModule
              ("@salesforce/resourceUrl/" +:+ resource)) with true.
    eexists. split; [reflexivity|]. cbn [entry_path].
    change ("@salesforce/resourceUrl/" +:+ resource)
      with ("@salesforce/resourceUrl" +:+ String "/" resource).
    rewrite (extname_undotted "@salesforce/resourceUrl" resource Hne Hslash Hdot).
    reflexivity.
  - intros resource ext Hspec Hres Hslash Hslash' Hdot.
    unfold SalesforceResourceProvider.getModuleEntry. rewrite Hspec.
    change (SalesforceResourceProvider.isResourceUrlScopedModule
              ("@salesforce/resourceUrl/" +:+ resource +:+ "." +:+ ext)) with true.
    eexists. split; [reflexivity|]. cbn [entry_path].
    rewrite (extname_dotted "@salesforce/resourceUrl/" resource ext Hres Hslash Hslash' Hdot).
    change (JsString.truthy ("." +:+ ext)) with true. cbn iota.
    rewrite app_empty_r. reflexivity.
Qed.

Lemma X25_witness_label_and_image :
  (exists e,
     SalesforceLabelProvider.getModuleEntry (parsedFiles sampleLabelFiles) (labelId "greeting")
     = Normal (Some e)
     /\ SalesforceLabelProvider.labelValue e = JStr "Hello"
     /\ entry_path (SalesforceLabelProvider.entry e) = "<virtual>/@salesforce/label/c.greeting")
  /\ (exists e,
        SalesforceResourceProvider.getModuleEntry (resourceId "myImage") = Normal (Some e)
        /\ entry_path e = "<virtual>/@salesforce/resourceUrl/myImage.js").
Proof.
  split.
  - exact (proj1 (X25_virtual_entry_gets_a_script_extension_when_it_has_none
                    (parsedFiles sampleLabelFiles) (labelId "greeting"))
             "c" "greeting" (JStr "Hello") eq_refl eq_refl eq_refl eq_refl eq_refl
             eq_refl eq_refl).
  - exact (proj1 (proj2 (proj2 (X25_virtual_entry_gets_a_script_extension_when_it_has_none
                                  [] (resourceId "myImage"))))
             "myImage" eq_refl ltac:(discriminate) eq_refl eq_refl).
Defined.
